(** * compute_setup.py: configuration transformation, validation and encoding

    A shallow embedding of [build_compute_config], [validate_config],
    [encode_config_to_base64] and the core of [main] from
    [src/compute_setup.py], together with the properties the specification
    states about them; and, with further properties read off the code, of
    [list_available_configs], [print_available_configs] and the handlers
    of the entry point.

    Conventions of the embedding.
    - A JSON document as [json.load] returns it is a value of [json].
      A Python [dict] is an association list in insertion order; a lookup
      takes the first binding of a key (a loaded document has each key once).
      JSON numbers are modelled by their integer case: a floating-point
      number has no value in [json], and [json_loads] reads none.
    - A Python [str] is the Rocq [string] of its UTF-8 bytes.  Equality,
      emptiness, concatenation, [join] and [startswith] on an ASCII prefix
      commute with that encoding.
    - Exceptions are values of [exn]; code that can raise returns a
      [result].  [print] and [open(...).write] act on an explicit [world].
    - The library code the properties depend on is embedded too:
      [json.dumps] with [indent=2], [base64.b64encode], and, for reading
      the artifact back, [base64.b64decode] and [json.loads].

    The definitions come first: the program, the vocabulary of the
    statements, the sample documents.  The theorems follow, block by block
    of the validator, then the Transformer, then the Encoder. *)

From Stdlib Require Import ZArith NArith List String Ascii Bool Lia Sorted.
From Stdlib Require Import Decimal DecimalString DecimalZ.
From Stdlib Require DecimalPos DecimalFacts.
Import ListNotations.
Open Scope string_scope.

(** ** Python values *)

#[local] Set Warnings "-register-all".

Inductive json : Type :=
| JNull
| JBool (b : bool)
| JInt (z : Z)
| JStr (s : string)
| JList (items : list json)
| JDict (fields : list (string * json)).

Definition pydict := list (string * json).

Inductive exn : Type :=
| ValueError (msg : string)
| KeyError (key : string)
| TypeError
| AttributeError
| OSError.

Inductive result (A : Type) : Type :=
| Ok (a : A)
| Raise (e : exn).
Arguments Ok {A} a.
Arguments Raise {A} e.

Definition rbind {A B} (m : result A) (f : A -> result B) : result B :=
  match m with
  | Ok a => f a
  | Raise e => Raise e
  end.

Declare Scope result_scope.
Delimit Scope result_scope with result.
Notation "x <- m ;; k" := (rbind m (fun x => k))
  (at level 61, m at next level, right associativity) : result_scope.

(** Character constants that a Rocq literal cannot hold directly. *)
Definition LF : ascii := "010"%char.
Definition CR : ascii := "013"%char.
Definition TAB : ascii := "009"%char.
Definition DQUOTE : ascii := "034"%char.
Definition SQUOTE : ascii := "039"%char.
Definition BACKSLASH : ascii := "092"%char.
Definition nl : string := String LF "".

(** [bool(v)] *)
Definition py_truthy (v : json) : bool :=
  match v with
  | JNull => false
  | JBool b => b
  | JInt z => negb (z =? 0)%Z
  | JStr s => negb (s =? "")
  | JList l => match l with [] => false | _ => true end
  | JDict d => match d with [] => false | _ => true end
  end.

(** [a or b] *)
Definition py_or (a b : json) : json := if py_truthy a then a else b.

Definition is_none (v : json) : bool := match v with JNull => true | _ => false end.
Definition is_dict (v : json) : bool := match v with JDict _ => true | _ => false end.
Definition is_list (v : json) : bool := match v with JList _ => true | _ => false end.
Definition is_str (v : json) : bool := match v with JStr _ => true | _ => false end.

(** [v == s] for a [str] literal [s]: only an equal [str] compares equal. *)
Definition py_eq_str (v : json) (s : string) : bool :=
  match v with JStr t => (t =? s) | _ => false end.

(** [v in (s1, s2, ...)] on a tuple of [str] literals (compares with [==]). *)
Definition py_in_strs (v : json) (l : list string) : bool := existsb (py_eq_str v) l.

(** [hash(v)] succeeds on scalars and raises [TypeError] on list and dict. *)
Definition py_hashable (v : json) : bool :=
  match v with JList _ | JDict _ => false | _ => true end.

(** *** dict operations *)

Fixpoint lookup (k : string) (d : pydict) : option json :=
  match d with
  | [] => None
  | (k', v) :: rest => if k' =? k then Some v else lookup k rest
  end.

(** [k in d] *)
Definition dict_has (d : pydict) (k : string) : bool :=
  match lookup k d with Some _ => true | None => false end.

(** [d.get(k, default)] *)
Definition dict_get (d : pydict) (k : string) (default : json) : json :=
  match lookup k d with Some v => v | None => default end.

(** [d[k]] *)
Definition dict_item (d : pydict) (k : string) : result json :=
  match lookup k d with Some v => Ok v | None => Raise (KeyError k) end.

(** [v.get(k, default)] on an arbitrary value: only a dict has [get]. *)
Definition py_get (v : json) (k : string) (default : json) : result json :=
  match v with
  | JDict d => Ok (dict_get d k default)
  | _ => Raise AttributeError
  end.

(** [v[k]] with a [str] key on an arbitrary value: a dict is looked up,
    [str] and [list] want integer indices, the rest is not subscriptable. *)
Definition py_item (v : json) (k : string) : result json :=
  match v with
  | JDict d => dict_item d k
  | _ => Raise TypeError
  end.

(** [iter(v)]: a list yields its items, a dict its keys, a [str] its
    characters (each a [str]); the other values are not iterable. *)
Definition py_iter (v : json) : result (list json) :=
  match v with
  | JList l => Ok l
  | JDict d => Ok (map (fun kv => JStr (fst kv)) d)
  | JStr s => Ok (map (fun c => JStr (String c "")) (list_ascii_of_string s))
  | _ => Raise TypeError
  end.

(** *** [str()] and [repr()] *)

(** [repr] of an [int] *)
Definition string_of_Z (z : Z) : string := NilZero.string_of_int (Z.to_int z).

Definition hex_digit (n : N) : ascii :=
  match n with
  | 0 => "0" | 1 => "1" | 2 => "2" | 3 => "3" | 4 => "4" | 5 => "5" | 6 => "6" | 7 => "7"
  | 8 => "8" | 9 => "9" | 10 => "a" | 11 => "b" | 12 => "c" | 13 => "d" | 14 => "e" | _ => "f"
  end%N%char.

(** ["%02x" % n] for a byte *)
Definition hex2 (n : N) : string :=
  String (hex_digit (n / 16)) (String (hex_digit (n mod 16)) "").

Fixpoint str_contains (c : ascii) (s : string) : bool :=
  match s with
  | EmptyString => false
  | String c' s' => (c' =? c)%char || str_contains c s'
  end.

(** One character of [repr(str)].  ASCII is exact: the quote and the
    backslash are escaped, tab, line feed and carriage return get their
    letter escapes, the other control characters and DEL the [\xNN] form.
    Bytes from 0x80 on belong to non-ASCII characters, which [repr] leaves
    as they are when Unicode calls them printable; that is assumed here. *)
Definition repr_char (quote c : ascii) : string :=
  if ((c =? quote) || (c =? BACKSLASH))%char then String BACKSLASH (String c "")
  else if (c =? TAB)%char then "\t"
  else if (c =? LF)%char then "\n"
  else if (c =? CR)%char then "\r"
  else if ((N_of_ascii c <? 32) || (N_of_ascii c =? 127))%N then "\x" ++ hex2 (N_of_ascii c)
  else String c "".

Fixpoint repr_chars (quote : ascii) (s : string) : string :=
  match s with
  | EmptyString => ""
  | String c s' => repr_char quote c ++ repr_chars quote s'
  end.

(** [repr(s)]: single quotes, unless [s] has a single quote and no double one. *)
Definition repr_str (s : string) : string :=
  let quote := if str_contains SQUOTE s && negb (str_contains DQUOTE s) then DQUOTE else SQUOTE in
  String quote (repr_chars quote s ++ String quote "").

Fixpoint py_repr (v : json) : string :=
  match v with
  | JNull => "None"
  | JBool true => "True"
  | JBool false => "False"
  | JInt z => string_of_Z z
  | JStr s => repr_str s
  | JList l => "[" ++ concat ", " (map py_repr l) ++ "]"
  | JDict d =>
      "{" ++ concat ", " (map (fun kv => let '(k, x) := kv in repr_str k ++ ": " ++ py_repr x) d) ++ "}"
  end.

(** [str(v)], which is what an f-string field [{v}] formats *)
Definition py_str (v : json) : string :=
  match v with
  | JStr s => s
  | _ => py_repr v
  end.

(** [sorted] on a collection of [str] (code-point order is byte order in UTF-8) *)
Fixpoint insert_sorted (s : string) (l : list string) : list string :=
  match l with
  | [] => [s]
  | t :: rest => if String.leb s t then s :: l else t :: insert_sorted s rest
  end.

Definition py_sorted (l : list string) : list string := fold_right insert_sorted [] l.

(** ** The world: what [print] and file writes act on *)

Record world : Type := World {
  stdout : list string;             (* lines printed so far, oldest first *)
  files : list (string * string)    (* path and content, newest binding first *)
}.

Definition M (A : Type) : Type := world -> world * result A.

Definition ret {A} (a : A) : M A := fun w => (w, Ok a).
Definition raise {A} (e : exn) : M A := fun w => (w, Raise e).
Definition bind {A B} (m : M A) (f : A -> M B) : M B :=
  fun w => match m w with
           | (w', Ok a) => f a w'
           | (w', Raise e) => (w', Raise e)
           end.
Definition lift {A} (r : result A) : M A := fun w => (w, r).

Declare Scope world_scope.
Delimit Scope world_scope with world.
Notation "x <- m ;; k" := (bind m (fun x => k))
  (at level 61, m at next level, right associativity) : world_scope.
Notation "m ;; k" := (bind m (fun _ => k))
  (at level 61, right associativity) : world_scope.

(** [print(s)] *)
Definition print (s : string) : M unit :=
  fun w => (World (stdout w ++ [s]) (files w), Ok tt).

(** [with open(path, "w") as f: f.write(content)]: the file is created or
    truncated and then holds [content].  Every [str] is taken for a path
    that can be opened; a directory that is missing or may not be written
    to is outside the model. *)
Definition write_file (path content : string) : M unit :=
  fun w => (World (stdout w) ((path, content) :: files w), Ok tt).

Fixpoint read_file (path : string) (fs : list (string * string)) : option string :=
  match fs with
  | [] => None
  | (p, c) :: rest => if p =? path then Some c else read_file path rest
  end.

(** ** The Transformer: [build_compute_config] (lines 120-161)

    Statements and sub-expressions are evaluated in the source's order, so
    the first exception raised is the one Python raises. *)

Definition build_compute_config (cfg : pydict) : result pydict :=
  (cluster <- dict_item cfg "cluster" ;;
   auth <- dict_item cfg "authentication" ;;
   let registry := py_or (dict_get cfg "registry" JNull) (JDict []) in
   network <- dict_item cfg "network" ;;
   let metadata := py_or (dict_get cfg "metadata" JNull) (JDict []) in
   registry_domain <- py_get registry "domain" (JStr "hub.dataloop.ai") ;;
   registry_faas_folder <- py_get registry "faasFolder" (JStr "customerhub") ;;
   registry_bootstrap_folder <- py_get registry "bootstrapFolder" (JStr "customerhub") ;;
   ca <- py_get auth "ca" (JStr "") ;;
   token <- py_item auth "token" ;;
   endpoint <- py_item cluster "endpoint" ;;
   kubernetesVersion <- py_item cluster "kubernetesVersion" ;;
   name <- py_item cluster "name" ;;
   nodePools <- dict_item cfg "nodePools" ;;
   defaultNamespace <- py_item cluster "defaultNamespace" ;;
   let volumes := dict_get cfg "volumes" (JList []) in
   serviceAccountName <- py_get cluster "serviceAccountName" (JStr "faas") ;;
   let securityContext := dict_get cfg "securityContext" (JDict []) in
   let defaultResources := dict_get cfg "defaultResources" (JDict []) in
   internalRequestsUrl <- py_get network "internalRequestsUrl" JNull ;;
   environmentVariables <- py_get network "environmentVariables" (JList []) ;;
   let plugins := dict_get cfg "plugins" (JList []) in
   provider <- py_item cluster "provider" ;;
   Ok [ ("authentication", JDict [ ("ca", ca); ("token", token) ]);
        ("config", JDict [
           ("endpoint", endpoint);
           ("kubernetesVersion", kubernetesVersion);
           ("name", name);
           ("nodePools", nodePools);
           ("metadata", metadata);
           ("settings", JDict [ ("defaultNamespace", defaultNamespace) ]);
           ("deploymentConfiguration", JDict [
              ("volumes", volumes);
              ("serviceAccountName", serviceAccountName);
              ("securityContext", securityContext);
              ("registry", JDict [
                 ("domain", registry_domain);
                 ("faasFolder", registry_faas_folder);
                 ("bootstrapFolder", registry_bootstrap_folder) ]);
              ("defaultResources", defaultResources);
              ("internalRequestsUrl", internalRequestsUrl);
              ("environmentVariables", environmentVariables) ]);
           ("plugins", plugins);
           ("provider", provider) ]) ])%result.

(** ** The Validator: [validate_config] (lines 164-252)

    One definition per commented block of the function, in the source's
    order; [validate_config] runs them in sequence and stops at the first
    one that raises. *)

Definition placeholder_org_ids : list string :=
  [ "{{org-id}}"; "<REPLACE: Your Dataloop Organization ID>"; "YOUR_ORG_ID_HERE" ].

Definition missing_values_message (missing : list string) : string :=
  "Missing required values in config file:" ++ nl ++ "  - "
  ++ concat (nl ++ "  - ") missing
  ++ nl ++ nl ++ "Please edit your config file and re-run."
  ++ nl ++ "See README.md for detailed instructions.".

(** Lines 168-184: required values.  [org_id] is read first (line 168),
    then the three tests fill [missing] in order. *)
Definition check_required_values (cfg : pydict) (auth conf : json) : result unit :=
  (org_id <- py_get (dict_get cfg "organization" (JDict [])) "orgId" (JStr "") ;;
   token <- py_get auth "token" JNull ;;
   let missing := if negb (py_truthy token) then [ "authentication.token" ] else [] in
   endpoint <- py_get conf "endpoint" JNull ;;
   let missing :=
     (missing ++ (if negb (py_truthy endpoint) then [ "cluster.endpoint" ] else []))%list in
   let missing :=
     (missing ++ (if negb (py_truthy org_id) || py_in_strs org_id placeholder_org_ids
                  then [ "organization.orgId" ] else []))%list in
   match missing with
   | [] => Ok tt
   | _ => Raise (ValueError (missing_values_message missing))
   end)%result.

Definition endpoint_message : string := "cluster.endpoint must start with http:// or https://".

(** [v.startswith(p)]: only a [str] has the method. *)
Definition py_startswith (v : json) (p : string) : result bool :=
  match v with
  | JStr s => Ok (prefix p s)
  | _ => Raise AttributeError
  end.

(** Lines 186-189: endpoint format. *)
Definition check_endpoint_format (conf : json) : result unit :=
  (endpoint <- py_item conf "endpoint" ;;
   h <- py_startswith endpoint "http://" ;;
   hs <- (if h then Ok true else py_startswith endpoint "https://") ;;
   if hs then Ok tt else Raise (ValueError endpoint_message))%result.

Definition warning_sign : string := "‚ö†Ô∏è".

Definition ca_warning : string :=
  warning_sign ++ "  Warning: authentication.ca is empty. Set it if your cluster requires a CA certificate.".
Definition volumes_warning : string :=
  warning_sign ++ "  Warning: No volumes defined. Add volumes if your workloads need storage.".

(** Lines 191-195: warnings for optional but recommended fields. *)
Definition warn_optional_fields (auth conf : json) : M unit :=
  (ca <- lift (py_get auth "ca" JNull) ;;
   (if negb (py_truthy ca) then print ca_warning else ret tt) ;;
   dc <- lift (py_get conf "deploymentConfiguration" (JDict [])) ;;
   volumes <- lift (py_get dc "volumes" JNull) ;;
   if negb (py_truthy volumes) then print volumes_warning else ret tt)%world.

Definition metadata_shape_message : string :=
  "metadata must be an object (JSON dict) when provided".

Definition allowed_service_types : list string := [ "ClusterIP"; "LoadBalancer" ].

Definition service_type_message (serve_agent_service_type : json) : string :=
  "Invalid metadata.serveAgentServiceType: "
  ++ py_str serve_agent_service_type ++ ". Allowed values: "
  ++ py_repr (JList (map JStr (py_sorted allowed_service_types))).

(** [v not in {s1, s2, ...}] on a set of [str]: the value is hashed first. *)
Definition py_not_in_str_set (v : json) (l : list string) : result bool :=
  if py_hashable v then Ok (negb (py_in_strs v l)) else Raise TypeError.

(** Lines 197-209: metadata shape, then the serveAgentServiceType gate. *)
Definition check_metadata (cfg : pydict) : result unit :=
  (if dict_has cfg "metadata"
      && negb (is_none (dict_get cfg "metadata" JNull))
      && negb (is_dict (dict_get cfg "metadata" JNull))
   then Raise (ValueError metadata_shape_message)
   else
     let metadata := py_or (dict_get cfg "metadata" JNull) (JDict []) in
     serve_agent_service_type <- py_get metadata "serveAgentServiceType" JNull ;;
     if negb (is_none serve_agent_service_type) then
       bad <- py_not_in_str_set serve_agent_service_type allowed_service_types ;;
       if bad then Raise (ValueError (service_type_message serve_agent_service_type))
       else Ok tt
     else Ok tt)%result.

Definition mandatory_plugins : list string := [ "monitoring"; "scaler" ].

(** [{p.get("name") for p in plugins if isinstance(p, dict)}]: every name
    is hashed on its way into the set. *)
Fixpoint plugin_name_set (plugins : list json) : result (list json) :=
  match plugins with
  | [] => Ok []
  | JDict p :: rest =>
      let name := dict_get p "name" JNull in
      if py_hashable name
      then (names <- plugin_name_set rest ;; Ok (name :: names))%result
      else Raise TypeError
  | _ :: rest => plugin_name_set rest
  end.

(** [mandatory - names] *)
Definition set_difference (mandatory : list string) (names : list json) : list string :=
  filter (fun m => negb (existsb (fun n => py_eq_str n m) names)) mandatory.

Definition missing_plugins_message (missing_plugins : list string) : string :=
  "Missing mandatory plugins in config file:" ++ nl ++ "  - "
  ++ concat (nl ++ "  - ") (map (fun name => "plugins: " ++ name) missing_plugins)
  ++ nl ++ nl ++ "Please add them under the top-level 'plugins' array."
  ++ nl ++ "See README.md ‚Üí Plugins for examples.".

(** Lines 211-222: mandatory plugins. *)
Definition check_mandatory_plugins (cfg : pydict) : result unit :=
  (plugins <- py_iter (dict_get cfg "plugins" (JList [])) ;;
   plugin_names <- plugin_name_set plugins ;;
   let missing_plugins := py_sorted (set_difference mandatory_plugins plugin_names) in
   match missing_plugins with
   | [] => Ok tt
   | _ => Raise (ValueError (missing_plugins_message missing_plugins))
   end)%result.

Definition allowed_dl_types : list string :=
  [ "regular-xs"; "regular-s"; "regular-m"; "regular-l";
    "highmem-xs"; "highmem-s"; "highmem-m"; "highmem-l";
    "gpu-t4"; "gpu-t4-m";
    "gpu-a100-s"; "gpu-a100-4g"; "gpu-a100-4g-m" ].

(** [not isinstance(t, str) or t not in allowed_dl_types] *)
Definition invalid_dl_type (t : json) : bool :=
  negb (is_str t) || negb (py_in_strs t allowed_dl_types).

(** [pool.get("name") or f"nodePools[{idx}]"] *)
Definition pool_name_of (idx : nat) (p : pydict) : json :=
  py_or (dict_get p "name" JNull)
        (JStr ("nodePools[" ++ string_of_Z (Z.of_nat idx) ++ "]")).

(** The body of the loop of lines 232-242 for one pool: what it appends
    to [invalid_dl_types_by_pool]. *)
Definition pool_violations (idx : nat) (pool : json) : list string :=
  match pool with
  | JDict p =>
      let pool_name := pool_name_of idx p in
      let dl_types := dict_get p "dlTypes" (JList []) in
      match dl_types with
      | JList ts =>
          let invalid := filter invalid_dl_type ts in
          match invalid with
          | [] => []
          | _ => [ py_str pool_name ++ ": invalid dlTypes: " ++ py_repr (JList invalid) ]
          end
      | _ => [ py_str pool_name ++ ": dlTypes must be an array" ]
      end
  | _ => []
  end.

(** [for idx, pool in enumerate(pools)], counting from [idx] *)
Fixpoint invalid_dl_types_by_pool (idx : nat) (pools : list json) : list string :=
  match pools with
  | [] => []
  | pool :: rest => (pool_violations idx pool ++ invalid_dl_types_by_pool (S idx) rest)%list
  end.

Definition dl_types_message (invalid_by_pool : list string) : string :=
  "Invalid nodePools.dlTypes values:" ++ nl ++ "  - "
  ++ concat (nl ++ "  - ") invalid_by_pool
  ++ nl ++ nl ++ "Allowed values:" ++ nl ++ "  - "
  ++ concat ", " (py_sorted allowed_dl_types)
  ++ nl ++ nl ++ "See README.md ‚Üí Node Pools for examples.".

(** Lines 224-252: nodePools.dlTypes. *)
Definition check_node_pool_dl_types (cfg : pydict) : result unit :=
  (pools <- py_iter (dict_get cfg "nodePools" (JList [])) ;;
   match invalid_dl_types_by_pool 0 pools with
   | [] => Ok tt
   | invalid => Raise (ValueError (dl_types_message invalid))
   end)%result.

(** [compute_cfg.get("authentication", {})] and [compute_cfg.get("config", {})] *)
Definition auth_of (compute_cfg : pydict) : json := dict_get compute_cfg "authentication" (JDict []).
Definition conf_of (compute_cfg : pydict) : json := dict_get compute_cfg "config" (JDict []).

Definition validate_config (cfg compute_cfg : pydict) : M unit :=
  (let auth := auth_of compute_cfg in
   let conf := conf_of compute_cfg in
   lift (check_required_values cfg auth conf) ;;
   lift (check_endpoint_format conf) ;;
   warn_optional_fields auth conf ;;
   lift (check_metadata cfg) ;;
   lift (check_mandatory_plugins cfg) ;;
   lift (check_node_pool_dl_types cfg))%world.

(** ** The Encoder: [encode_config_to_base64] (lines 255-261)

    [json.dumps(compute_cfg, indent=2)] and [base64.b64encode] are library
    code; they are embedded after CPython's [json.encoder] and [binascii]. *)

(** *** Code points of a [str]

    [ensure_ascii] escapes by code point, so the UTF-8 bytes of the model
    are read back into code points.  The lead byte gives the length of a
    sequence; [utf8_valid] says that a string is the UTF-8 form of a
    sequence of Unicode scalar values, which is what a loaded [str] is. *)

Definition byte_of (c : ascii) : N := N_of_ascii c.
Definition chr (n : N) : ascii := ascii_of_N n.

Definition is_continuation (c : ascii) : bool :=
  ((0x80 <=? byte_of c) && (byte_of c <? 0xC0))%N.

Definition decode2 (c0 c1 : ascii) : N :=
  ((byte_of c0 - 0xC0) * 64 + (byte_of c1 - 0x80))%N.
Definition decode3 (c0 c1 c2 : ascii) : N :=
  ((byte_of c0 - 0xE0) * 4096 + (byte_of c1 - 0x80) * 64 + (byte_of c2 - 0x80))%N.
Definition decode4 (c0 c1 c2 c3 : ascii) : N :=
  ((byte_of c0 - 0xF0) * 262144 + (byte_of c1 - 0x80) * 4096
   + (byte_of c2 - 0x80) * 64 + (byte_of c3 - 0x80))%N.

Fixpoint code_points (s : string) : list N :=
  match s with
  | EmptyString => []
  | String c0 r0 =>
      if (byte_of c0 <? 0xC0)%N then byte_of c0 :: code_points r0
      else if (byte_of c0 <? 0xE0)%N then
        match r0 with
        | String c1 r1 => decode2 c0 c1 :: code_points r1
        | _ => byte_of c0 :: code_points r0
        end
      else if (byte_of c0 <? 0xF0)%N then
        match r0 with
        | String c1 (String c2 r2) => decode3 c0 c1 c2 :: code_points r2
        | _ => byte_of c0 :: code_points r0
        end
      else
        match r0 with
        | String c1 (String c2 (String c3 r3)) => decode4 c0 c1 c2 c3 :: code_points r3
        | _ => byte_of c0 :: code_points r0
        end
  end.

Fixpoint utf8_valid (s : string) : bool :=
  match s with
  | EmptyString => true
  | String c0 r0 =>
      if (byte_of c0 <? 0x80)%N then utf8_valid r0
      else if (byte_of c0 <? 0xC2)%N then false
      else if (byte_of c0 <? 0xE0)%N then
        match r0 with
        | String c1 r1 => is_continuation c1 && utf8_valid r1
        | _ => false
        end
      else if (byte_of c0 <? 0xF0)%N then
        match r0 with
        | String c1 (String c2 r2) =>
            is_continuation c1 && is_continuation c2
            && (0x800 <=? decode3 c0 c1 c2)%N
            && negb ((0xD800 <=? decode3 c0 c1 c2) && (decode3 c0 c1 c2 <=? 0xDFFF))%N
            && utf8_valid r2
        | _ => false
        end
      else if (byte_of c0 <? 0xF5)%N then
        match r0 with
        | String c1 (String c2 (String c3 r3)) =>
            is_continuation c1 && is_continuation c2 && is_continuation c3
            && (0x10000 <=? decode4 c0 c1 c2 c3)%N && (decode4 c0 c1 c2 c3 <=? 0x10FFFF)%N
            && utf8_valid r3
        | _ => false
        end
      else false
  end.

(** UTF-8 bytes of the character [chr(cp)] *)
Definition utf8_encode (cp : N) : string :=
  (if cp <? 0x80 then String (chr cp) ""
   else if cp <? 0x800 then
     String (chr (0xC0 + cp / 64)) (String (chr (0x80 + cp mod 64)) "")
   else if cp <? 0x10000 then
     String (chr (0xE0 + cp / 4096))
       (String (chr (0x80 + (cp / 64) mod 64)) (String (chr (0x80 + cp mod 64)) ""))
   else
     String (chr (0xF0 + cp / 262144))
       (String (chr (0x80 + (cp / 4096) mod 64))
          (String (chr (0x80 + (cp / 64) mod 64)) (String (chr (0x80 + cp mod 64)) ""))))%N.

(** *** [json.encoder] *)

(** ["{0:04x}".format(n)] for [n < 0x10000] *)
Definition hex4 (n : N) : string :=
  (String (hex_digit (n / 4096)) (String (hex_digit ((n / 256) mod 16))
     (String (hex_digit ((n / 16) mod 16)) (String (hex_digit (n mod 16)) ""))))%N.

(** The replacement of one character in [encode_basestring_ascii]:
    [ESCAPE_DCT] first, then printable ASCII as it is, then [\uXXXX],
    as a surrogate pair above the basic plane. *)
Definition escape_code_point (cp : N) : string :=
  (if cp =? 0x22 then String BACKSLASH (String DQUOTE "")
   else if cp =? 0x5C then String BACKSLASH (String BACKSLASH "")
   else if cp =? 0x0A then "\n"
   else if cp =? 0x0D then "\r"
   else if cp =? 0x09 then "\t"
   else if cp =? 0x08 then "\b"
   else if cp =? 0x0C then "\f"
   else if (0x20 <=? cp) && (cp <=? 0x7E) then String (chr cp) ""
   else if cp <? 0x10000 then "\u" ++ hex4 cp
   else
     let n := cp - 0x10000 in
     let s1 := N.lor 0xD800 (N.land (N.shiftr n 10) 0x3FF) in
     let s2 := N.lor 0xDC00 (N.land n 0x3FF) in
     "\u" ++ hex4 s1 ++ "\u" ++ hex4 s2)%N.

Definition encode_basestring_ascii (s : string) : string :=
  String DQUOTE (concat "" (map escape_code_point (code_points s)) ++ String DQUOTE "").

Fixpoint indent_of (level : nat) : string :=
  match level with
  | O => ""
  | S n => "  " ++ indent_of n
  end.

(** ["\n" + _indent * level] *)
Definition newline_indent (level : nat) : string := nl ++ indent_of level.

(** [_iterencode] with [indent=2], hence [item_separator=","] and
    [key_separator=": "]; [level] is [_current_indent_level]. *)
Fixpoint json_encode (level : nat) (v : json) : string :=
  match v with
  | JNull => "null"
  | JBool true => "true"
  | JBool false => "false"
  | JInt z => string_of_Z z
  | JStr s => encode_basestring_ascii s
  | JList [] => "[]"
  | JList l =>
      "[" ++ newline_indent (S level)
      ++ concat ("," ++ newline_indent (S level)) (map (json_encode (S level)) l)
      ++ newline_indent level ++ "]"
  | JDict [] => "{}"
  | JDict d =>
      "{" ++ newline_indent (S level)
      ++ concat ("," ++ newline_indent (S level))
           (map (fun kv => let '(k, x) := kv in
                           encode_basestring_ascii k ++ ": " ++ json_encode (S level) x) d)
      ++ newline_indent level ++ "}"
  end.

(** [json.dumps(v, indent=2)] *)
Definition json_dumps (v : json) : string := json_encode 0 v.

(** *** [base64.b64encode] *)

Definition b64_alphabet : string :=
  "ABCDEFGHIJKLMNOPQRSTUVWXYZabcdefghijklmnopqrstuvwxyz0123456789+/".

Definition b64_char (i : N) : ascii :=
  match get (N.to_nat i) b64_alphabet with
  | Some c => c
  | None => "="%char
  end.

(** [binascii.b2a_base64] without the trailing newline: three bytes give
    four characters, a rest of one or two bytes is padded with [=]. *)
Fixpoint b64encode (s : string) : string :=
  match s with
  | EmptyString => ""
  | String a EmptyString =>
      let x := byte_of a in
      String (b64_char (N.shiftr x 2))
        (String (b64_char (N.shiftl (N.land x 3) 4)) "==")
  | String a (String b EmptyString) =>
      let x := byte_of a in
      let y := byte_of b in
      String (b64_char (N.shiftr x 2))
        (String (b64_char (N.lor (N.shiftl (N.land x 3) 4) (N.shiftr y 4)))
           (String (b64_char (N.shiftl (N.land y 15) 2)) "="))
  | String a (String b (String c rest)) =>
      let x := byte_of a in
      let y := byte_of b in
      let z := byte_of c in
      String (b64_char (N.shiftr x 2))
        (String (b64_char (N.lor (N.shiftl (N.land x 3) 4) (N.shiftr y 4)))
           (String (b64_char (N.lor (N.shiftl (N.land y 15) 2) (N.shiftr z 6)))
              (String (b64_char (N.land z 63)) (b64encode rest))))
  end.

(** [json_str.encode("utf-8")] and [.decode("utf-8")] on the result are the
    identity of the model: a [str] is held as its UTF-8 bytes. *)
Definition encode_config_to_base64 (compute_cfg : pydict) (output_file : string) : M string :=
  (let json_str := json_dumps (JDict compute_cfg) in
   let b64 := b64encode json_str in
   write_file output_file b64 ;;
   ret b64)%world.

(** ** The core of [main] (lines 292-325)

    The argument is the document [load_config] returned (line 292), an
    object.  The reads of lines 294-299 and 307 are kept because they can
    raise.  What depends on the surroundings of the script is left out:
    the version check of line 288, the progress prints, [dl.setenv]
    (line 312) and the calls into the [dtlpy] SDK after the encoding; what
    these raise is not among the exceptions of [main] below. *)

(** [open(path, "w")] and [f.write(content)]: a [str] names a file of the
    store; an [int] would be a file descriptor, and the store has none, so
    the write fails as it does for a descriptor that is not open; any other
    value is no path. *)
Definition py_write (path : json) (content : string) : M unit :=
  match path with
  | JStr p => write_file p content
  | JInt _ | JBool _ => raise OSError
  | _ => raise TypeError
  end.

Definition main (cfg : pydict) : M string :=
  (org <- lift (dict_item cfg "organization") ;;
   org_id <- lift (py_item org "orgId") ;;
   dataloop_env <- lift (py_get org "env" (JStr "rc")) ;;
   output_file <- lift (py_get (dict_get cfg "output" (JDict []))
                               "base64ConfigFile" (JStr "base64_config.txt")) ;;
   cluster_name <- lift (py_get (dict_get cfg "cluster" (JDict [])) "name" (JStr "unknown")) ;;
   namespace <- lift (py_get (dict_get cfg "cluster" (JDict [])) "defaultNamespace" (JStr "unknown")) ;;
   provider <- lift (py_get (dict_get cfg "cluster" (JDict [])) "provider" (JStr "unknown")) ;;
   compute_cfg <- lift (build_compute_config cfg) ;;
   validate_config cfg compute_cfg ;;
   match output_file with
   | JStr path => encode_config_to_base64 compute_cfg path
   | _ => py_write output_file "" ;; ret ""
   end)%world.

(** ** Decoding the artifact

    What a reader of the artifact does: [base64.b64decode], then
    [json.loads].  Both are library code, embedded after CPython's
    [binascii.a2b_base64] (not strict) and [json.decoder]; [None] stands
    for the exception they raise. *)

Fixpoint index_of (c : ascii) (s : string) (i : N) : option N :=
  match s with
  | EmptyString => None
  | String c' s' => if (c' =? c)%char then Some i else index_of c s' (i + 1)%N
  end.

Definition b64_index (c : ascii) : option N := index_of c b64_alphabet 0.

(** The loop of [a2b_base64]: [quad_pos] counts the characters of the
    current group, [leftchar] holds its pending bits, [pads] the [=] seen
    in a row.  Characters outside the alphabet are skipped. *)
Fixpoint a2b_base64 (s : string) (quad_pos leftchar pads : N) : option string :=
  match s with
  | EmptyString => if (quad_pos =? 0)%N then Some "" else None
  | String c rest =>
      if (c =? "=")%char then
        if ((2 <=? quad_pos) && (4 <=? quad_pos + (pads + 1)))%N then Some ""
        else a2b_base64 rest quad_pos leftchar (if (2 <=? quad_pos)%N then pads + 1 else pads)%N
      else
        match b64_index c with
        | None => a2b_base64 rest quad_pos leftchar pads
        | Some v =>
            if (quad_pos =? 0)%N then a2b_base64 rest 1 v 0
            else
              let out n q l :=
                match a2b_base64 rest q l 0 with
                | Some bytes => Some (String (chr n) bytes)
                | None => None
                end in
              if (quad_pos =? 1)%N then
                out (N.lor (N.shiftl leftchar 2) (N.shiftr v 4)) 2%N (N.land v 15)
              else if (quad_pos =? 2)%N then
                out (N.lor (N.shiftl leftchar 4) (N.shiftr v 2)) 3%N (N.land v 3)
              else
                out (N.lor (N.shiftl leftchar 6) v) 0%N 0%N
        end
  end.

Definition b64decode (s : string) : option string := a2b_base64 s 0 0 0.

(** *** [json.decoder] *)

Definition is_ws (c : ascii) : bool :=
  ((c =? " ") || (c =? TAB) || (c =? LF) || (c =? CR))%char.

Fixpoint skip_ws (s : string) : string :=
  match s with
  | EmptyString => ""
  | String c r => if is_ws c then skip_ws r else s
  end.

Definition hex_value (c : ascii) : option N :=
  let n := byte_of c in
  (if (48 <=? n) && (n <=? 57) then Some (n - 48)
   else if (97 <=? n) && (n <=? 102) then Some (n - 87)
   else if (65 <=? n) && (n <=? 70) then Some (n - 55)
   else None)%N.

(** Four hex digits of a [\uXXXX] escape *)
Definition decode_uXXXX (h1 h2 h3 h4 : ascii) : option N :=
  match hex_value h1, hex_value h2, hex_value h3, hex_value h4 with
  | Some a, Some b, Some c, Some d => Some (((a * 16 + b) * 16 + c) * 16 + d)%N
  | _, _, _, _ => None
  end.

Definition simple_escape (e : ascii) : option ascii :=
  (if e =? DQUOTE then Some DQUOTE
   else if e =? BACKSLASH then Some BACKSLASH
   else if e =? "/" then Some "/"
   else if e =? "b" then Some "008"
   else if e =? "f" then Some "012"
   else if e =? "n" then Some LF
   else if e =? "r" then Some CR
   else if e =? "t" then Some TAB
   else None)%char.

Definition is_high_surrogate (u : N) : bool := ((0xD800 <=? u) && (u <=? 0xDBFF))%N.
Definition is_low_surrogate (u : N) : bool := ((0xDC00 <=? u) && (u <=? 0xDFFF))%N.
Definition join_surrogates (u u2 : N) : N :=
  (0x10000 + N.lor (N.shiftl (u - 0xD800) 10) (u2 - 0xDC00))%N.

Definition prepend (s : string) (r : option (string * string)) : option (string * string) :=
  match r with
  | Some (body, rest) => Some (s ++ body, rest)
  | None => None
  end.

(** [scanstring] in strict mode, from just after the opening quote: the
    decoded text and what follows the closing quote. *)
Fixpoint scanstring (s : string) : option (string * string) :=
  match s with
  | EmptyString => None
  | String c r =>
      if (c =? DQUOTE)%char then Some ("", r)
      else if (c =? BACKSLASH)%char then
        match r with
        | EmptyString => None
        | String e r1 =>
            if (e =? "u")%char then
              match r1 with
              | String h1 (String h2 (String h3 (String h4 r2))) =>
                  match decode_uXXXX h1 h2 h3 h4 with
                  | None => None
                  | Some uni =>
                      let single := prepend (utf8_encode uni) (scanstring r2) in
                      if is_high_surrogate uni then
                        match r2 with
                        | String b (String u (String g1 (String g2 (String g3 (String g4 r3))))) =>
                            if ((b =? BACKSLASH) && (u =? "u"))%char then
                              match decode_uXXXX g1 g2 g3 g4 with
                              | None => None
                              | Some uni2 =>
                                  if is_low_surrogate uni2
                                  then prepend (utf8_encode (join_surrogates uni uni2)) (scanstring r3)
                                  else single
                              end
                            else single
                        | _ => single
                        end
                      else single
                  end
              | _ => None
              end
            else
              match simple_escape e with
              | Some ch => prepend (String ch "") (scanstring r1)
              | None => None
              end
        end
      else if (byte_of c <? 0x20)%N then None
      else prepend (String c "") (scanstring r)
  end.

Definition digit_of (c : ascii) : option (uint -> uint) :=
  (if c =? "0" then Some D0 else if c =? "1" then Some D1 else if c =? "2" then Some D2
   else if c =? "3" then Some D3 else if c =? "4" then Some D4 else if c =? "5" then Some D5
   else if c =? "6" then Some D6 else if c =? "7" then Some D7 else if c =? "8" then Some D8
   else if c =? "9" then Some D9 else None)%char.

Definition is_digit (c : ascii) : bool :=
  match digit_of c with Some _ => true | None => false end.

(** The longest run of digits *)
Fixpoint digits (s : string) : uint * string :=
  match s with
  | EmptyString => (Nil, "")
  | String c r =>
      match digit_of c with
      | Some d => let (u, rest) := digits r in (d u, rest)
      | None => (Nil, s)
      end
  end.

(** The integer part of [NUMBER_RE]: a lone zero, or digits that start with a non-zero one *)
Definition match_digits (s : string) : option (uint * string) :=
  match s with
  | EmptyString => None
  | String c r =>
      if (c =? "0")%char then Some (D0 Nil, r)
      else if is_digit c then Some (digits s)
      else None
  end.

(** Does a fraction (a dot and a digit) or an exponent ([e] or [E], an
    optional sign, a digit) follow?  Then the number is a float. *)
Definition float_follows (s : string) : bool :=
  match s with
  | String c (String d r) =>
      if (c =? ".")%char then is_digit d
      else if ((c =? "e") || (c =? "E"))%char then
        is_digit d
        || (((d =? "+") || (d =? "-"))%char
            && match r with String d' _ => is_digit d' | _ => false end)
      else false
  | _ => false
  end.

(** A number token: [int(integer)] when it has no fraction and no
    exponent; a float is outside the model. *)
Definition scan_number (s : string) : option (json * string) :=
  let '(negative, s1) :=
    match s with
    | String c r => if (c =? "-")%char then (true, r) else (false, s)
    | EmptyString => (false, s)
    end in
  match match_digits s1 with
  | Some (u, rest) =>
      if float_follows rest then None
      else Some (JInt (Z.of_int (if negative then Neg u else Pos u)), rest)
  | None => None
  end.

(** [d[k] = v] *)
Fixpoint dict_set (d : pydict) (k : string) (v : json) : pydict :=
  match d with
  | [] => [ (k, v) ]
  | (k', v') :: rest => if k' =? k then (k, v) :: rest else (k', v') :: dict_set rest k v
  end.

(** [dict(pairs)] *)
Definition dict_of_pairs (pairs : list (string * json)) : pydict :=
  fold_left (fun d kv => dict_set d (fst kv) (snd kv)) pairs [].

Definition expect (p : string) (s : string) : option string :=
  if prefix p s then Some (substring (length p) (length s - length p) s) else None.

(** [scan_once], [JSONArray] and [JSONObject].  [fuel] bounds the nesting
    and the number of items; [json_loads] gives more than the text can use. *)
Fixpoint scan_once (fuel : nat) (s : string) : option (json * string) :=
  match fuel with
  | O => None
  | S fuel' =>
      match s with
      | EmptyString => None
      | String c r =>
          if (c =? DQUOTE)%char then
            match scanstring r with
            | Some (str, rest) => Some (JStr str, rest)
            | None => None
            end
          else if (c =? "{")%char then
            match skip_ws r with
            | String c1 r1 =>
                if (c1 =? "}")%char then Some (JDict [], r1)
                else
                  match scan_members fuel' (skip_ws r) with
                  | Some (pairs, rest) => Some (JDict (dict_of_pairs pairs), rest)
                  | None => None
                  end
            | EmptyString => None
            end
          else if (c =? "[")%char then
            match skip_ws r with
            | String c1 r1 =>
                if (c1 =? "]")%char then Some (JList [], r1)
                else
                  match scan_elements fuel' (skip_ws r) with
                  | Some (values, rest) => Some (JList values, rest)
                  | None => None
                  end
            | EmptyString => None
            end
          else if (c =? "n")%char then
            match expect "null" s with Some rest => Some (JNull, rest) | None => None end
          else if (c =? "t")%char then
            match expect "true" s with Some rest => Some (JBool true, rest) | None => None end
          else if (c =? "f")%char then
            match expect "false" s with Some rest => Some (JBool false, rest) | None => None end
          else scan_number s
      end
  end
with scan_elements (fuel : nat) (s : string) : option (list json * string) :=
  match fuel with
  | O => None
  | S fuel' =>
      match scan_once fuel' s with
      | Some (value, rest) =>
          match skip_ws rest with
          | String c r =>
              if (c =? "]")%char then Some ([ value ], r)
              else if (c =? ",")%char then
                match scan_elements fuel' (skip_ws r) with
                | Some (values, rest') => Some (value :: values, rest')
                | None => None
                end
              else None
          | EmptyString => None
          end
      | None => None
      end
  end
with scan_members (fuel : nat) (s : string) : option (list (string * json) * string) :=
  match fuel with
  | O => None
  | S fuel' =>
      match s with
      | String q r0 =>
          if (q =? DQUOTE)%char then
            match scanstring r0 with
            | Some (key, rest) =>
                match skip_ws rest with
                | String c r =>
                    if (c =? ":")%char then
                      match scan_once fuel' (skip_ws r) with
                      | Some (value, rest1) =>
                          match skip_ws rest1 with
                          | String c2 r2 =>
                              if (c2 =? "}")%char then Some ([ (key, value) ], r2)
                              else if (c2 =? ",")%char then
                                match scan_members fuel' (skip_ws r2) with
                                | Some (pairs, rest') => Some ((key, value) :: pairs, rest')
                                | None => None
                                end
                              else None
                          | EmptyString => None
                          end
                      | None => None
                      end
                    else None
                | EmptyString => None
                end
            | None => None
            end
          else None
      | EmptyString => None
      end
  end.

(** [json.loads(s)]: one value, with nothing but whitespace around it. *)
Definition json_loads (s : string) : option json :=
  match scan_once (S (length s)) (skip_ws s) with
  | Some (v, rest) => match skip_ws rest with EmptyString => Some v | _ => None end
  | None => None
  end.

(** [json.loads(base64.b64decode(text).decode("utf-8"))] *)
Definition decode_config (text : string) : option json :=
  match b64decode text with
  | Some json_str => json_loads json_str
  | None => None
  end.

(** ** Listing the configuration files: [list_available_configs] (lines 60-74)

    What the function sees of the script's directory: whether
    [config.json] exists, and the names in [configs/] when that exists, in
    whatever order the system lists them (none when it is no directory).
    Paths are compared as on POSIX, by the code points of their names. *)

Record script_dir : Type := ScriptDir {
  default_config_exists : bool;
  configs_dir : option (list string)
}.

(** A path of the result: [DEFAULT_CONFIG_FILE] or [CONFIGS_DIR / name]. *)
Inductive config_path : Type :=
| DefaultConfig
| InConfigs (name : string).

(** [s.endswith(suffix)] *)
Definition py_endswith (s suffix : string) : bool :=
  (length suffix <=? length s)%nat
  && (substring (length s - length suffix) (length suffix) s =? suffix).

(** [fnmatch] of a name against the pattern [config-*.json]: the regular
    expression [config\-.*\.json], matched in full. *)
Definition glob_match (name : string) : bool :=
  prefix "config-" name && py_endswith name ".json" && (12 <=? length name)%nat.

(** [sub in s] on [str] *)
Fixpoint py_contains (sub s : string) : bool :=
  prefix sub s
  || match s with
     | String _ r => py_contains sub r
     | EmptyString => false
     end.

Definition list_available_configs (d : script_dir) : list config_path :=
  let configs := if default_config_exists d then [ DefaultConfig ] else [] in
  match configs_dir d with
  | Some names =>
      (configs
       ++ map InConfigs
            (filter (fun name => negb (py_contains "template" name))
                    (py_sorted (filter glob_match names))))%list
  | None => configs
  end.

(** ** Printing the listing: [print_available_configs] (lines 77-111)

    The function prints what [list_available_configs] found, with a
    summary of each file.  Reading a file is [open] and [json.load]: they
    give a document, raise [JSONDecodeError], or raise something else (a
    [UnicodeDecodeError], which is a [ValueError], for a file that is no
    UTF-8 text; an [OSError] for a directory or a file that may not be
    read).  That outcome is taken as given for each path.  The texts of
    [CONFIGS_DIR] and [DEFAULT_CONFIG_FILE] and the name of the script
    depend on where and under which name the script is installed. *)

Record installation : Type := Installation {
  configs_dir_text : string;      (* [str(CONFIGS_DIR)] *)
  default_config_text : string;   (* [str(DEFAULT_CONFIG_FILE)] *)
  script_name : string            (* [Path(__file__).name] *)
}.

(** What [open] and [json.load] make of a listed file. *)
Inductive load_outcome : Type :=
| Loaded (cfg : json)
| Undecodable              (* [json.JSONDecodeError] *)
| Unreadable (e : exn).    (* any other exception *)

Definition folder_sign : string := "üìÅ".
Definition page_sign : string := "üìÑ".

(** [s * n] *)
Fixpoint py_repeat (s : string) (n : nat) : string :=
  match n with
  | O => ""
  | S n' => s ++ py_repeat s n'
  end.

Definition rule : string := py_repeat "=" 50.

(** [config_path.relative_to(SCRIPT_DIR)], as text *)
Definition relative_text (p : config_path) : string :=
  match p with
  | DefaultConfig => "config.json"
  | InConfigs name => "configs/" ++ name
  end.

(** Lines 94-96: the three fields of the summary, read in this order. *)
Definition summary_fields (cfg : json) : result (json * json * json) :=
  (cluster <- py_get cfg "cluster" (JDict []) ;;
   namespace <- py_get cluster "defaultNamespace" (JStr "unknown") ;;
   cluster' <- py_get cfg "cluster" (JDict []) ;;
   cluster_name <- py_get cluster' "name" (JStr "unknown") ;;
   organization <- py_get cfg "organization" (JDict []) ;;
   env <- py_get organization "env" (JStr "unknown") ;;
   Ok (namespace, cluster_name, env))%result.

Definition invalid_line (p : config_path) : string :=
  nl ++ "  " ++ page_sign ++ " " ++ relative_text p ++ " (invalid or incomplete)".

(** The body of the loop (lines 91-103): the [except] clause takes a
    [JSONDecodeError] and a [KeyError]; any other exception leaves the
    function. *)
Definition print_summary (p : config_path) (o : load_outcome) : M unit :=
  match o with
  | Undecodable => print (invalid_line p)
  | Unreadable (KeyError _) => print (invalid_line p)
  | Unreadable e => raise e
  | Loaded cfg =>
      match summary_fields cfg with
      | Ok (namespace, cluster_name, env) =>
          (print (nl ++ "  " ++ page_sign ++ " " ++ relative_text p) ;;
           print ("     Cluster: " ++ py_str cluster_name) ;;
           print ("     Namespace: " ++ py_str namespace) ;;
           print ("     Environment: " ++ py_str env))%world
      | Raise (KeyError _) => print (invalid_line p)
      | Raise e => raise e
      end
  end.

Fixpoint print_summaries (load : config_path -> load_outcome) (configs : list config_path)
    : M unit :=
  match configs with
  | [] => ret tt
  | p :: rest => (print_summary p (load p) ;; print_summaries load rest)%world
  end.

Definition print_available_configs (inst : installation) (d : script_dir)
    (load : config_path -> load_outcome) : M unit :=
  (let configs := list_available_configs d in
   print (nl ++ folder_sign ++ " Available Configuration Files:") ;;
   print rule ;;
   match configs with
   | [] =>
       print "  No config files found." ;;
       print (nl ++ "  Create a config file in: " ++ configs_dir_text inst ++ "/") ;;
       print "  Or copy the template: configs/config-template.json"
   | example :: _ =>
       print_summaries load configs ;;
       print (nl ++ rule) ;;
       print (nl ++ "Usage:") ;;
       print ("  python " ++ script_name inst ++ " --config <config-file>") ;;
       print (nl ++ "Example:") ;;
       print ("  python " ++ script_name inst ++ " --config " ++ relative_text example)
   end)%world.

(** ** The handlers of the entry point (lines 389-414)

    What the script does with an exception that leaves [main].  The
    [except] clauses go by the class of the exception and the first that
    matches takes it: a [FileNotFoundError], a [json.JSONDecodeError] and
    then any other [ValueError] are reported and the script exits with
    status 1; any other [Exception] is reported with the troubleshooting
    tips and raised again; what is no [Exception] is not caught.
    [raised] holds an exception with what the clauses use of it: its
    class, as far as they tell classes apart, and the text they print. *)

Inductive raised : Type :=
| FileNotFoundError (filename : string)   (* [filename] is the text of [e.filename] *)
| JSONDecodeError (text : string)         (* [text] is [str(e)], here and below *)
| OtherValueError (text : string)         (* a [ValueError] that is no [JSONDecodeError] *)
| OtherException (text : string)          (* an [Exception] that is none of the above *)
| NotAnException.                         (* [KeyboardInterrupt], [SystemExit], ... *)

(** How the script ends after a failure. *)
Inductive outcome : Type :=
| Exit (status : Z)    (* [sys.exit(status)] *)
| Propagates.          (* the exception leaves the script, raised again or never caught *)

Definition cross_mark : string := "‚ùå".
Definition memo_sign : string := "üìù".
Definition bullet : string := "‚Ä¢".

Definition troubleshooting_tips : list string :=
  [ nl ++ memo_sign ++ " Troubleshooting tips:";
    "  " ++ bullet ++ " Ensure organization.orgId is set and valid";
    "  " ++ bullet ++ " Ensure cluster.endpoint is a valid HTTPS URL";
    "  " ++ bullet ++ " Ensure authentication.token is provided";
    "  " ++ bullet ++ " Verify network/proxy settings if required";
    "  " ++ bullet ++ " See README.md for detailed help" ].

(** One [print] after the other *)
Fixpoint print_all (lines : list string) : M unit :=
  match lines with
  | [] => ret tt
  | s :: rest => (print s ;; print_all rest)%world
  end.

(** [str(e)]: the message of a [ValueError], the [repr] of the key of a
    [KeyError]; [describe] gives the text of the exceptions whose message
    the interpreter words. *)
Definition exception_text (describe : exn -> string) (e : exn) : string :=
  match e with
  | ValueError msg => msg
  | KeyError k => repr_str k
  | _ => describe e
  end.

(** An exception of the pipeline, by class and text.  A [ValueError] of
    the pipeline is a plain one; [KeyError], [TypeError] and
    [AttributeError] are neither [ValueError] nor [OSError]; and the
    [OSError] of the model is the one [open] has for a descriptor that is
    not open, which is no [FileNotFoundError]. *)
Definition raised_of (describe : exn -> string) (e : exn) : raised :=
  match e with
  | ValueError msg => OtherValueError msg
  | _ => OtherException (exception_text describe e)
  end.

Definition handle_failure (inst : installation) (e : raised) : M outcome :=
  match e with
  | FileNotFoundError filename =>
      (print (nl ++ cross_mark ++ " Config file not found: " ++ filename) ;;
       print (nl ++ "Available options:") ;;
       print ("  1. Create " ++ default_config_text inst) ;;
       print "  2. Copy template: cp configs/config-template.json configs/config-myenv.json" ;;
       print ("  3. Specify existing file: python " ++ script_name inst ++ " --config <path>") ;;
       print (nl ++ "Run with --list to see available config files") ;;
       ret (Exit 1))%world
  | JSONDecodeError text =>
      (print (nl ++ cross_mark ++ " Invalid JSON in config file: " ++ text) ;;
       print (nl ++ "Tip: Validate your JSON at https://jsonlint.com") ;;
       ret (Exit 1))%world
  | OtherValueError text =>
      (print (nl ++ cross_mark ++ " Configuration Error:" ++ nl ++ text) ;;
       ret (Exit 1))%world
  | OtherException text =>
      (print (nl ++ cross_mark ++ " Error: " ++ text) ;;
       print_all troubleshooting_tips ;;
       ret Propagates)%world
  | NotAnException => ret Propagates
  end.

(** * Properties *)

(** ** Vocabulary of the statements *)

(** [s] occurs in [t]. *)
Definition Infix (s t : string) : Prop := exists a b, t = a ++ s ++ b.

(** The exception is the validator's: a [ValueError]. *)
Definition is_ValueError (e : exn) : bool :=
  match e with ValueError _ => true | _ => false end.

(** The validator gets as far as the metadata block, the plugin block,
    the dlTypes block: the blocks before it return normally. *)
Definition reaches_metadata (cfg compute_cfg : pydict) : Prop :=
  check_required_values cfg (auth_of compute_cfg) (conf_of compute_cfg) = Ok tt
  /\ check_endpoint_format (conf_of compute_cfg) = Ok tt.

Definition reaches_plugins (cfg compute_cfg : pydict) : Prop :=
  reaches_metadata cfg compute_cfg /\ check_metadata cfg = Ok tt.

Definition reaches_dl_types (cfg compute_cfg : pydict) : Prop :=
  reaches_plugins cfg compute_cfg /\ check_mandatory_plugins cfg = Ok tt.

(** A section of the document is object-shaped when it is there. *)
Definition section_shaped (cfg : pydict) (name : string) : Prop :=
  lookup name cfg = None \/ exists d, lookup name cfg = Some (JDict d).

(** [organization.orgId] is absent, empty, or a placeholder. *)
Inductive org_id_unusable (cfg : pydict) : Prop :=
| organization_absent :
    lookup "organization" cfg = None -> org_id_unusable cfg
| org_id_absent org :
    lookup "organization" cfg = Some (JDict org) -> lookup "orgId" org = None ->
    org_id_unusable cfg
| org_id_empty org v :
    lookup "organization" cfg = Some (JDict org) -> lookup "orgId" org = Some v ->
    py_truthy v = false -> org_id_unusable cfg
| org_id_placeholder org p :
    lookup "organization" cfg = Some (JDict org) -> lookup "orgId" org = Some (JStr p) ->
    In p placeholder_org_ids -> org_id_unusable cfg.

(** The names in [names] cover the mandatory plugin [m]. *)
Definition covers (names : list json) (m : string) : bool :=
  existsb (fun n => py_eq_str n m) names.

(** An object among the entries of [plugins] has the name [m]. *)
Definition plugin_named (ps : list json) (m : string) : Prop :=
  exists p, In (JDict p) ps /\ lookup "name" p = Some (JStr m).

(** A pool the dlTypes block reports: its [dlTypes] is no list, or a list
    with an entry that is no catalog string. *)
Definition pool_offends (p : pydict) : Prop :=
  match dict_get p "dlTypes" (JList []) with
  | JList ts => exists t, In t ts /\ invalid_dl_type t = true
  | _ => True
  end.

(** Every [str] of the document is UTF-8 of Unicode scalar values and every
    dict has each key once: the values [json.load] can return. *)
Fixpoint keys_distinct (d : list string) : bool :=
  match d with
  | [] => true
  | k :: rest => negb (existsb (String.eqb k) rest) && keys_distinct rest
  end.

Fixpoint well_formed (v : json) : bool :=
  match v with
  | JStr s => utf8_valid s
  | JList l => forallb well_formed l
  | JDict d =>
      keys_distinct (map fst d)
      && forallb (fun kv => let '(k, x) := kv in utf8_valid k && well_formed x) d
  | _ => true
  end.

(** What the warnings block leaves behind: the files untouched, the output
    longer by warnings of the two known kinds. *)
Definition only_warned (w w' : world) : Prop :=
  files w' = files w
  /\ exists out, stdout w' = (stdout w ++ out)%list /\ incl out [ ca_warning; volumes_warning ].

(** The blocks after the warnings, as one result. *)
Definition later_blocks (cfg : pydict) : result unit :=
  rbind (check_metadata cfg) (fun _ =>
  rbind (check_mandatory_plugins cfg) (fun _ => check_node_pool_dl_types cfg)).

(** The value under [k] of an object, [None] where there is none. *)
Definition field (v : json) (k : string) : json :=
  match v with JDict d => dict_get d k JNull | _ => JNull end.

(** [cluster.endpoint] and [authentication.token] of the document. *)
Definition cluster_endpoint (cfg : pydict) : json :=
  field (dict_get cfg "cluster" JNull) "endpoint".

Definition auth_token (cfg : pydict) : json :=
  field (dict_get cfg "authentication" JNull) "token".

(** The document has no [metadata.serveAgentServiceType]. *)
Inductive service_type_omitted (cfg : pydict) : Prop :=
| metadata_absent : lookup "metadata" cfg = None -> service_type_omitted cfg
| service_type_absent md :
    lookup "metadata" cfg = Some (JDict md) -> lookup "serveAgentServiceType" md = None ->
    service_type_omitted cfg.

(** The list [missing] of lines 170-176. *)
Definition missing_values (token endpoint org_id : json) : list string :=
  ((if negb (py_truthy token) then [ "authentication.token" ] else [])
   ++ (if negb (py_truthy endpoint) then [ "cluster.endpoint" ] else [])
   ++ (if negb (py_truthy org_id) || py_in_strs org_id placeholder_org_ids
       then [ "organization.orgId" ] else []))%list.

(** The first character tells the endpoint message from all the others. *)
Definition starts_with_c (m : string) : bool :=
  match m with String c _ => (c =? "c")%char | EmptyString => false end.

(** What each block can raise. *)
Inductive raised_by_required_values : exn -> Prop :=
| required_attribute : raised_by_required_values AttributeError
| required_missing l : raised_by_required_values (ValueError (missing_values_message l)).

Inductive raised_by_later_blocks : exn -> Prop :=
| later_type : raised_by_later_blocks TypeError
| later_attribute : raised_by_later_blocks AttributeError
| later_metadata_shape : raised_by_later_blocks (ValueError metadata_shape_message)
| later_service_type v : raised_by_later_blocks (ValueError (service_type_message v))
| later_plugins l : raised_by_later_blocks (ValueError (missing_plugins_message l))
| later_dl_types l : raised_by_later_blocks (ValueError (dl_types_message l)).

(** The [missing_plugins] of line 215. *)
Definition missing_plugins (names : list json) : list string :=
  py_sorted (set_difference mandatory_plugins names).

(** A [dlTypes] value of the catalog: a [str] among the allowed ones. *)
Definition in_catalog (t : json) : Prop := exists s, t = JStr s /\ In s allowed_dl_types.

(** The entry of a pool whose [dlTypes] list has an invalid value. *)
Definition invalid_entry (idx : nat) (p : pydict) (ts : list json) : string :=
  py_str (pool_name_of idx p) ++ ": invalid dlTypes: " ++ py_repr (JList (filter invalid_dl_type ts)).

(** The entry of a pool whose [dlTypes] is no list. *)
Definition not_array_entry (idx : nat) (p : pydict) : string :=
  py_str (pool_name_of idx p) ++ ": dlTypes must be an array".

(** The keys the Transformer subscripts: three sections and seven fields. *)
Definition lookup_failure_keys : list string :=
  [ "cluster"; "authentication"; "network"; "token"; "endpoint"; "kubernetesVersion";
    "name"; "nodePools"; "defaultNamespace"; "provider" ].

(** The document lacks a key the Transformer subscripts: a section or
    [nodePools] at the top level, [token] in the object [authentication],
    a required field in the object [cluster]. *)
Inductive lacks (cfg : pydict) : string -> Prop :=
| lacks_top k :
    In k [ "cluster"; "authentication"; "network"; "nodePools" ] ->
    lookup k cfg = None -> lacks cfg k
| lacks_token auth :
    lookup "authentication" cfg = Some (JDict auth) -> lookup "token" auth = None ->
    lacks cfg "token"
| lacks_cluster_field cluster k :
    lookup "cluster" cfg = Some (JDict cluster) ->
    In k [ "endpoint"; "kubernetesVersion"; "name"; "defaultNamespace"; "provider" ] ->
    lookup k cluster = None -> lacks cfg k.

(** The sections the Transformer reads fields of are objects where they
    are there, and [registry] is an object or falsy. *)
Definition sections_shaped (cfg : pydict) : Prop :=
  section_shaped cfg "cluster" /\ section_shaped cfg "authentication"
  /\ section_shaped cfg "network"
  /\ is_dict (py_or (dict_get cfg "registry" JNull) (JDict [])) = true.

(** [config.deploymentConfiguration] of a ComputeConfig. *)
Definition deployment_configuration (compute_cfg : pydict) : json :=
  field (conf_of compute_cfg) "deploymentConfiguration".

(** ** Vocabulary of the round trip *)

(** The numbers below [n], to settle a property of bytes by evaluation. *)
Definition below (n : nat) : list N := map N.of_nat (seq 0 n).

(** A sextet's character is no padding and is found again at its index. *)
Definition sextet_ok (v : N) : bool :=
  negb (b64_char v =? "=")%char
  && match b64_index (b64_char v) with Some i => (i =? v)%N | None => false end.

(** The four sextets of three bytes. *)
Definition sextet1 (x : N) : N := N.shiftr x 2.
Definition sextet2 (x y : N) : N := N.lor (N.shiftl (N.land x 3) 4) (N.shiftr y 4).
Definition sextet3 (y z : N) : N := N.lor (N.shiftl (N.land y 15) 2) (N.shiftr z 6).
Definition sextet4 (z : N) : N := N.land z 63.

(** What the decoder's shifts and masks make of the sextets of two bytes. *)
Definition sextets_ok (x y : N) : bool :=
  ((sextet1 x <? 64) && (sextet2 x y <? 64) && (sextet3 x y <? 64) && (sextet4 x <? 64)
   && (N.lor (N.shiftl (sextet1 x) 2) (N.shiftr (sextet2 x y) 4) =? x)
   && (N.land (sextet2 x y) 15 =? N.shiftr y 4)
   && (N.shiftr (sextet3 x y) 2 =? N.land x 15)
   && (N.land (sextet3 x y) 3 =? N.shiftr y 6)
   && (N.lor (N.shiftl (N.shiftr x 4) 4) (N.land x 15) =? x)
   && (N.lor (N.shiftl (N.shiftr x 6) 6) (sextet4 x) =? x))%N.

(** One more decoded byte in front of what the decoder goes on to give. *)
Definition emit (n : N) (r : option string) : option string :=
  match r with
  | Some bytes => Some (String (chr n) bytes)
  | None => None
  end.

(** A Unicode scalar value: a code point that is no surrogate. *)
Definition valid_scalar (cp : N) : bool :=
  ((cp <? 0x110000) && negb ((0xD800 <=? cp) && (cp <=? 0xDFFF)))%N.

(** The text of a [str] between the quotes [encode_basestring_ascii] puts. *)
Definition escaped (s : string) : string :=
  concat "" (map escape_code_point (code_points s)).

(** What follows a value in the text [json.dumps] writes: the end, a comma
    or a line break. *)
Definition delimited (rest : string) : bool :=
  match rest with
  | EmptyString => true
  | String c _ => ((c =? ",") || (c =? LF))%char
  end.

(** How a value's text starts: no white space, no closing bracket. *)
Definition starts_value (s : string) : bool :=
  match s with
  | String c _ => negb (is_ws c) && negb (c =? "]")%char && negb (c =? "}")%char
  | EmptyString => false
  end.

(** [scan_once] reads the text of [v] back, whatever the indentation level,
    the delimited rest and the fuel, once the fuel exceeds the text. *)
Definition round_trips (v : json) : Prop :=
  forall level rest fuel,
    well_formed v = true -> delimited rest = true ->
    (length (json_encode level v) < fuel)%nat ->
    scan_once fuel (json_encode level v ++ rest) = Some (v, rest).

(** The separator and the text of one member, as [json_encode] writes them. *)
Definition item_separator (level : nat) : string := "," ++ newline_indent (S level).

Definition encode_member (level : nat) (kv : string * json) : string :=
  let '(k, x) := kv in encode_basestring_ascii k ++ ": " ++ json_encode (S level) x.

(** ** What the validator accepts *)

(** [organization.orgId] is there, truthy and no placeholder. *)
Definition org_id_usable (cfg : pydict) : Prop :=
  exists org v,
    lookup "organization" cfg = Some (JDict org) /\ lookup "orgId" org = Some v
    /\ py_truthy v = true /\ py_in_strs v placeholder_org_ids = false.

(** The endpoint is a [str] with one of the two schemes. *)
Definition endpoint_usable (endpoint : json) : Prop :=
  exists e, endpoint = JStr e /\ prefix "http://" e || prefix "https://" e = true.

(** [metadata] is absent, [null] or an object, and the object's
    [serveAgentServiceType] is absent, [null] or one of the allowed values. *)
Inductive metadata_usable (cfg : pydict) : Prop :=
| metadata_missing : lookup "metadata" cfg = None -> metadata_usable cfg
| metadata_null : lookup "metadata" cfg = Some JNull -> metadata_usable cfg
| metadata_without_type md :
    lookup "metadata" cfg = Some (JDict md) ->
    dict_get md "serveAgentServiceType" JNull = JNull -> metadata_usable cfg
| metadata_with_type md s :
    lookup "metadata" cfg = Some (JDict md) ->
    lookup "serveAgentServiceType" md = Some (JStr s) -> In s allowed_service_types ->
    metadata_usable cfg.

(** [plugins] is a list, the names of its objects are scalars, and each
    mandatory name is the name of one of them. *)
Definition plugins_usable (cfg : pydict) : Prop :=
  exists ps,
    lookup "plugins" cfg = Some (JList ps)
    /\ (forall p, In (JDict p) ps -> py_hashable (dict_get p "name" JNull) = true)
    /\ (forall m, In m mandatory_plugins ->
        exists p, In (JDict p) ps /\ lookup "name" p = Some (JStr m)).

(** [nodePools] can be iterated, and every object among its items has a
    list of catalog values for [dlTypes] (or none). *)
Definition node_pools_usable (cfg : pydict) : Prop :=
  exists items,
    py_iter (dict_get cfg "nodePools" (JList [])) = Ok items
    /\ (forall p, In (JDict p) items ->
        exists ts, dict_get p "dlTypes" (JList []) = JList ts
                   /\ forall t, In t ts -> in_catalog t).

Definition config_acceptable (cfg : pydict) : Prop :=
  py_truthy (auth_token cfg) = true
  /\ endpoint_usable (cluster_endpoint cfg)
  /\ org_id_usable cfg
  /\ metadata_usable cfg
  /\ plugins_usable cfg
  /\ node_pools_usable cfg.

(** The name the dlTypes block gives a pool without one: its position. *)
Definition positional_name (i : nat) : string :=
  "nodePools[" ++ string_of_Z (Z.of_nat i) ++ "]".

(** ** Vocabulary of the Transformer *)

(** The top-level keys the Transformer reads. *)
Definition transformer_reads : list string :=
  [ "cluster"; "authentication"; "registry"; "network"; "metadata"; "nodePools";
    "volumes"; "securityContext"; "defaultResources"; "plugins" ].

(** [result] is what [d.get(k, default)] gives when [given] is the binding
    of [k]: the default for no binding, the bound value otherwise. *)
Definition defaulted (given : option json) (default result : json) : Prop :=
  match given with
  | None => result = default
  | Some v => result = v
  end.

(** A section that is there and is no object. *)
Definition misshaped (cfg : pydict) (name : string) : Prop :=
  exists v, lookup name cfg = Some v /\ is_dict v = false.

(** ** Vocabulary of the artifact *)

(** Every character of [s] passes [test]. *)
Fixpoint all_chars (test : ascii -> bool) (s : string) : bool :=
  match s with
  | EmptyString => true
  | String c r => test c && all_chars test r
  end.

(** A character of the Base64 alphabet, or the padding. *)
Definition is_b64_char (c : ascii) : bool := str_contains c b64_alphabet || (c =? "=")%char.

(** A 7-bit character. *)
Definition is_ascii (c : ascii) : bool := (byte_of c <? 128)%N.

(** ** Vocabulary of the pipeline *)

(** The file [main] writes the artifact to: [output.base64ConfigFile]. *)
Definition output_file_of (cfg : pydict) : result json :=
  py_get (dict_get cfg "output" (JDict [])) "base64ConfigFile" (JStr "base64_config.txt").

(** The line the last handler prints first. *)
Definition error_line (describe : exn -> string) (e : exn) : string :=
  nl ++ cross_mark ++ " Error: " ++ exception_text describe e.

(** The line the handler of [ValueError] prints. *)
Definition configuration_error_line (msg : string) : string :=
  nl ++ cross_mark ++ " Configuration Error:" ++ nl ++ msg.

(** ** Vocabulary of the listing *)

Definition str_le (s t : string) : Prop := String.leb s t = true.

(** ** Vocabulary of the printed listing *)

(** A document whose summary can be read: an object whose [cluster] and
    [organization] are objects or absent. *)
Definition summarizable (cfg : json) : Prop :=
  exists d, cfg = JDict d /\ section_shaped d "cluster" /\ section_shaped d "organization".

(** A document whose summary cannot be read. *)
Definition unsummarizable (cfg : json) : Prop :=
  match cfg with
  | JDict d => misshaped d "cluster" \/ misshaped d "organization"
  | _ => True
  end.

(** A field of the summary: the value under [key] of the section, or
    [unknown] when the section or the key is absent. *)
Definition summary_value (d : pydict) (section key : string) : json :=
  match dict_get d section (JDict []) with
  | JDict c => dict_get c key (JStr "unknown")
  | _ => JStr "unknown"
  end.

(** The loop goes on after the file: its summary can be read, or the
    [except] clause of the loop takes what reading it raises. *)
Definition reported (o : load_outcome) : Prop :=
  match o with
  | Loaded cfg => summarizable cfg
  | Undecodable => True
  | Unreadable e => exists k, e = KeyError k
  end.

(** The loop stops at the file, with the exception [e]. *)
Definition stops_with (o : load_outcome) (e : exn) : Prop :=
  match o with
  | Loaded cfg => unsummarizable cfg /\ e = AttributeError
  | Undecodable => False
  | Unreadable e' => e' = e /\ forall k, e <> KeyError k
  end.

(** The lines of one file in the listing. *)
Definition report_lines (p : config_path) (o : load_outcome) : list string :=
  match o with
  | Undecodable | Unreadable _ => [ invalid_line p ]
  | Loaded cfg =>
      match cfg with
      | JDict d =>
          [ nl ++ "  " ++ page_sign ++ " " ++ relative_text p;
            "     Cluster: " ++ py_str (summary_value d "cluster" "name");
            "     Namespace: " ++ py_str (summary_value d "cluster" "defaultNamespace");
            "     Environment: " ++ py_str (summary_value d "organization" "env") ]
      | _ => []
      end
  end.

(** The heading, the advice when there is nothing to list, and the
    usage with its example. *)
Definition listing_heading : list string :=
  [ nl ++ folder_sign ++ " Available Configuration Files:"; rule ].

Definition listing_advice (inst : installation) : list string :=
  [ "  No config files found.";
    nl ++ "  Create a config file in: " ++ configs_dir_text inst ++ "/";
    "  Or copy the template: configs/config-template.json" ].

Definition listing_usage (inst : installation) (example : config_path) : list string :=
  [ nl ++ rule; nl ++ "Usage:";
    "  python " ++ script_name inst ++ " --config <config-file>";
    nl ++ "Example:";
    "  python " ++ script_name inst ++ " --config " ++ relative_text example ].

(** ** Sample documents *)

Definition w0 : world := World [] [].

Definition sample_cluster : json :=
  JDict [ ("endpoint", JStr "https://host"); ("kubernetesVersion", JStr "1.29");
          ("name", JStr "c1"); ("defaultNamespace", JStr "faas"); ("provider", JStr "gke") ].

Definition sample_plugins : json :=
  JList [ JDict [ ("name", JStr "monitoring") ]; JDict [ ("name", JStr "scaler") ] ].

(** A document with the given organization id, endpoint, metadata, plugins
    and node pools, and everything else in order. *)
Definition sample (org_id : string) (endpoint : string) (metadata : pydict)
    (plugins pools : json) : pydict :=
  [ ("organization", JDict [ ("orgId", JStr org_id) ]);
    ("cluster", JDict [ ("endpoint", JStr endpoint); ("kubernetesVersion", JStr "1.29");
                        ("name", JStr "c1"); ("defaultNamespace", JStr "faas");
                        ("provider", JStr "gke") ]);
    ("authentication", JDict [ ("token", JStr "secret") ]);
    ("network", JDict []);
    ("metadata", JDict metadata);
    ("nodePools", pools);
    ("plugins", plugins) ].

Definition pool (name : string) (dl_types : json) : json :=
  JDict [ ("name", JStr name); ("dlTypes", dl_types) ].

(** What the Transformer makes of a document; [[]] if it raises. *)
Definition built (cfg : pydict) : pydict :=
  match build_compute_config cfg with Ok c => c | Raise _ => [] end.

Definition cfg_placeholder : pydict :=
  sample "{{org-id}}" "https://host" [] sample_plugins (JList []).

Definition cfg_ftp : pydict := sample "org-1" "ftp://host" [] sample_plugins (JList []).

Definition cfg_node_port : pydict :=
  sample "org-1" "https://host" [ ("serveAgentServiceType", JStr "NodePort") ]
         sample_plugins (JList []).

Definition cfg_cluster_ip : pydict :=
  sample "org-1" "https://host" [ ("serveAgentServiceType", JStr "ClusterIP") ]
         sample_plugins (JList []).

Definition cfg_load_balancer : pydict :=
  sample "org-1" "https://host" [ ("serveAgentServiceType", JStr "LoadBalancer") ]
         sample_plugins (JList []).

Definition cfg_monitoring_only : pydict :=
  sample "org-1" "https://host" [] (JList [ JDict [ ("name", JStr "monitoring") ] ]) (JList []).

Definition cfg_both_plugins : pydict :=
  sample "org-1" "https://host" [] sample_plugins (JList []).

Definition cfg_bare_plugins : pydict :=
  sample "org-1" "https://host" [] (JList [ JStr "monitoring"; JStr "scaler" ]) (JList []).

Definition cfg_h100 : pydict :=
  sample "org-1" "https://host" [] sample_plugins
         (JList [ pool "pool-a" (JList [ JStr "regular-s"; JStr "gpu-h100" ]) ]).

Definition two_bad_pools : list json :=
  [ pool "pool-a" (JList [ JStr "gpu-h100" ]); pool "pool-b" (JList [ JStr "tpu-v4" ]) ].

Definition cfg_two_bad_pools : pydict :=
  sample "org-1" "https://host" [] sample_plugins (JList two_bad_pools).

Definition mixed_pools : list json :=
  [ pool "pool-a" (JStr "gpu-t4"); pool "pool-b" (JList [ JStr "gpu-h100" ]) ].

Definition cfg_scalar_dl_types : pydict :=
  sample "org-1" "https://host" [] sample_plugins (JList mixed_pools).

Definition cfg_no_network : pydict :=
  [ ("organization", JDict [ ("orgId", JStr "org-1") ]);
    ("cluster", sample_cluster);
    ("authentication", JDict [ ("token", JStr "secret") ]);
    ("nodePools", JList []);
    ("plugins", sample_plugins) ].

Definition cfg_unicode : pydict :=
  sample "org-1" "https://host"
    [ ("owner", JStr (String "195" (String "169" (String "240" (String "159" (String "152"
                        (String "128" ""))))))); ("replicas", JInt (-3)) ]
    sample_plugins (JList [ pool "pool-a" (JList [ JStr "regular-s" ]) ]).

Definition cfg_valid : pydict :=
  sample "org-1" "https://host" [ ("serveAgentServiceType", JStr "ClusterIP") ] sample_plugins
         (JList [ pool "pool-a" (JList [ JStr "regular-s"; JStr "gpu-t4" ]) ]).

(** A document without the key [k], and without the field [k] of a section. *)
Definition without (k : string) (cfg : pydict) : pydict :=
  filter (fun kv => negb (fst kv =? k)) cfg.

Definition without_field (section k : string) (cfg : pydict) : pydict :=
  map (fun kv =>
         match kv with
         | (name, JDict d) => if name =? section then (name, JDict (without k d)) else kv
         | _ => kv
         end) cfg.

Definition cfg_no_provider : pydict := without_field "cluster" "provider" cfg_valid.

Definition cfg_empty_token : pydict :=
  [ ("organization", JDict [ ("orgId", JStr "YOUR_ORG_ID_HERE") ]);
    ("cluster", sample_cluster);
    ("authentication", JDict [ ("token", JStr "") ]);
    ("network", JDict []);
    ("nodePools", JList []);
    ("plugins", sample_plugins) ].

Definition cfg_list_metadata : pydict :=
  [ ("organization", JDict [ ("orgId", JStr "org-1") ]);
    ("cluster", sample_cluster);
    ("authentication", JDict [ ("token", JStr "secret") ]);
    ("network", JDict []);
    ("metadata", JList []);
    ("nodePools", JList []);
    ("plugins", sample_plugins) ].

Definition cfg_unnamed_pool : pydict :=
  sample "org-1" "https://host" [] sample_plugins
         (JList [ pool "pool-a" (JList [ JStr "gpu-t4" ]);
                  JDict [ ("dlTypes", JList [ JStr "gpu-h100" ]) ] ]).

Definition cfg_null_pools : pydict :=
  [ ("organization", JDict [ ("orgId", JStr "org-1") ]);
    ("cluster", sample_cluster);
    ("authentication", JDict [ ("token", JStr "secret") ]);
    ("network", JDict []);
    ("nodePools", JNull);
    ("plugins", sample_plugins) ].

Definition cfg_null_registry : pydict :=
  ("registry", JNull) :: ("metadata", JStr "") :: cfg_no_network ++ [ ("network", JDict []) ].

Definition cfg_list_cluster : pydict :=
  [ ("cluster", JList []); ("authentication", JDict [ ("token", JStr "secret") ]);
    ("network", JDict []); ("nodePools", JList []) ].

Definition cfg_with_output : pydict :=
  ("output", JDict [ ("base64ConfigFile", JStr "out/base64.txt") ]) :: cfg_valid.

Definition cfg_no_org_id : pydict :=
  ("organization", JDict [ ("env", JStr "prod") ]) :: cfg_valid.

(** The wording of the interpreter is of no concern here. *)
Definition no_description (e : exn) : string := "".

Definition sample_dir : script_dir :=
  ScriptDir true (Some [ "config-prod.json"; "notes.txt"; "config-template.json";
                         "config-dev.json"; "config-faas.json.bak" ]).

Definition sample_installation : installation :=
  Installation "/opt/setup/configs" "/opt/setup/config.json" "compute_setup.py".

(** [config.json] holds a valid document, [config-dev.json] cannot be
    decoded, the other files hold an empty object. *)
Definition sample_load (p : config_path) : load_outcome :=
  match p with
  | DefaultConfig => Loaded (JDict cfg_valid)
  | InConfigs name => if name =? "config-dev.json" then Undecodable else Loaded (JDict [])
  end.

(** As [sample_load], but [config-prod.json] holds a list. *)
Definition sample_load_list (p : config_path) : load_outcome :=
  match p with
  | InConfigs "config-prod.json" => Loaded (JList [])
  | _ => sample_load p
  end.

(** As [sample_load], but [config-prod.json] is no UTF-8 text. *)
Definition sample_load_latin1 (p : config_path) : load_outcome :=
  match p with
  | InConfigs "config-prod.json" => Unreadable (ValueError "'utf-8' codec can't decode byte")
  | _ => sample_load p
  end.

(** * Theorems *)

(** ** Strings *)

Lemma append_assoc (a b c : string) : (a ++ b) ++ c = a ++ (b ++ c).
Proof. induction a as [|x a IH]; simpl; [reflexivity | now rewrite IH]. Qed.

Lemma append_nil_r (a : string) : a ++ "" = a.
Proof. induction a as [|x a IH]; simpl; [reflexivity | now rewrite IH]. Qed.

Lemma Infix_refl s : Infix s s.
Proof. exists "", "". simpl. now rewrite append_nil_r. Qed.

Lemma Infix_app_l s a t : Infix s t -> Infix s (a ++ t).
Proof.
  intros (x & y & ->). exists (a ++ x), y. now rewrite append_assoc.
Qed.

Lemma Infix_app_r s t b : Infix s t -> Infix s (t ++ b).
Proof.
  intros (x & y & ->). exists x, (y ++ b). now rewrite !append_assoc.
Qed.

Lemma Infix_trans s t u : Infix s t -> Infix t u -> Infix s u.
Proof.
  intros Hst (x & y & ->). now apply Infix_app_l, Infix_app_r.
Qed.

Lemma Infix_cons s c t : Infix s t -> Infix s (String c t).
Proof. intros H. now apply (Infix_app_l s (String c "") t). Qed.

Lemma Infix_concat sep x l : In x l -> Infix x (concat sep l).
Proof.
  induction l as [|y l IH]; intros Hin; [destruct Hin|].
  destruct Hin as [->|Hin].
  - destruct l; simpl; [apply Infix_refl | apply Infix_app_r, Infix_refl].
  - destruct l as [|z l]; [destruct Hin|].
    change (concat sep (y :: z :: l)) with (y ++ sep ++ concat sep (z :: l)).
    now apply Infix_app_l, Infix_app_l, IH.
Qed.

(** ** Sorting keeps the elements *)

Lemma insert_sorted_In x s l : In x (insert_sorted s l) <-> x = s \/ In x l.
Proof.
  induction l as [|t l IH]; simpl.
  - intuition.
  - destruct (String.leb s t); simpl; rewrite ?IH; intuition.
Qed.

Lemma py_sorted_In x l : In x (py_sorted l) <-> In x l.
Proof.
  induction l as [|s l IH]; simpl; [reflexivity|].
  rewrite insert_sorted_In, IH. intuition.
Qed.

Lemma py_sorted_nil l : py_sorted l = [] -> l = [].
Proof.
  destruct l as [|s l]; [reflexivity|]. intros H.
  assert (Hin : In s (py_sorted (s :: l))) by (apply py_sorted_In; now left).
  rewrite H in Hin. destruct Hin.
Qed.

(** ** The error monad *)

Lemma rbind_Ok {A B} (m : result A) (f : A -> result B) b :
  rbind m f = Ok b -> exists a, m = Ok a /\ f a = Ok b.
Proof. destruct m as [a|e]; simpl; [eauto | discriminate]. Qed.

Lemma py_get_Ok v k d x : py_get v k d = Ok x -> exists f, v = JDict f /\ x = dict_get f k d.
Proof. destruct v; simpl; try discriminate. intros [= <-]. eauto. Qed.

Lemma py_item_Ok v k x : py_item v k = Ok x -> exists f, v = JDict f /\ lookup k f = Some x.
Proof.
  destruct v; simpl; try discriminate. unfold dict_item.
  destruct (lookup k fields) eqn:E; [|discriminate]. intros [= <-]. eauto.
Qed.

Lemma dict_item_Ok d k x : dict_item d k = Ok x -> lookup k d = Some x.
Proof. unfold dict_item. destruct (lookup k d); [now intros [= <-] | discriminate]. Qed.

Lemma dict_get_lookup d k x v : lookup k d = Some v -> dict_get d k x = v.
Proof. unfold dict_get. now intros ->. Qed.

(** ** The Transformer *)

(** The document the Transformer returns, from the parts it read. *)
Lemma build_compute_config_Ok cfg compute_cfg :
  build_compute_config cfg = Ok compute_cfg ->
  exists cluster auth network registry token endpoint version name pools namespace provider,
    lookup "cluster" cfg = Some (JDict cluster)
    /\ lookup "authentication" cfg = Some (JDict auth)
    /\ lookup "network" cfg = Some (JDict network)
    /\ py_or (dict_get cfg "registry" JNull) (JDict []) = JDict registry
    /\ lookup "token" auth = Some token
    /\ lookup "endpoint" cluster = Some endpoint
    /\ lookup "kubernetesVersion" cluster = Some version
    /\ lookup "name" cluster = Some name
    /\ lookup "nodePools" cfg = Some pools
    /\ lookup "defaultNamespace" cluster = Some namespace
    /\ lookup "provider" cluster = Some provider
    /\ compute_cfg =
       [ ("authentication", JDict [ ("ca", dict_get auth "ca" (JStr "")); ("token", token) ]);
         ("config", JDict [
            ("endpoint", endpoint);
            ("kubernetesVersion", version);
            ("name", name);
            ("nodePools", pools);
            ("metadata", py_or (dict_get cfg "metadata" JNull) (JDict []));
            ("settings", JDict [ ("defaultNamespace", namespace) ]);
            ("deploymentConfiguration", JDict [
               ("volumes", dict_get cfg "volumes" (JList []));
               ("serviceAccountName", dict_get cluster "serviceAccountName" (JStr "faas"));
               ("securityContext", dict_get cfg "securityContext" (JDict []));
               ("registry", JDict [
                  ("domain", dict_get registry "domain" (JStr "hub.dataloop.ai"));
                  ("faasFolder", dict_get registry "faasFolder" (JStr "customerhub"));
                  ("bootstrapFolder", dict_get registry "bootstrapFolder" (JStr "customerhub")) ]);
               ("defaultResources", dict_get cfg "defaultResources" (JDict []));
               ("internalRequestsUrl", dict_get network "internalRequestsUrl" JNull);
               ("environmentVariables", dict_get network "environmentVariables" (JList [])) ]);
            ("plugins", dict_get cfg "plugins" (JList []));
            ("provider", provider) ]) ].
Proof.
  unfold build_compute_config. intros H.
  apply rbind_Ok in H as (cluster & Hc & H). apply dict_item_Ok in Hc.
  apply rbind_Ok in H as (auth & Ha & H). apply dict_item_Ok in Ha.
  apply rbind_Ok in H as (network & Hn & H). apply dict_item_Ok in Hn.
  apply rbind_Ok in H as (dom & Hdom & H). apply py_get_Ok in Hdom as (registry & Hr & ->).
  rewrite Hr in H. simpl in H.
  apply rbind_Ok in H as (ca & Hca & H). apply py_get_Ok in Hca as (auth' & -> & ->).
  apply rbind_Ok in H as (token & Ht & H). apply py_item_Ok in Ht as (? & [= <-] & Ht).
  apply rbind_Ok in H as (endpoint & He & H). apply py_item_Ok in He as (cluster' & -> & He).
  simpl in H. unfold dict_item in H.
  destruct (lookup "kubernetesVersion" cluster') as [version|] eqn:Hv; [simpl in H | discriminate].
  destruct (lookup "name" cluster') as [name|] eqn:Hname; [simpl in H | discriminate].
  destruct (lookup "nodePools" cfg) as [pools|] eqn:Hp; [simpl in H | discriminate].
  destruct (lookup "defaultNamespace" cluster') as [namespace|] eqn:Hns; [simpl in H | discriminate].
  apply rbind_Ok in H as (iru & Hiru & H). apply py_get_Ok in Hiru as (network' & -> & ->).
  simpl in H.
  destruct (lookup "provider" cluster') as [provider|] eqn:Hpr; [simpl in H | discriminate].
  injection H as <-.
  exists cluster', auth', network', registry, token, endpoint, version, name, pools, namespace, provider.
  repeat split; assumption.
Qed.

(** ** The Validator, block by block *)

Lemma only_warned_refl w : only_warned w w.
Proof. split; [reflexivity|]. exists []. split; [now rewrite app_nil_r | intros x []]. Qed.

Lemma only_warned_print w s :
  In s [ ca_warning; volumes_warning ] -> only_warned w (fst (print s w)).
Proof.
  intros Hs. split; [reflexivity|]. exists [s]. split; [reflexivity|].
  intros x [<-|[]]. exact Hs.
Qed.

Lemma only_warned_trans w1 w2 w3 : only_warned w1 w2 -> only_warned w2 w3 -> only_warned w1 w3.
Proof.
  intros (F1 & o1 & S1 & I1) (F2 & o2 & S2 & I2). split; [congruence|].
  exists (o1 ++ o2)%list. split; [rewrite S2, S1; now rewrite app_assoc|].
  now apply incl_app.
Qed.

Lemma warn_optional_fields_world auth conf w :
  only_warned w (fst (warn_optional_fields auth conf w)).
Proof.
  unfold warn_optional_fields, bind, lift.
  destruct (py_get auth "ca" JNull) as [ca|e]; [|apply only_warned_refl].
  assert (H1 : exists w1, only_warned w w1 /\
            (if negb (py_truthy ca) then print ca_warning else ret tt) w = (w1, Ok tt)).
  { destruct (negb (py_truthy ca)).
    - eexists. split; [|reflexivity]. apply (only_warned_print w ca_warning). now left.
    - eexists. split; [|reflexivity]. apply only_warned_refl. }
  destruct H1 as (w1 & Hw1 & ->).
  destruct (py_get conf "deploymentConfiguration" (JDict [])) as [dc|e]; [|exact Hw1].
  destruct (py_get dc "volumes" JNull) as [volumes|e]; [|exact Hw1].
  destruct (negb (py_truthy volumes)).
  - eapply only_warned_trans; [exact Hw1|].
    apply (only_warned_print w1 volumes_warning). right. now left.
  - exact Hw1.
Qed.

(** On a document of the Transformer the warnings block never raises. *)
Lemma warn_optional_fields_built cfg compute_cfg w :
  build_compute_config cfg = Ok compute_cfg ->
  snd (warn_optional_fields (auth_of compute_cfg) (conf_of compute_cfg) w) = Ok tt.
Proof.
  intros H. apply build_compute_config_Ok in H
    as (cluster & auth & network & registry & token & endpoint & version & name & pools
        & namespace & provider & _ & _ & _ & _ & _ & _ & _ & _ & _ & _ & _ & ->).
  unfold warn_optional_fields, bind, lift, auth_of, conf_of. cbn.
  destruct (negb (py_truthy (dict_get auth "ca" (JStr "")))); cbn;
    destruct (negb (py_truthy (dict_get cfg "volumes" (JList [])))); reflexivity.
Qed.

Lemma validate_config_run cfg compute_cfg w :
  validate_config cfg compute_cfg w =
  match check_required_values cfg (auth_of compute_cfg) (conf_of compute_cfg) with
  | Raise e => (w, Raise e)
  | Ok _ =>
      match check_endpoint_format (conf_of compute_cfg) with
      | Raise e => (w, Raise e)
      | Ok _ =>
          match warn_optional_fields (auth_of compute_cfg) (conf_of compute_cfg) w with
          | (w', Raise e) => (w', Raise e)
          | (w', Ok _) => (w', later_blocks cfg)
          end
      end
  end.
Proof.
  unfold validate_config, later_blocks, bind, lift.
  destruct (check_required_values _ _ _); [|reflexivity].
  destruct (check_endpoint_format _); [|reflexivity].
  destruct (warn_optional_fields _ _ w) as [w' [[]|e]]; [|reflexivity].
  destruct (check_metadata cfg); [|reflexivity].
  destruct (check_mandatory_plugins cfg); [|reflexivity].
  destruct (check_node_pool_dl_types cfg) as [[]|]; reflexivity.
Qed.

(** The validator writes no file and prints nothing but the two warnings. *)
Lemma validate_config_world cfg compute_cfg w :
  only_warned w (fst (validate_config cfg compute_cfg w)).
Proof.
  rewrite validate_config_run.
  destruct (check_required_values _ _ _); [|apply only_warned_refl].
  destruct (check_endpoint_format _); [|apply only_warned_refl].
  pose proof (warn_optional_fields_world (auth_of compute_cfg) (conf_of compute_cfg) w) as H.
  destruct (warn_optional_fields _ _ w) as [w' [[]|e]]; exact H.
Qed.

(** Once the first two blocks pass on a built document, the outcome is that
    of the later blocks. *)
Lemma validate_config_later cfg compute_cfg w :
  build_compute_config cfg = Ok compute_cfg ->
  reaches_metadata cfg compute_cfg ->
  snd (validate_config cfg compute_cfg w) = later_blocks cfg.
Proof.
  intros Hb [H1 H2]. rewrite validate_config_run, H1, H2.
  pose proof (warn_optional_fields_built cfg compute_cfg w Hb) as H.
  destruct (warn_optional_fields _ _ w) as [w' [[]|e]]; simpl in *; [reflexivity | discriminate].
Qed.

(** Whatever the earlier blocks do, a later block that raises keeps the
    validator from returning normally. *)
Lemma validate_config_Ok cfg compute_cfg w :
  snd (validate_config cfg compute_cfg w) = Ok tt ->
  check_required_values cfg (auth_of compute_cfg) (conf_of compute_cfg) = Ok tt
  /\ check_endpoint_format (conf_of compute_cfg) = Ok tt
  /\ check_metadata cfg = Ok tt
  /\ check_mandatory_plugins cfg = Ok tt
  /\ check_node_pool_dl_types cfg = Ok tt.
Proof.
  rewrite validate_config_run. unfold later_blocks.
  destruct (check_required_values _ _ _) as [[]|]; [|discriminate].
  destruct (check_endpoint_format _) as [[]|]; [|discriminate].
  destruct (warn_optional_fields _ _ w) as [w' [[]|e]]; [|discriminate]. simpl.
  destruct (check_metadata cfg) as [[]|]; [|discriminate]. simpl.
  destruct (check_mandatory_plugins cfg) as [[]|]; [|discriminate]. simpl.
  destruct (check_node_pool_dl_types cfg) as [[]|]; [|discriminate]. auto.
Qed.

(** *** Required values *)

Lemma check_required_values_dicts cfg auth conf org_id :
  py_get (dict_get cfg "organization" (JDict [])) "orgId" (JStr "") = Ok org_id ->
  check_required_values cfg (JDict auth) (JDict conf) =
  let missing :=
    missing_values (dict_get auth "token" JNull) (dict_get conf "endpoint" JNull) org_id in
  match missing with
  | [] => Ok tt
  | _ => Raise (ValueError (missing_values_message missing))
  end.
Proof.
  intros H. unfold check_required_values, missing_values. rewrite H. cbn [rbind py_get].
  rewrite app_assoc. reflexivity.
Qed.

Lemma built_auth_conf cfg compute_cfg :
  build_compute_config cfg = Ok compute_cfg ->
  exists auth conf,
    auth_of compute_cfg = JDict auth /\ conf_of compute_cfg = JDict conf
    /\ dict_get auth "token" JNull = auth_token cfg
    /\ dict_get conf "endpoint" JNull = cluster_endpoint cfg
    /\ lookup "endpoint" conf = Some (cluster_endpoint cfg).
Proof.
  intros H. apply build_compute_config_Ok in H
    as (cluster & auth & network & registry & token & endpoint & version & name & pools
        & namespace & provider & Hc & Ha & _ & _ & Ht & He & _ & _ & _ & _ & _ & ->).
  do 2 eexists. split; [reflexivity|]. split; [reflexivity|].
  unfold auth_token, cluster_endpoint, field, dict_get. rewrite Ha, Hc, Ht, He.
  repeat split; reflexivity.
Qed.

Lemma org_id_read cfg :
  section_shaped cfg "organization" ->
  exists org_id, py_get (dict_get cfg "organization" (JDict [])) "orgId" (JStr "") = Ok org_id.
Proof.
  unfold dict_get. intros [->|[d ->]]; eexists; reflexivity.
Qed.

Lemma org_id_unusable_read cfg :
  org_id_unusable cfg ->
  exists org_id,
    py_get (dict_get cfg "organization" (JDict [])) "orgId" (JStr "") = Ok org_id
    /\ negb (py_truthy org_id) || py_in_strs org_id placeholder_org_ids = true.
Proof.
  unfold dict_get.
  intros [H | org H1 H2 | org v H1 H2 H3 | org p H1 H2 H3].
  - rewrite H. exists (JStr ""). split; reflexivity.
  - rewrite H1. cbn [py_get]. unfold dict_get. rewrite H2.
    exists (JStr ""). split; reflexivity.
  - rewrite H1. cbn [py_get]. unfold dict_get. rewrite H2.
    exists v. split; [reflexivity|]. now rewrite H3.
  - rewrite H1. cbn [py_get]. unfold dict_get. rewrite H2.
    exists (JStr p). split; [reflexivity|]. apply orb_true_iff. right.
    apply existsb_exists. exists p. split; [exact H3 | apply String.eqb_refl].
Qed.

Lemma missing_values_org_id token endpoint org_id :
  negb (py_truthy org_id) || py_in_strs org_id placeholder_org_ids = true ->
  In "organization.orgId" (missing_values token endpoint org_id)
  /\ (py_truthy token = true -> py_truthy endpoint = true ->
      missing_values token endpoint org_id = [ "organization.orgId" ]).
Proof.
  intros H. unfold missing_values. rewrite H. split.
  - apply in_or_app. right. apply in_or_app. right. now left.
  - intros -> ->. reflexivity.
Qed.

Lemma Infix_missing_values_message x missing :
  In x missing -> Infix x (missing_values_message missing).
Proof.
  intros H. unfold missing_values_message.
  apply Infix_app_l, Infix_app_l, Infix_app_l, Infix_app_r. now apply Infix_concat.
Qed.

(** C7.  When [organization.orgId] is absent, empty or one of the
    placeholders, the validator raises the missing-values [ValueError] on
    every document the Transformer accepts; the message lists
    [organization.orgId], and lists nothing else when the token and the
    endpoint are set. *)
Theorem org_id_unusable_reported cfg compute_cfg w :
  build_compute_config cfg = Ok compute_cfg ->
  org_id_unusable cfg ->
  exists missing,
    validate_config cfg compute_cfg w = (w, Raise (ValueError (missing_values_message missing)))
    /\ In "organization.orgId" missing
    /\ Infix "organization.orgId" (missing_values_message missing)
    /\ (py_truthy (auth_token cfg) = true -> py_truthy (cluster_endpoint cfg) = true ->
        missing = [ "organization.orgId" ]).
Proof.
  intros Hb Ho.
  destruct (built_auth_conf _ _ Hb) as (auth & conf & Ha & Hc & Ht & He & _).
  destruct (org_id_unusable_read _ Ho) as (org_id & Hread & Hbad).
  destruct (missing_values_org_id (auth_token cfg) (cluster_endpoint cfg) org_id Hbad)
    as [Hin Hone].
  exists (missing_values (auth_token cfg) (cluster_endpoint cfg) org_id).
  split; [|split; [exact Hin | split; [now apply Infix_missing_values_message | exact Hone]]].
  rewrite validate_config_run, Ha, Hc, (check_required_values_dicts _ _ _ _ Hread), Ht, He.
  cbv zeta.
  destruct (missing_values (auth_token cfg) (cluster_endpoint cfg) org_id);
    [destruct Hin | reflexivity].
Qed.

Lemma org_id_unusable_reported_witness :
  exists missing,
    validate_config cfg_placeholder (built cfg_placeholder) w0
    = (w0, Raise (ValueError (missing_values_message missing)))
    /\ In "organization.orgId" missing
    /\ Infix "organization.orgId" (missing_values_message missing)
    /\ (py_truthy (auth_token cfg_placeholder) = true ->
        py_truthy (cluster_endpoint cfg_placeholder) = true ->
        missing = [ "organization.orgId" ]).
Proof.
  apply (org_id_unusable_reported cfg_placeholder (built cfg_placeholder) w0).
  - reflexivity.
  - apply (org_id_placeholder cfg_placeholder [ ("orgId", JStr "{{org-id}}") ] "{{org-id}}").
    + reflexivity.
    + reflexivity.
    + simpl. now left.
Defined.

(** *** The messages of the blocks differ *)

Lemma missing_values_message_head l : starts_with_c (missing_values_message l) = false.
Proof. reflexivity. Qed.
Lemma service_type_message_head v : starts_with_c (service_type_message v) = false.
Proof. reflexivity. Qed.
Lemma missing_plugins_message_head l : starts_with_c (missing_plugins_message l) = false.
Proof. reflexivity. Qed.
Lemma dl_types_message_head l : starts_with_c (dl_types_message l) = false.
Proof. reflexivity. Qed.

Lemma py_get_Raise v k d e : py_get v k d = Raise e -> e = AttributeError.
Proof. destruct v; cbn; congruence. Qed.

Lemma py_iter_Raise v e : py_iter v = Raise e -> e = TypeError.
Proof. destruct v; cbn; congruence. Qed.

Lemma check_required_values_raises cfg auth conf e :
  check_required_values cfg auth conf = Raise e -> raised_by_required_values e.
Proof.
  unfold check_required_values.
  destruct (py_get (dict_get cfg "organization" (JDict [])) "orgId" (JStr "")) as [org_id|e1] eqn:E1;
    cbn [rbind]; [|intros [= <-]; apply py_get_Raise in E1 as ->; constructor].
  destruct (py_get auth "token" JNull) as [token|e2] eqn:E2;
    cbn [rbind]; [|intros [= <-]; apply py_get_Raise in E2 as ->; constructor].
  destruct (py_get conf "endpoint" JNull) as [endpoint|e3] eqn:E3;
    cbn [rbind]; [|intros [= <-]; apply py_get_Raise in E3 as ->; constructor].
  match goal with |- match ?l with _ => _ end = _ -> _ => destruct l end;
    [discriminate | intros [= <-]; constructor].
Qed.

Lemma check_metadata_raises cfg e :
  check_metadata cfg = Raise e -> raised_by_later_blocks e.
Proof.
  unfold check_metadata.
  destruct (dict_has cfg "metadata" && negb (is_none (dict_get cfg "metadata" JNull))
            && negb (is_dict (dict_get cfg "metadata" JNull)));
    [intros [= <-]; constructor|].
  destruct (py_get _ "serveAgentServiceType" JNull) as [v|e1] eqn:E1;
    cbn [rbind]; [|intros [= <-]; apply py_get_Raise in E1 as ->; constructor].
  destruct (negb (is_none v)); [|discriminate].
  unfold py_not_in_str_set. destruct (py_hashable v); cbn [rbind];
    [|intros [= <-]; constructor].
  destruct (negb (py_in_strs v allowed_service_types)); [|discriminate].
  intros [= <-]. constructor.
Qed.

Lemma plugin_name_set_Raise ps e : plugin_name_set ps = Raise e -> e = TypeError.
Proof.
  induction ps as [|p ps IH]; cbn; [discriminate|].
  destruct p; try exact IH.
  destruct (py_hashable _); [|congruence].
  destruct (plugin_name_set ps); cbn; [discriminate | exact IH].
Qed.

Lemma check_mandatory_plugins_raises cfg e :
  check_mandatory_plugins cfg = Raise e -> raised_by_later_blocks e.
Proof.
  unfold check_mandatory_plugins.
  destruct (py_iter _) as [ps|e1] eqn:E1; cbn [rbind];
    [|intros [= <-]; apply py_iter_Raise in E1 as ->; constructor].
  destruct (plugin_name_set ps) as [names|e2] eqn:E2; cbn [rbind];
    [|intros [= <-]; apply plugin_name_set_Raise in E2 as ->; constructor].
  destruct (py_sorted _); [discriminate | intros [= <-]; constructor].
Qed.

Lemma check_node_pool_dl_types_raises cfg e :
  check_node_pool_dl_types cfg = Raise e -> raised_by_later_blocks e.
Proof.
  unfold check_node_pool_dl_types.
  destruct (py_iter _) as [ps|e1] eqn:E1; cbn [rbind];
    [|intros [= <-]; apply py_iter_Raise in E1 as ->; constructor].
  destruct (invalid_dl_types_by_pool 0 ps); [discriminate | intros [= <-]; constructor].
Qed.

Lemma later_blocks_raises cfg e : later_blocks cfg = Raise e -> raised_by_later_blocks e.
Proof.
  unfold later_blocks.
  destruct (check_metadata cfg) eqn:E1; cbn [rbind];
    [|intros [= <-]; now apply check_metadata_raises in E1].
  destruct (check_mandatory_plugins cfg) eqn:E2; cbn [rbind];
    [|intros [= <-]; now apply check_mandatory_plugins_raises in E2].
  apply check_node_pool_dl_types_raises.
Qed.

Lemma endpoint_message_head : starts_with_c endpoint_message = true.
Proof. reflexivity. Qed.

Lemma later_blocks_not_endpoint cfg : later_blocks cfg <> Raise (ValueError endpoint_message).
Proof.
  intros H. apply later_blocks_raises in H.
  remember (ValueError endpoint_message) as x eqn:Hx.
  pose proof endpoint_message_head as Hh.
  destruct H; try discriminate Hx; injection Hx as Hx; rewrite <- Hx in Hh; discriminate Hh.
Qed.

Lemma check_required_values_not_endpoint cfg auth conf :
  check_required_values cfg auth conf <> Raise (ValueError endpoint_message).
Proof.
  intros H. apply check_required_values_raises in H.
  remember (ValueError endpoint_message) as x eqn:Hx.
  pose proof endpoint_message_head as Hh.
  destruct H; try discriminate Hx; injection Hx as Hx; rewrite <- Hx in Hh; discriminate Hh.
Qed.

(** *** The endpoint block *)

Lemma check_endpoint_format_str conf e :
  lookup "endpoint" conf = Some (JStr e) ->
  check_endpoint_format (JDict conf) =
  if prefix "http://" e || prefix "https://" e then Ok tt else Raise (ValueError endpoint_message).
Proof.
  intros H. unfold check_endpoint_format. cbn [py_item]. unfold dict_item. rewrite H.
  cbn [rbind py_startswith]. destruct (prefix "http://" e); cbn [rbind orb]; [reflexivity|].
  destruct (prefix "https://" e); reflexivity.
Qed.

(** C6.  On a document the Transformer accepts, with an object-shaped (or
    absent) [organization] and a [str] for [cluster.endpoint]: when the
    endpoint begins with neither [http://] nor [https://] the validator
    raises a [ValueError] (the endpoint message once the required values
    are there); when it begins with either, the endpoint block returns and
    the validator never raises the endpoint message. *)
Theorem endpoint_scheme_enforced cfg compute_cfg w e :
  build_compute_config cfg = Ok compute_cfg ->
  section_shaped cfg "organization" ->
  cluster_endpoint cfg = JStr e ->
  (prefix "http://" e = false -> prefix "https://" e = false ->
     check_endpoint_format (conf_of compute_cfg) = Raise (ValueError endpoint_message)
     /\ exists msg,
         validate_config cfg compute_cfg w = (w, Raise (ValueError msg))
         /\ (check_required_values cfg (auth_of compute_cfg) (conf_of compute_cfg) = Ok tt ->
             msg = endpoint_message))
  /\ (prefix "http://" e = true \/ prefix "https://" e = true ->
      check_endpoint_format (conf_of compute_cfg) = Ok tt
      /\ snd (validate_config cfg compute_cfg w) <> Raise (ValueError endpoint_message)).
Proof.
  intros Hb Ho He.
  destruct (built_auth_conf _ _ Hb) as (auth & conf & Ha & Hc & Ht & Hep & Hl).
  rewrite He in Hl. pose proof (check_endpoint_format_str conf e Hl) as Hfmt.
  destruct (org_id_read cfg Ho) as (org_id & Hread).
  pose proof (check_required_values_dicts cfg auth conf org_id Hread) as Hreq.
  cbv zeta in Hreq.
  split.
  - intros H1 H2. rewrite H1, H2 in Hfmt. cbn [orb] in Hfmt. rewrite Hc. split; [exact Hfmt|].
    rewrite validate_config_run, Ha, Hc, Hreq, Hfmt.
    destruct (missing_values _ _ org_id) as [|m l].
    + exists endpoint_message. split; reflexivity.
    + eexists. split; [reflexivity | discriminate].
  - intros H. assert (Hor : prefix "http://" e || prefix "https://" e = true)
      by (apply orb_true_iff; exact H).
    rewrite Hor in Hfmt. rewrite Hc. split; [exact Hfmt|].
    rewrite validate_config_run.
    destruct (check_required_values cfg (auth_of compute_cfg) (conf_of compute_cfg)) eqn:E1.
    + pose proof (warn_optional_fields_built cfg compute_cfg w Hb) as Hw.
      rewrite <- Hc in Hfmt. rewrite Hfmt.
      destruct (warn_optional_fields _ _ w) as [w' [[]|e']]; cbn [snd] in *;
        [apply later_blocks_not_endpoint | discriminate].
    + cbn [snd]. rewrite <- E1. apply check_required_values_not_endpoint.
Qed.

Lemma endpoint_scheme_enforced_witness :
  check_endpoint_format (conf_of (built cfg_ftp)) = Raise (ValueError endpoint_message)
  /\ exists msg,
      validate_config cfg_ftp (built cfg_ftp) w0 = (w0, Raise (ValueError msg))
      /\ (check_required_values cfg_ftp (auth_of (built cfg_ftp)) (conf_of (built cfg_ftp)) = Ok tt ->
          msg = endpoint_message).
Proof.
  apply (endpoint_scheme_enforced cfg_ftp (built cfg_ftp) w0 "ftp://host").
  - reflexivity.
  - right. eexists. reflexivity.
  - reflexivity.
  - reflexivity.
  - reflexivity.
Defined.

(** *** The metadata block *)

Lemma check_metadata_dict cfg md :
  lookup "metadata" cfg = Some (JDict md) ->
  check_metadata cfg =
  let v := dict_get md "serveAgentServiceType" JNull in
  if negb (is_none v) then
    rbind (py_not_in_str_set v allowed_service_types) (fun bad =>
      if bad then Raise (ValueError (service_type_message v)) else Ok tt)
  else Ok tt.
Proof.
  intros H. unfold check_metadata, dict_has, dict_get. rewrite H. cbn [is_dict negb andb].
  destruct md; reflexivity.
Qed.

Lemma check_metadata_absent cfg : lookup "metadata" cfg = None -> check_metadata cfg = Ok tt.
Proof. intros H. unfold check_metadata, dict_has, dict_get. rewrite H. reflexivity. Qed.

(** With an object-shaped [organization] and a [str] endpoint, the first
    two blocks raise nothing but a [ValueError]. *)
Lemma first_blocks_ValueError cfg compute_cfg w :
  build_compute_config cfg = Ok compute_cfg ->
  section_shaped cfg "organization" ->
  is_str (cluster_endpoint cfg) = true ->
  (exists msg, validate_config cfg compute_cfg w = (w, Raise (ValueError msg)))
  \/ reaches_metadata cfg compute_cfg.
Proof.
  intros Hb Ho He.
  destruct (built_auth_conf _ _ Hb) as (auth & conf & Ha & Hc & Ht & Hep & Hl).
  destruct (cluster_endpoint cfg) as [| | |e| |] eqn:Ee; try discriminate He.
  pose proof (check_endpoint_format_str conf e Hl) as Hfmt.
  destruct (org_id_read cfg Ho) as (org_id & Hread).
  pose proof (check_required_values_dicts cfg auth conf org_id Hread) as Hreq.
  cbv zeta in Hreq. unfold reaches_metadata.
  rewrite validate_config_run, Ha, Hc, Hreq, Hfmt.
  destruct (missing_values _ _ org_id) as [|m l]; [|left; eexists; reflexivity].
  destruct (prefix "http://" e || prefix "https://" e); [right; split; reflexivity|].
  left. eexists. reflexivity.
Qed.

Lemma py_in_strs_In v l : py_in_strs v l = true <-> exists s, v = JStr s /\ In s l.
Proof.
  unfold py_in_strs. rewrite existsb_exists. split.
  - intros (s & Hs & He). destruct v; try discriminate He. cbn in He.
    apply String.eqb_eq in He. subst. eauto.
  - intros (s & -> & Hs). exists s. split; [exact Hs | apply String.eqb_refl].
Qed.

(** Membership in the set of line 204, value by value. *)
Lemma py_in_allowed_service_types v :
  py_in_strs v allowed_service_types = true <-> v = JStr "ClusterIP" \/ v = JStr "LoadBalancer".
Proof.
  rewrite py_in_strs_In. unfold allowed_service_types. split.
  - intros (s & -> & [<-|[<-|[]]]); auto.
  - intros [->| ->]; eexists; (split; [reflexivity|]); simpl; auto.
Qed.

(** C8.  On a document the Transformer accepts (object-shaped or absent
    [organization], a [str] endpoint): a [metadata.serveAgentServiceType]
    that is there and is neither [ClusterIP] nor [LoadBalancer] makes the
    validator raise a [ValueError], the service-type one once the earlier
    blocks pass, and [NodePort] is such a value; [ClusterIP] passes the
    block and [LoadBalancer] passes it; so does a document without the
    key; and the validator prints nothing but its two warnings about the
    CA and the volumes. *)
Theorem service_type_gate cfg compute_cfg w :
  build_compute_config cfg = Ok compute_cfg ->
  section_shaped cfg "organization" ->
  is_str (cluster_endpoint cfg) = true ->
  (forall md v,
      lookup "metadata" cfg = Some (JDict md) ->
      lookup "serveAgentServiceType" md = Some v ->
      is_none v = false -> py_hashable v = true ->
      v <> JStr "ClusterIP" -> v <> JStr "LoadBalancer" ->
      check_metadata cfg = Raise (ValueError (service_type_message v))
      /\ (exists w' msg, validate_config cfg compute_cfg w = (w', Raise (ValueError msg)))
      /\ (reaches_metadata cfg compute_cfg ->
          snd (validate_config cfg compute_cfg w) = Raise (ValueError (service_type_message v))))
  /\ (forall md,
      lookup "metadata" cfg = Some (JDict md) ->
      lookup "serveAgentServiceType" md = Some (JStr "NodePort") ->
      check_metadata cfg = Raise (ValueError (service_type_message (JStr "NodePort")))
      /\ exists w' msg, validate_config cfg compute_cfg w = (w', Raise (ValueError msg)))
  /\ (forall md,
      lookup "metadata" cfg = Some (JDict md) ->
      lookup "serveAgentServiceType" md = Some (JStr "ClusterIP") ->
      check_metadata cfg = Ok tt)
  /\ (forall md,
      lookup "metadata" cfg = Some (JDict md) ->
      lookup "serveAgentServiceType" md = Some (JStr "LoadBalancer") ->
      check_metadata cfg = Ok tt)
  /\ (service_type_omitted cfg -> check_metadata cfg = Ok tt)
  /\ only_warned w (fst (validate_config cfg compute_cfg w)).
Proof.
  intros Hb Ho He.
  assert (Hbad : forall md v,
      lookup "metadata" cfg = Some (JDict md) ->
      lookup "serveAgentServiceType" md = Some v ->
      is_none v = false -> py_hashable v = true ->
      v <> JStr "ClusterIP" -> v <> JStr "LoadBalancer" ->
      check_metadata cfg = Raise (ValueError (service_type_message v))
      /\ (exists w' msg, validate_config cfg compute_cfg w = (w', Raise (ValueError msg)))
      /\ (reaches_metadata cfg compute_cfg ->
          snd (validate_config cfg compute_cfg w) = Raise (ValueError (service_type_message v)))).
  { intros md v Hmd Hv Hnone Hhash H1 H2.
    assert (Hnot : py_in_strs v allowed_service_types = false).
    { destruct (py_in_strs v allowed_service_types) eqn:E; [|reflexivity].
      apply py_in_allowed_service_types in E as [E|E]; contradiction. }
    assert (Hm : check_metadata cfg = Raise (ValueError (service_type_message v))).
    { rewrite (check_metadata_dict cfg md Hmd). unfold dict_get. rewrite Hv. cbv zeta.
      rewrite Hnone. unfold py_not_in_str_set. rewrite Hhash, Hnot. reflexivity. }
    assert (Hlater : later_blocks cfg = Raise (ValueError (service_type_message v)))
      by (unfold later_blocks; now rewrite Hm).
    split; [exact Hm|]. split.
    + destruct (first_blocks_ValueError cfg compute_cfg w Hb Ho He) as [(msg & H)|Hr].
      * exists w, msg. exact H.
      * pose proof (validate_config_later cfg compute_cfg w Hb Hr) as Hs.
        destruct (validate_config cfg compute_cfg w) as [w' r]. cbn [snd] in Hs.
        exists w', (service_type_message v). now rewrite Hs, Hlater.
    + intros Hr. now rewrite (validate_config_later cfg compute_cfg w Hb Hr). }
  assert (Hgood : forall md s,
      lookup "metadata" cfg = Some (JDict md) ->
      lookup "serveAgentServiceType" md = Some (JStr s) ->
      s = "ClusterIP" \/ s = "LoadBalancer" ->
      check_metadata cfg = Ok tt).
  { intros md s Hmd Hv Hs.
    rewrite (check_metadata_dict cfg md Hmd). unfold dict_get. rewrite Hv. cbv zeta.
    cbn [is_none negb py_not_in_str_set py_hashable rbind].
    assert (Hin : py_in_strs (JStr s) allowed_service_types = true).
    { apply py_in_allowed_service_types. destruct Hs as [->| ->]; auto. }
    now rewrite Hin. }
  split; [exact Hbad|]. split; [|split; [|split; [|split]]].
  - intros md Hmd Hv.
    destruct (Hbad md (JStr "NodePort") Hmd Hv eq_refl eq_refl) as (H1 & H2 & _);
      [discriminate | discriminate | auto].
  - intros md Hmd Hv. apply (Hgood md "ClusterIP" Hmd Hv). now left.
  - intros md Hmd Hv. apply (Hgood md "LoadBalancer" Hmd Hv). now right.
  - intros [Habs | md Hmd Hv].
    + now apply check_metadata_absent.
    + rewrite (check_metadata_dict cfg md Hmd). unfold dict_get. now rewrite Hv.
  - apply validate_config_world.
Qed.

Lemma service_type_gate_witness :
  (check_metadata cfg_node_port = Raise (ValueError (service_type_message (JStr "NodePort")))
   /\ exists w' msg,
        validate_config cfg_node_port (built cfg_node_port) w0 = (w', Raise (ValueError msg)))
  /\ check_metadata cfg_cluster_ip = Ok tt
  /\ check_metadata cfg_load_balancer = Ok tt.
Proof.
  split; [|split].
  - apply (proj1 (proj2 (service_type_gate cfg_node_port (built cfg_node_port) w0
                           eq_refl (or_intror (ex_intro _ _ eq_refl)) eq_refl))
             [ ("serveAgentServiceType", JStr "NodePort") ]); reflexivity.
  - apply (proj1 (proj2 (proj2 (service_type_gate cfg_cluster_ip (built cfg_cluster_ip) w0
                                  eq_refl (or_intror (ex_intro _ _ eq_refl)) eq_refl)))
             [ ("serveAgentServiceType", JStr "ClusterIP") ]); reflexivity.
  - apply (proj1 (proj2 (proj2 (proj2
             (service_type_gate cfg_load_balancer (built cfg_load_balancer) w0
                eq_refl (or_intror (ex_intro _ _ eq_refl)) eq_refl))))
             [ ("serveAgentServiceType", JStr "LoadBalancer") ]); reflexivity.
Defined.

Example node_port_message :
  service_type_message (JStr "NodePort")
  = "Invalid metadata.serveAgentServiceType: NodePort. Allowed values: ['ClusterIP', 'LoadBalancer']".
Proof. reflexivity. Qed.

(** *** The plugin block *)

Lemma check_mandatory_plugins_run cfg ps names :
  py_iter (dict_get cfg "plugins" (JList [])) = Ok ps ->
  plugin_name_set ps = Ok names ->
  check_mandatory_plugins cfg =
  match missing_plugins names with
  | [] => Ok tt
  | _ => Raise (ValueError (missing_plugins_message (missing_plugins names)))
  end.
Proof.
  intros H1 H2. unfold check_mandatory_plugins. rewrite H1. cbn [rbind]. rewrite H2. reflexivity.
Qed.

Lemma missing_plugins_In names m :
  In m (missing_plugins names) <-> In m mandatory_plugins /\ covers names m = false.
Proof.
  unfold missing_plugins, set_difference, covers.
  rewrite py_sorted_In, filter_In, negb_true_iff. reflexivity.
Qed.

Lemma Infix_missing_plugins_message m l :
  In m l -> Infix ("plugins: " ++ m) (missing_plugins_message l).
Proof.
  intros H. unfold missing_plugins_message.
  apply Infix_app_l, Infix_app_l, Infix_app_l, Infix_app_r, Infix_concat.
  apply in_map_iff. exists m. split; [reflexivity | exact H].
Qed.

(** A block after the first two that raises: the validator cannot return
    normally, and it raises that very exception once it gets there. *)
Lemma later_block_raises cfg e :
  later_blocks cfg = Raise e ->
  (forall compute_cfg w, snd (validate_config cfg compute_cfg w) <> Ok tt)
  /\ (forall compute_cfg w,
        build_compute_config cfg = Ok compute_cfg ->
        reaches_metadata cfg compute_cfg ->
        snd (validate_config cfg compute_cfg w) = Raise e).
Proof.
  intros H. split.
  - intros compute_cfg w Hok. apply validate_config_Ok in Hok as (_ & _ & H1 & H2 & H3).
    unfold later_blocks in H. rewrite H1, H2 in H. cbn [rbind] in H. congruence.
  - intros compute_cfg w Hb Hr. now rewrite (validate_config_later cfg compute_cfg w Hb Hr).
Qed.

Lemma later_blocks_plugins cfg e :
  check_metadata cfg = Ok tt -> check_mandatory_plugins cfg = Raise e -> later_blocks cfg = Raise e.
Proof. intros H1 H2. unfold later_blocks. now rewrite H1, H2. Qed.

Lemma plugins_block_raises cfg e :
  check_mandatory_plugins cfg = Raise e ->
  (forall compute_cfg w, snd (validate_config cfg compute_cfg w) <> Ok tt)
  /\ (forall compute_cfg w,
        build_compute_config cfg = Ok compute_cfg ->
        reaches_plugins cfg compute_cfg ->
        snd (validate_config cfg compute_cfg w) = Raise e).
Proof.
  intros H. split.
  - intros compute_cfg w Hok. apply validate_config_Ok in Hok as (_ & _ & _ & H2 & _). congruence.
  - intros compute_cfg w Hb [Hr Hm].
    now apply (later_block_raises cfg e (later_blocks_plugins cfg e Hm H)).
Qed.

(** The names the set comprehension collects. *)
Lemma plugin_name_set_Ok ps names :
  plugin_name_set ps = Ok names ->
  (forall p, In (JDict p) ps -> py_hashable (dict_get p "name" JNull) = true)
  /\ (forall n, In n names <-> exists p, In (JDict p) ps /\ dict_get p "name" JNull = n).
Proof.
  revert names. induction ps as [|q ps IH]; intros names H.
  - injection H as <-. split; [intros p [] | intros n; split; [intros [] | intros (p & [] & _)]].
  - destruct q as [| | | | |p];
      try (cbn [plugin_name_set] in H; destruct (IH names H) as [I1 I2]; split;
           [ intros p [Hp|Hp]; [discriminate Hp | now apply I1]
           | intros n; rewrite I2; split; intros (p & Hp & Hn);
             [ exists p; split; [now right | exact Hn]
             | destruct Hp as [Hp|Hp]; [discriminate Hp | eauto] ] ]).
    cbn [plugin_name_set] in H.
    destruct (py_hashable (dict_get p "name" JNull)) eqn:Hh; [|discriminate H].
    destruct (plugin_name_set ps) as [names'|] eqn:Hps; [|discriminate H].
    cbn [rbind] in H. injection H as <-. destruct (IH names' eq_refl) as [I1 I2]. split.
    + intros p' [[= <-]|Hp]; [exact Hh | now apply I1].
    + intros n. cbn [In]. rewrite I2. split.
      * intros [<-|(p' & Hp & Hn)]; [exists p; split; [now left | reflexivity]|].
        exists p'. split; [now right | exact Hn].
      * intros (p' & [[= <-]|Hp] & Hn); [now left | right; eauto].
Qed.

Lemma plugin_name_set_hashable ps :
  (forall p, In (JDict p) ps -> py_hashable (dict_get p "name" JNull) = true) ->
  exists names, plugin_name_set ps = Ok names.
Proof.
  induction ps as [|q ps IH]; intros H; [now exists []|].
  destruct IH as [names Hn]; [intros p Hp; apply H; now right|].
  destruct q as [| | | | |p]; cbn [plugin_name_set]; eauto.
  rewrite (H p (or_introl eq_refl)), Hn. cbn [rbind]. eauto.
Qed.

Lemma covers_In names m : covers names m = true <-> In (JStr m) names.
Proof.
  unfold covers. rewrite existsb_exists. split.
  - intros (n & Hn & He). destruct n; try discriminate He. cbn in He.
    apply String.eqb_eq in He. now subst.
  - intros H. exists (JStr m). split; [exact H | apply String.eqb_refl].
Qed.

Lemma name_lookup p m : dict_get p "name" JNull = JStr m <-> lookup "name" p = Some (JStr m).
Proof. unfold dict_get. destruct (lookup "name" p); split; congruence. Qed.

(** The names collected cover [m] exactly when an object entry is named [m]. *)
Lemma covers_plugin_named ps names m :
  plugin_name_set ps = Ok names -> covers names m = true <-> plugin_named ps m.
Proof.
  intros Hn. rewrite covers_In, (proj2 (plugin_name_set_Ok ps names Hn)).
  unfold plugin_named. split; intros (p & Hp & H); exists p; (split; [exact Hp|]);
    now apply name_lookup.
Qed.

(** The plugin block on an array whose object entries have scalar names:
    what it returns, by which of the two mandatory names are there. *)
Lemma check_mandatory_plugins_cases cfg ps :
  dict_get cfg "plugins" (JList []) = JList ps ->
  (forall p, In (JDict p) ps -> py_hashable (dict_get p "name" JNull) = true) ->
  exists names,
    plugin_name_set ps = Ok names
    /\ check_mandatory_plugins cfg =
       match covers names "monitoring", covers names "scaler" with
       | true, true => Ok tt
       | true, false => Raise (ValueError (missing_plugins_message [ "scaler" ]))
       | false, true => Raise (ValueError (missing_plugins_message [ "monitoring" ]))
       | false, false => Raise (ValueError (missing_plugins_message [ "monitoring"; "scaler" ]))
       end.
Proof.
  intros Hp Hh. destruct (plugin_name_set_hashable ps Hh) as [names Hn].
  exists names. split; [exact Hn|].
  assert (Hi : py_iter (dict_get cfg "plugins" (JList [])) = Ok ps) by now rewrite Hp.
  rewrite (check_mandatory_plugins_run cfg ps names Hi Hn).
  unfold missing_plugins, set_difference, mandatory_plugins. cbn [filter].
  fold (covers names "monitoring"). fold (covers names "scaler").
  destruct (covers names "monitoring"), (covers names "scaler"); reflexivity.
Qed.

(** C2.  [plugins] is an array whose object entries have scalar names.
    The plugin block passes exactly when an object is named [monitoring]
    and an object is named [scaler].  When [scaler] alone has no object,
    the block raises the [ValueError] naming [scaler]; when [monitoring]
    alone has none, the one naming [monitoring]; when both have none, the
    one naming both.  The message holds [plugins: m] for every name it was
    made of; and when the block raises, the validator never accepts the
    document, and raises that very error once the earlier blocks pass. *)
Theorem mandatory_plugins_enforced cfg ps :
  dict_get cfg "plugins" (JList []) = JList ps ->
  (forall p, In (JDict p) ps -> py_hashable (dict_get p "name" JNull) = true) ->
  (check_mandatory_plugins cfg = Ok tt <->
   plugin_named ps "monitoring" /\ plugin_named ps "scaler")
  /\ (plugin_named ps "monitoring" -> ~ plugin_named ps "scaler" ->
      check_mandatory_plugins cfg = Raise (ValueError (missing_plugins_message [ "scaler" ])))
  /\ (~ plugin_named ps "monitoring" -> plugin_named ps "scaler" ->
      check_mandatory_plugins cfg = Raise (ValueError (missing_plugins_message [ "monitoring" ])))
  /\ (~ plugin_named ps "monitoring" -> ~ plugin_named ps "scaler" ->
      check_mandatory_plugins cfg
      = Raise (ValueError (missing_plugins_message [ "monitoring"; "scaler" ])))
  /\ (forall missing m,
        In m missing -> Infix ("plugins: " ++ m) (missing_plugins_message missing))
  /\ (forall e,
        check_mandatory_plugins cfg = Raise e ->
        (forall compute_cfg w, snd (validate_config cfg compute_cfg w) <> Ok tt)
        /\ (forall compute_cfg w,
              build_compute_config cfg = Ok compute_cfg ->
              reaches_plugins cfg compute_cfg ->
              snd (validate_config cfg compute_cfg w) = Raise e)).
Proof.
  intros Hp Hh.
  destruct (check_mandatory_plugins_cases cfg ps Hp Hh) as (names & Hn & Hrun).
  pose proof (covers_plugin_named ps names "monitoring" Hn) as Hm.
  pose proof (covers_plugin_named ps names "scaler" Hn) as Hs.
  assert (Hm' : covers names "monitoring" = false <-> ~ plugin_named ps "monitoring").
  { rewrite <- Hm. destruct (covers names "monitoring"); split; congruence. }
  assert (Hs' : covers names "scaler" = false <-> ~ plugin_named ps "scaler").
  { rewrite <- Hs. destruct (covers names "scaler"); split; congruence. }
  split; [|split; [|split; [|split; [|split]]]].
  - rewrite <- Hm, <- Hs, Hrun.
    destruct (covers names "monitoring"), (covers names "scaler");
      split; try discriminate; try (intros [? ?]; discriminate); auto.
  - intros H1 H2. apply Hm in H1. apply Hs' in H2. now rewrite Hrun, H1, H2.
  - intros H1 H2. apply Hm' in H1. apply Hs in H2. now rewrite Hrun, H1, H2.
  - intros H1 H2. apply Hm' in H1. apply Hs' in H2. now rewrite Hrun, H1, H2.
  - intros missing m Hin. now apply Infix_missing_plugins_message.
  - intros e He. exact (plugins_block_raises cfg e He).
Qed.

Lemma mandatory_plugins_enforced_witness :
  check_mandatory_plugins cfg_monitoring_only
  = Raise (ValueError (missing_plugins_message [ "scaler" ]))
  /\ Infix "plugins: scaler" (missing_plugins_message [ "scaler" ])
  /\ snd (validate_config cfg_monitoring_only (built cfg_monitoring_only) w0)
     = Raise (ValueError (missing_plugins_message [ "scaler" ]))
  /\ check_mandatory_plugins cfg_both_plugins = Ok tt.
Proof.
  assert (Hh : forall p, In (JDict p) [ JDict [ ("name", JStr "monitoring") ] ] ->
                 py_hashable (dict_get p "name" JNull) = true)
    by (intros p [[= <-]|[]]; reflexivity).
  pose proof (mandatory_plugins_enforced cfg_monitoring_only
                [ JDict [ ("name", JStr "monitoring") ] ] eq_refl Hh)
    as (_ & Hscaler & _ & _ & Hinfix & Hvalidator).
  assert (Hraise : check_mandatory_plugins cfg_monitoring_only
                   = Raise (ValueError (missing_plugins_message [ "scaler" ]))).
  { apply Hscaler.
    - exists [ ("name", JStr "monitoring") ]. split; [now left | reflexivity].
    - intros (p & [[= <-]|[]] & Hname). discriminate Hname. }
  split; [exact Hraise|]. split; [apply Hinfix; now left|]. split.
  - apply (proj2 (Hvalidator _ Hraise) (built cfg_monitoring_only) w0 eq_refl).
    repeat split.
  - apply (mandatory_plugins_enforced cfg_both_plugins
             [ JDict [ ("name", JStr "monitoring") ]; JDict [ ("name", JStr "scaler") ] ]).
    + reflexivity.
    + intros p [[= <-]|[[= <-]|[]]]; reflexivity.
    + split.
      * exists [ ("name", JStr "monitoring") ]. split; [now left | reflexivity].
      * exists [ ("name", JStr "scaler") ]. split; [right; now left | reflexivity].
Defined.

Example both_plugins_pass :
  check_mandatory_plugins (sample "org-1" "https://host" [] sample_plugins (JList [])) = Ok tt.
Proof. reflexivity. Qed.

(** *** Entries of [plugins] that are no objects *)

Lemma plugin_name_set_no_dict ps :
  forallb (fun p => negb (is_dict p)) ps = true -> plugin_name_set ps = Ok [].
Proof.
  induction ps as [|p ps IH]; [reflexivity|]. cbn [forallb]. intros H.
  apply andb_true_iff in H as [Hp Hps]. destruct p; try discriminate Hp; cbn; now apply IH.
Qed.

(** C10.  When no entry of the [plugins] list is an object, none
    contributes a name: the plugin block raises the [ValueError] that names
    both [monitoring] and [scaler], the validator never accepts the
    document, and it raises that very error once the earlier blocks pass. *)
Theorem non_object_plugins_ignored cfg ps :
  dict_get cfg "plugins" (JList []) = JList ps ->
  forallb (fun p => negb (is_dict p)) ps = true ->
  plugin_name_set ps = Ok []
  /\ check_mandatory_plugins cfg
     = Raise (ValueError (missing_plugins_message [ "monitoring"; "scaler" ]))
  /\ Infix "plugins: monitoring" (missing_plugins_message [ "monitoring"; "scaler" ])
  /\ Infix "plugins: scaler" (missing_plugins_message [ "monitoring"; "scaler" ])
  /\ (forall compute_cfg w, snd (validate_config cfg compute_cfg w) <> Ok tt)
  /\ (forall compute_cfg w,
        build_compute_config cfg = Ok compute_cfg ->
        reaches_plugins cfg compute_cfg ->
        snd (validate_config cfg compute_cfg w)
        = Raise (ValueError (missing_plugins_message [ "monitoring"; "scaler" ]))).
Proof.
  intros Hp Hnd. pose proof (plugin_name_set_no_dict ps Hnd) as Hn.
  assert (Hi : py_iter (dict_get cfg "plugins" (JList [])) = Ok ps) by now rewrite Hp.
  pose proof (check_mandatory_plugins_run cfg ps [] Hi Hn) as Hrun.
  change (missing_plugins []) with [ "monitoring"; "scaler" ] in Hrun.
  split; [exact Hn|]. split; [exact Hrun|].
  split; [apply (Infix_missing_plugins_message "monitoring"); now left|].
  split; [apply (Infix_missing_plugins_message "scaler"); right; now left|].
  exact (plugins_block_raises cfg _ Hrun).
Qed.

Lemma non_object_plugins_ignored_witness :
  plugin_name_set [ JStr "monitoring"; JStr "scaler" ] = Ok []
  /\ check_mandatory_plugins cfg_bare_plugins
     = Raise (ValueError (missing_plugins_message [ "monitoring"; "scaler" ]))
  /\ Infix "plugins: monitoring" (missing_plugins_message [ "monitoring"; "scaler" ])
  /\ Infix "plugins: scaler" (missing_plugins_message [ "monitoring"; "scaler" ])
  /\ (forall compute_cfg w, snd (validate_config cfg_bare_plugins compute_cfg w) <> Ok tt)
  /\ (forall compute_cfg w,
        build_compute_config cfg_bare_plugins = Ok compute_cfg ->
        reaches_plugins cfg_bare_plugins compute_cfg ->
        snd (validate_config cfg_bare_plugins compute_cfg w)
        = Raise (ValueError (missing_plugins_message [ "monitoring"; "scaler" ]))).
Proof.
  apply (non_object_plugins_ignored cfg_bare_plugins [ JStr "monitoring"; JStr "scaler" ]).
  - reflexivity.
  - reflexivity.
Defined.

Example bare_plugins_outcome :
  validate_config cfg_bare_plugins (built cfg_bare_plugins) w0
  = (World [ ca_warning; volumes_warning ] [],
     Raise (ValueError (missing_plugins_message [ "monitoring"; "scaler" ]))).
Proof. reflexivity. Qed.

(** *** The dlTypes block *)

Lemma invalid_dl_type_false t : invalid_dl_type t = false <-> in_catalog t.
Proof.
  unfold invalid_dl_type, in_catalog. rewrite orb_false_iff, !negb_false_iff. split.
  - intros [Hs Hin]. destruct t; try discriminate Hs. exists s. split; [reflexivity|].
    apply existsb_exists in Hin as (x & Hx & Heq). cbn in Heq.
    apply String.eqb_eq in Heq. now subst.
  - intros (s & -> & Hs). split; [reflexivity|].
    apply existsb_exists. exists s. split; [exact Hs | apply String.eqb_refl].
Qed.

Lemma invalid_dl_type_true t : invalid_dl_type t = true <-> ~ in_catalog t.
Proof.
  rewrite <- invalid_dl_type_false. destruct (invalid_dl_type t); split; congruence.
Qed.

Lemma invalid_dl_types_by_pool_In entry pools : forall idx,
  In entry (invalid_dl_types_by_pool idx pools) <->
  exists i pool, nth_error pools i = Some pool /\ In entry (pool_violations (idx + i) pool).
Proof.
  induction pools as [|q pools IH]; intros idx; cbn [invalid_dl_types_by_pool].
  - split; [intros [] | intros (i & pool & H & _); destruct i; discriminate H].
  - rewrite in_app_iff, IH. split.
    + intros [H | (i & pool & Hn & H)].
      * exists 0, q. rewrite Nat.add_0_r. now split.
      * exists (S i), pool. rewrite Nat.add_succ_r. now split.
    + intros (i & pool & Hn & H). destruct i as [|i].
      * left. cbn in Hn. injection Hn as ->. now rewrite Nat.add_0_r in H.
      * right. exists i, pool. rewrite Nat.add_succ_r in H. now split.
Qed.

Lemma check_node_pool_dl_types_run cfg pools :
  py_iter (dict_get cfg "nodePools" (JList [])) = Ok pools ->
  check_node_pool_dl_types cfg =
  match invalid_dl_types_by_pool 0 pools with
  | [] => Ok tt
  | _ => Raise (ValueError (dl_types_message (invalid_dl_types_by_pool 0 pools)))
  end.
Proof.
  intros H. unfold check_node_pool_dl_types. rewrite H. cbn [rbind].
  destruct (invalid_dl_types_by_pool 0 pools); reflexivity.
Qed.

Lemma Infix_dl_types_message entry l : In entry l -> Infix entry (dl_types_message l).
Proof.
  intros H. unfold dl_types_message.
  apply Infix_app_l, Infix_app_l, Infix_app_l, Infix_app_r. now apply Infix_concat.
Qed.

Lemma dl_types_block_raises cfg e :
  check_node_pool_dl_types cfg = Raise e ->
  (forall compute_cfg w, snd (validate_config cfg compute_cfg w) <> Ok tt)
  /\ (forall compute_cfg w,
        build_compute_config cfg = Ok compute_cfg ->
        reaches_dl_types cfg compute_cfg ->
        snd (validate_config cfg compute_cfg w) = Raise e).
Proof.
  intros H. split.
  - intros compute_cfg w Hok. apply validate_config_Ok in Hok as (_ & _ & _ & _ & H3). congruence.
  - intros compute_cfg w Hb [[Hr Hm] Hp].
    apply (later_block_raises cfg e); [|exact Hb | exact Hr].
    unfold later_blocks. now rewrite Hm, Hp.
Qed.

(** A pool that has an entry to report: where the entry ends up. *)
Lemma pool_entry_reported cfg pools i pool entry :
  py_iter (dict_get cfg "nodePools" (JList [])) = Ok pools ->
  nth_error pools i = Some pool ->
  pool_violations i pool = [ entry ] ->
  In entry (invalid_dl_types_by_pool 0 pools)
  /\ check_node_pool_dl_types cfg
     = Raise (ValueError (dl_types_message (invalid_dl_types_by_pool 0 pools)))
  /\ Infix entry (dl_types_message (invalid_dl_types_by_pool 0 pools)).
Proof.
  intros Hi Hn Hv.
  assert (Hin : In entry (invalid_dl_types_by_pool 0 pools)).
  { apply invalid_dl_types_by_pool_In. exists i, pool. split; [exact Hn|].
    cbn [Nat.add]. rewrite Hv. now left. }
  split; [exact Hin|]. split; [|now apply Infix_dl_types_message].
  rewrite (check_node_pool_dl_types_run cfg pools Hi).
  destruct (invalid_dl_types_by_pool 0 pools); [destruct Hin | reflexivity].
Qed.

Lemma py_repr_list_In t l : In t l -> Infix (py_repr t) (py_repr (JList l)).
Proof.
  intros H. cbn [py_repr]. apply Infix_app_l, Infix_app_r, Infix_concat.
  now apply in_map.
Qed.

Lemma pool_violations_invalid idx p ts t :
  dict_get p "dlTypes" (JList []) = JList ts -> In t ts -> invalid_dl_type t = true ->
  pool_violations idx (JDict p) = [ invalid_entry idx p ts ]
  /\ In t (filter invalid_dl_type ts).
Proof.
  intros Hd Hin Hbad.
  assert (Hf : In t (filter invalid_dl_type ts)) by (apply filter_In; now split).
  split; [|exact Hf]. unfold pool_violations. rewrite Hd. cbv zeta.
  unfold invalid_entry. destruct (filter invalid_dl_type ts); [destruct Hf | reflexivity].
Qed.

Lemma pool_violations_not_array idx p :
  is_list (dict_get p "dlTypes" (JList [])) = false ->
  pool_violations idx (JDict p) = [ not_array_entry idx p ].
Proof.
  intros H. unfold pool_violations, not_array_entry. cbv zeta.
  destruct (dict_get p "dlTypes" (JList [])); try reflexivity. discriminate H.
Qed.

Lemma pool_violations_valid idx p ts :
  dict_get p "dlTypes" (JList []) = JList ts -> (forall t, In t ts -> in_catalog t) ->
  pool_violations idx (JDict p) = [].
Proof.
  intros Hd Hall. unfold pool_violations. rewrite Hd. cbv zeta.
  destruct (filter invalid_dl_type ts) as [|t l] eqn:E; [reflexivity|].
  assert (Hin : In t (filter invalid_dl_type ts)) by (rewrite E; now left).
  apply filter_In in Hin as [Hin Hbad]. apply invalid_dl_type_true in Hbad.
  destruct (Hbad (Hall t Hin)).
Qed.

(** C1.  A pool whose [dlTypes] list has a value outside the catalog gets
    an entry that carries the pool's name and lists the value; the dlTypes
    block raises the [ValueError] with that entry in its message, the
    validator never accepts the document, and it raises that very error once
    the earlier blocks pass.  A pool whose [dlTypes] are all catalog members
    gets no entry, and with no entry at all the block passes. *)
Theorem dl_types_catalog_enforced cfg pools :
  py_iter (dict_get cfg "nodePools" (JList [])) = Ok pools ->
  (forall i p ts t,
      nth_error pools i = Some (JDict p) ->
      dict_get p "dlTypes" (JList []) = JList ts ->
      In t ts -> ~ in_catalog t ->
      pool_violations i (JDict p) = [ invalid_entry i p ts ]
      /\ Infix (py_repr t) (invalid_entry i p ts)
      /\ check_node_pool_dl_types cfg
         = Raise (ValueError (dl_types_message (invalid_dl_types_by_pool 0 pools)))
      /\ Infix (invalid_entry i p ts) (dl_types_message (invalid_dl_types_by_pool 0 pools))
      /\ (forall compute_cfg w, snd (validate_config cfg compute_cfg w) <> Ok tt)
      /\ (forall compute_cfg w,
            build_compute_config cfg = Ok compute_cfg ->
            reaches_dl_types cfg compute_cfg ->
            snd (validate_config cfg compute_cfg w)
            = Raise (ValueError (dl_types_message (invalid_dl_types_by_pool 0 pools)))))
  /\ (forall i p ts,
      nth_error pools i = Some (JDict p) ->
      dict_get p "dlTypes" (JList []) = JList ts ->
      (forall t, In t ts -> in_catalog t) ->
      pool_violations i (JDict p) = [])
  /\ ((forall i q, nth_error pools i = Some q -> pool_violations i q = []) ->
      check_node_pool_dl_types cfg = Ok tt).
Proof.
  intros Hi. split; [|split].
  - intros i p ts t Hn Hd Hin Hbad. apply invalid_dl_type_true in Hbad.
    destruct (pool_violations_invalid i p ts t Hd Hin Hbad) as [Hv Hf].
    destruct (pool_entry_reported cfg pools i (JDict p) _ Hi Hn Hv) as (_ & Hraise & Hinf).
    split; [exact Hv|]. split.
    { unfold invalid_entry. apply Infix_app_l, Infix_app_l. now apply py_repr_list_In. }
    split; [exact Hraise|]. split; [exact Hinf|].
    exact (dl_types_block_raises cfg _ Hraise).
  - intros i p ts Hn Hd Hall.
    exact (pool_violations_valid i p ts Hd Hall).
  - intros Hnone. rewrite (check_node_pool_dl_types_run cfg pools Hi).
    destruct (invalid_dl_types_by_pool 0 pools) as [|entry l] eqn:E; [reflexivity|].
    assert (Hin : In entry (invalid_dl_types_by_pool 0 pools)) by (rewrite E; now left).
    apply invalid_dl_types_by_pool_In in Hin as (i & q & Hn & Hq).
    cbn [Nat.add] in Hq. rewrite (Hnone i q Hn) in Hq. destruct Hq.
Qed.

Lemma dl_types_catalog_enforced_witness :
  pool_violations 0 (pool "pool-a" (JList [ JStr "regular-s"; JStr "gpu-h100" ]))
  = [ "pool-a: invalid dlTypes: ['gpu-h100']" ]
  /\ Infix "'gpu-h100'" "pool-a: invalid dlTypes: ['gpu-h100']"
  /\ check_node_pool_dl_types cfg_h100
     = Raise (ValueError (dl_types_message [ "pool-a: invalid dlTypes: ['gpu-h100']" ]))
  /\ Infix "pool-a: invalid dlTypes: ['gpu-h100']"
           (dl_types_message [ "pool-a: invalid dlTypes: ['gpu-h100']" ])
  /\ (forall compute_cfg w, snd (validate_config cfg_h100 compute_cfg w) <> Ok tt)
  /\ (forall compute_cfg w,
        build_compute_config cfg_h100 = Ok compute_cfg ->
        reaches_dl_types cfg_h100 compute_cfg ->
        snd (validate_config cfg_h100 compute_cfg w)
        = Raise (ValueError (dl_types_message [ "pool-a: invalid dlTypes: ['gpu-h100']" ]))).
Proof.
  apply (proj1 (dl_types_catalog_enforced cfg_h100
                  [ pool "pool-a" (JList [ JStr "regular-s"; JStr "gpu-h100" ]) ] eq_refl)
           0 [ ("name", JStr "pool-a"); ("dlTypes", JList [ JStr "regular-s"; JStr "gpu-h100" ]) ]
           [ JStr "regular-s"; JStr "gpu-h100" ] (JStr "gpu-h100")).
  - reflexivity.
  - reflexivity.
  - right. now left.
  - intros (s & [= <-] & Hs). cbn in Hs. intuition discriminate.
Defined.

Example catalog_pool_passes :
  check_node_pool_dl_types
    (sample "org-1" "https://host" [] sample_plugins
            (JList [ pool "pool-a" (JList [ JStr "regular-s"; JStr "gpu-t4" ]) ]))
  = Ok tt.
Proof. reflexivity. Qed.

(** C3.  Every pool the dlTypes block has something against gets its
    entry, which begins with the pool's name, into the one message of the
    one [ValueError] the block raises: the loop goes through all the pools
    before anything is raised. *)
Theorem dl_types_accumulated cfg pools :
  py_iter (dict_get cfg "nodePools" (JList [])) = Ok pools ->
  forall i p,
    nth_error pools i = Some (JDict p) ->
    pool_offends p ->
    (exists detail,
        pool_violations i (JDict p) = [ py_str (pool_name_of i p) ++ ": " ++ detail ]
        /\ In (py_str (pool_name_of i p) ++ ": " ++ detail) (invalid_dl_types_by_pool 0 pools))
    /\ Infix (py_str (pool_name_of i p)) (dl_types_message (invalid_dl_types_by_pool 0 pools))
    /\ check_node_pool_dl_types cfg
       = Raise (ValueError (dl_types_message (invalid_dl_types_by_pool 0 pools)))
    /\ (forall compute_cfg w, snd (validate_config cfg compute_cfg w) <> Ok tt)
    /\ (forall compute_cfg w,
          build_compute_config cfg = Ok compute_cfg ->
          reaches_dl_types cfg compute_cfg ->
          snd (validate_config cfg compute_cfg w)
          = Raise (ValueError (dl_types_message (invalid_dl_types_by_pool 0 pools)))).
Proof.
  intros Hi i p Hn Hoff.
  assert (Hv : exists detail,
             pool_violations i (JDict p) = [ py_str (pool_name_of i p) ++ ": " ++ detail ]).
  { unfold pool_offends in Hoff.
    destruct (dict_get p "dlTypes" (JList [])) as [| | | |ts|] eqn:Hd;
      try (exists "dlTypes must be an array";
           rewrite pool_violations_not_array by (now rewrite Hd); reflexivity).
    destruct Hoff as (t & Hin & Hbad).
    destruct (pool_violations_invalid i p ts t Hd Hin Hbad) as [Hv _].
    exists ("invalid dlTypes: " ++ py_repr (JList (filter invalid_dl_type ts))). exact Hv. }
  destruct Hv as (detail & Hv).
  destruct (pool_entry_reported cfg pools i (JDict p) _ Hi Hn Hv) as (Hin & Hraise & Hinf).
  split; [exists detail; now split|].
  split; [eapply Infix_trans; [|exact Hinf]; apply Infix_app_r, Infix_refl|].
  split; [exact Hraise|]. exact (dl_types_block_raises cfg _ Hraise).
Qed.

Lemma dl_types_accumulated_witness :
  (exists detail,
      pool_violations 1 (pool "pool-b" (JList [ JStr "tpu-v4" ])) = [ "pool-b" ++ ": " ++ detail ]
      /\ In ("pool-b" ++ ": " ++ detail) (invalid_dl_types_by_pool 0 two_bad_pools))
  /\ Infix "pool-b" (dl_types_message (invalid_dl_types_by_pool 0 two_bad_pools))
  /\ check_node_pool_dl_types cfg_two_bad_pools
     = Raise (ValueError (dl_types_message (invalid_dl_types_by_pool 0 two_bad_pools)))
  /\ (forall compute_cfg w, snd (validate_config cfg_two_bad_pools compute_cfg w) <> Ok tt)
  /\ (forall compute_cfg w,
        build_compute_config cfg_two_bad_pools = Ok compute_cfg ->
        reaches_dl_types cfg_two_bad_pools compute_cfg ->
        snd (validate_config cfg_two_bad_pools compute_cfg w)
        = Raise (ValueError (dl_types_message (invalid_dl_types_by_pool 0 two_bad_pools)))).
Proof.
  apply (dl_types_accumulated cfg_two_bad_pools two_bad_pools eq_refl 1
           [ ("name", JStr "pool-b"); ("dlTypes", JList [ JStr "tpu-v4" ]) ]).
  - reflexivity.
  - exists (JStr "tpu-v4"). split; [now left | reflexivity].
Defined.

Example two_bad_pools_outcome :
  validate_config cfg_two_bad_pools (built cfg_two_bad_pools) w0
  = (World [ ca_warning; volumes_warning ] [],
     Raise (ValueError (dl_types_message
       [ "pool-a: invalid dlTypes: ['gpu-h100']"; "pool-b: invalid dlTypes: ['tpu-v4']" ]))).
Proof. reflexivity. Qed.

(** ** The pipeline *)

Lemma bind_lift {A B} (r : result A) (k : A -> M B) w :
  bind (lift r) k w = match r with Ok a => k a w | Raise e => (w, Raise e) end.
Proof. destruct r; reflexivity. Qed.

Lemma bind_run {A B} (m : M A) (k : A -> M B) w :
  bind m k w = match m w with (w', Ok a) => k a w' | (w', Raise e) => (w', Raise e) end.
Proof. reflexivity. Qed.

(** Whatever makes [main] stop before the encoder leaves the files alone. *)
Lemma main_aborts cfg w :
  (forall compute_cfg w', snd (validate_config cfg compute_cfg w') <> Ok tt) ->
  exists e, snd (main cfg w) = Raise e /\ files (fst (main cfg w)) = files w.
Proof.
  intros Hv. unfold main.
  repeat (rewrite bind_lift;
          match goal with
          | |- context [match ?r with Ok _ => _ | Raise _ => _ end] =>
              destruct r; [|eexists; split; reflexivity]
          end).
  match goal with
  | |- context [bind (validate_config cfg ?c) ?k w] =>
      rewrite (bind_run (validate_config cfg c) k w);
      pose proof (validate_config_world cfg c w) as [Hf _];
      pose proof (Hv c w) as Hne;
      destruct (validate_config cfg c w) as [w' [[]|e]]; cbn [fst snd] in *
  end.
  - now destruct Hne.
  - exists e. split; [reflexivity | exact Hf].
Qed.

(** C4, as the code has it.  A pool whose [dlTypes] is no list gets the
    entry [<pool>: dlTypes must be an array] into the message of the same
    [ValueError] that carries the invalid values of the other pools; the
    validator raises it once the earlier blocks pass, and [main] stops with
    an exception before any file is written. *)
Theorem non_array_dl_types_accumulated cfg pools i p :
  py_iter (dict_get cfg "nodePools" (JList [])) = Ok pools ->
  nth_error pools i = Some (JDict p) ->
  is_list (dict_get p "dlTypes" (JList [])) = false ->
  pool_violations i (JDict p) = [ not_array_entry i p ]
  /\ In (not_array_entry i p) (invalid_dl_types_by_pool 0 pools)
  /\ check_node_pool_dl_types cfg
     = Raise (ValueError (dl_types_message (invalid_dl_types_by_pool 0 pools)))
  /\ Infix (not_array_entry i p) (dl_types_message (invalid_dl_types_by_pool 0 pools))
  /\ (forall compute_cfg w,
        build_compute_config cfg = Ok compute_cfg ->
        reaches_dl_types cfg compute_cfg ->
        snd (validate_config cfg compute_cfg w)
        = Raise (ValueError (dl_types_message (invalid_dl_types_by_pool 0 pools))))
  /\ (forall w, exists e, snd (main cfg w) = Raise e /\ files (fst (main cfg w)) = files w).
Proof.
  intros Hi Hn Hl. pose proof (pool_violations_not_array i p Hl) as Hv.
  destruct (pool_entry_reported cfg pools i (JDict p) _ Hi Hn Hv) as (Hin & Hraise & Hinf).
  destruct (dl_types_block_raises cfg _ Hraise) as [Hnever Hthen].
  repeat split; try assumption.
  intros w. now apply main_aborts.
Qed.

Lemma non_array_dl_types_accumulated_witness :
  pool_violations 0 (pool "pool-a" (JStr "gpu-t4")) = [ "pool-a: dlTypes must be an array" ]
  /\ In "pool-a: dlTypes must be an array" (invalid_dl_types_by_pool 0 mixed_pools)
  /\ check_node_pool_dl_types cfg_scalar_dl_types
     = Raise (ValueError (dl_types_message (invalid_dl_types_by_pool 0 mixed_pools)))
  /\ Infix "pool-a: dlTypes must be an array"
           (dl_types_message (invalid_dl_types_by_pool 0 mixed_pools))
  /\ (forall compute_cfg w,
        build_compute_config cfg_scalar_dl_types = Ok compute_cfg ->
        reaches_dl_types cfg_scalar_dl_types compute_cfg ->
        snd (validate_config cfg_scalar_dl_types compute_cfg w)
        = Raise (ValueError (dl_types_message (invalid_dl_types_by_pool 0 mixed_pools))))
  /\ (forall w, exists e,
        snd (main cfg_scalar_dl_types w) = Raise e
        /\ files (fst (main cfg_scalar_dl_types w)) = files w).
Proof.
  apply (non_array_dl_types_accumulated cfg_scalar_dl_types mixed_pools 0
           [ ("name", JStr "pool-a"); ("dlTypes", JStr "gpu-t4") ]).
  - reflexivity.
  - reflexivity.
  - reflexivity.
Defined.

(** C4 as the specification words it fails: the pool with the scalar
    [dlTypes] is reported by the validator's own [ValueError], in one
    message with the invalid value of the next pool, so neither at once nor
    by an exception of another kind. *)
Lemma non_array_dl_types_counterexample :
  main cfg_scalar_dl_types w0
  = (World [ ca_warning; volumes_warning ] [],
     Raise (ValueError (dl_types_message
       [ "pool-a: dlTypes must be an array"; "pool-b: invalid dlTypes: ['gpu-h100']" ])))
  /\ ~ (exists e, snd (main cfg_scalar_dl_types w0) = Raise e /\ is_ValueError e = false).
Proof.
  assert (H : main cfg_scalar_dl_types w0
              = (World [ ca_warning; volumes_warning ] [],
                 Raise (ValueError (dl_types_message
                   [ "pool-a: dlTypes must be an array";
                     "pool-b: invalid dlTypes: ['gpu-h100']" ])))) by reflexivity.
  split; [exact H|]. rewrite H. cbn [snd]. intros (e & [= <-] & He). discriminate He.
Qed.

(** ** The Transformer: what is required and what is defaulted *)

Lemma dict_item_KeyError d k e : dict_item d k = Raise e -> e = KeyError k.
Proof. unfold dict_item. destruct (lookup k d); congruence. Qed.

Lemma py_item_KeyError v k k' : py_item v k = Raise (KeyError k') -> k' = k.
Proof.
  destruct v; cbn; try discriminate. intros H. apply dict_item_KeyError in H. congruence.
Qed.

Lemma build_compute_config_KeyError cfg k :
  build_compute_config cfg = Raise (KeyError k) -> In k lookup_failure_keys.
Proof.
  unfold build_compute_config, lookup_failure_keys.
  repeat match goal with
  | |- rbind (dict_item ?d ?key) _ = _ -> _ =>
      let E := fresh "E" in
      destruct (dict_item d key) eqn:E; cbn [rbind];
      [| intros [= ->]; apply dict_item_KeyError in E; injection E as ->; simpl; tauto ]
  | |- rbind (py_item ?d ?key) _ = _ -> _ =>
      let E := fresh "E" in
      destruct (py_item d key) eqn:E; cbn [rbind];
      [| intros [= ->]; apply py_item_KeyError in E; subst; simpl; tauto ]
  | |- rbind (py_get ?d ?key ?x) _ = _ -> _ =>
      let E := fresh "E" in
      destruct (py_get d key x) eqn:E; cbn [rbind];
      [| intros [= ->]; apply py_get_Raise in E; discriminate E ]
  | |- (let x := _ in _) = _ -> _ => cbv zeta
  end.
  discriminate.
Qed.

Lemma build_compute_config_no_network cfg :
  lookup "network" cfg = None ->
  exists k, build_compute_config cfg = Raise (KeyError k)
            /\ In k [ "cluster"; "authentication"; "network" ].
Proof.
  intros H. unfold build_compute_config, dict_item. rewrite H.
  destruct (lookup "cluster" cfg); cbn [rbind]; [|eexists; split; [reflexivity | simpl; tauto]].
  destruct (lookup "authentication" cfg); cbn [rbind];
    eexists; (split; [reflexivity | simpl; tauto]).
Qed.

Lemma build_compute_config_total cfg cluster auth network :
  lookup "cluster" cfg = Some (JDict cluster) ->
  lookup "authentication" cfg = Some (JDict auth) ->
  lookup "network" cfg = Some (JDict network) ->
  is_dict (py_or (dict_get cfg "registry" JNull) (JDict [])) = true ->
  lookup "token" auth <> None ->
  (forall k, In k [ "endpoint"; "kubernetesVersion"; "name"; "defaultNamespace"; "provider" ] ->
             lookup k cluster <> None) ->
  lookup "nodePools" cfg <> None ->
  exists compute_cfg, build_compute_config cfg = Ok compute_cfg.
Proof.
  intros Hc Ha Hn Hr Ht Hk Hp. unfold build_compute_config, dict_item.
  rewrite Hc, Ha, Hn. cbn [rbind].
  destruct (py_or (dict_get cfg "registry" JNull) (JDict [])); try discriminate Hr.
  cbn [rbind py_get py_item]. unfold dict_item.
  destruct (lookup "token" auth); [|now destruct Ht].
  destruct (lookup "endpoint" cluster) eqn:E1; [|exfalso; apply (Hk "endpoint"); simpl; tauto].
  destruct (lookup "kubernetesVersion" cluster) eqn:E2;
    [|exfalso; apply (Hk "kubernetesVersion"); simpl; tauto].
  destruct (lookup "name" cluster) eqn:E3; [|exfalso; apply (Hk "name"); simpl; tauto].
  destruct (lookup "nodePools" cfg); [|now destruct Hp].
  destruct (lookup "defaultNamespace" cluster) eqn:E4;
    [|exfalso; apply (Hk "defaultNamespace"); simpl; tauto].
  destruct (lookup "provider" cluster) eqn:E5; [|exfalso; apply (Hk "provider"); simpl; tauto].
  cbn [rbind]. eexists. reflexivity.
Qed.

Lemma py_item_Raise v k e :
  py_item v k = Raise e -> (e = KeyError k /\ is_dict v = true) \/ (e = TypeError /\ is_dict v = false).
Proof.
  destruct v; cbn; try (intros [= <-]; now right).
  intros H. apply dict_item_KeyError in H. now left.
Qed.

Lemma py_get_Raise_shape v k x e :
  py_get v k x = Raise e -> e = AttributeError /\ is_dict v = false.
Proof. destruct v; cbn; try discriminate; intros [= <-]; now split. Qed.

(** What the Transformer can raise, and for which document. *)
Lemma build_compute_config_raises cfg e :
  build_compute_config cfg = Raise e ->
  is_ValueError e = false
  /\ ((exists k, e = KeyError k /\ In k lookup_failure_keys)
      \/ (e = TypeError /\ misshaped cfg "cluster")
      \/ (e = AttributeError
          /\ ((is_dict (py_or (dict_get cfg "registry" JNull) (JDict [])) = false)
              \/ misshaped cfg "authentication" \/ misshaped cfg "network"))).
Proof.
  intros H.
  assert (Hc : (exists k, e = KeyError k /\ In k lookup_failure_keys)
      \/ (e = TypeError /\ misshaped cfg "cluster")
      \/ (e = AttributeError
          /\ ((is_dict (py_or (dict_get cfg "registry" JNull) (JDict [])) = false)
              \/ misshaped cfg "authentication" \/ misshaped cfg "network"))).
  { revert H. unfold build_compute_config, misshaped.
    destruct (dict_item cfg "cluster") as [cluster|e0] eqn:Ec; cbn [rbind];
      [|intros [= <-]; apply dict_item_KeyError in Ec as ->; left; eexists; split;
        [reflexivity | simpl; tauto]].
    apply dict_item_Ok in Ec.
    destruct (dict_item cfg "authentication") as [auth|e0] eqn:Ea; cbn [rbind];
      [|intros [= <-]; apply dict_item_KeyError in Ea as ->; left; eexists; split;
        [reflexivity | simpl; tauto]].
    apply dict_item_Ok in Ea. cbv zeta.
    destruct (dict_item cfg "network") as [network|e0] eqn:En; cbn [rbind];
      [|intros [= <-]; apply dict_item_KeyError in En as ->; left; eexists; split;
        [reflexivity | simpl; tauto]].
    apply dict_item_Ok in En.
    repeat match goal with
    | |- rbind (py_get ?v ?k ?x) _ = _ -> _ =>
        let E := fresh "E" in
        destruct (py_get v k x) eqn:E; cbn [rbind];
        [| intros [= <-]; apply py_get_Raise_shape in E as [-> E];
           first [ right; right; split; [reflexivity|]; solve [eauto 6]
                 | exfalso; match goal with
                            | A : py_item ?v _ = Ok _ |- _ =>
                                destruct v; try discriminate A; discriminate E
                            end ] ]
    | |- rbind (py_item ?v ?k) _ = _ -> _ =>
        let E := fresh "E" in
        destruct (py_item v k) eqn:E; cbn [rbind];
        [| intros [= <-]; apply py_item_Raise in E as [[-> E]|[-> E]];
           [ left; eexists; split; [reflexivity | simpl; tauto]
           | first [ right; left; split; [reflexivity|]; solve [eauto]
                   | exfalso; match goal with
                              | A : py_get ?v _ _ = Ok _ |- _ =>
                                  destruct v; try discriminate A; discriminate E
                              end ] ] ]
    | |- rbind (dict_item ?d ?k) _ = _ -> _ =>
        let E := fresh "E" in
        destruct (dict_item d k) eqn:E; cbn [rbind];
        [| intros [= <-]; apply dict_item_KeyError in E as ->; left; eexists; split;
           [reflexivity | simpl; tauto] ]
    end.
    discriminate. }
  split; [|exact Hc].
  destruct Hc as [(k & -> & _)|[[-> _]|[-> _]]]; reflexivity.
Qed.

Lemma dict_item_None d k : lookup k d = None -> dict_item d k = Raise (KeyError k).
Proof. unfold dict_item. now intros ->. Qed.

Lemma dict_item_Some d k v : lookup k d = Some v -> dict_item d k = Ok v.
Proof. unfold dict_item. now intros ->. Qed.

(** A document that lacks a key is not transformed. *)
Lemma lacks_not_built cfg k compute_cfg : lacks cfg k -> build_compute_config cfg <> Ok compute_cfg.
Proof.
  intros Hl Hb.
  apply build_compute_config_Ok in Hb
    as (cluster & auth & network & registry & token & endpoint & version & name & pools
        & namespace & provider & Hc & Ha & Hn & _ & Ht & He & Hv & Hname & Hp & Hns & Hpr & _).
  destruct Hl as [k Hk Hnone | auth' Ha' Hnone | cluster' k Hc' Hk Hnone].
  - simpl in Hk. destruct Hk as [<-|[<-|[<-|[<-|[]]]]]; congruence.
  - congruence.
  - rewrite Hc in Hc'. injection Hc' as <-.
    simpl in Hk. destruct Hk as [<-|[<-|[<-|[<-|[<-|[]]]]]]; congruence.
Qed.

(** A [KeyError] of the Transformer names a key the document lacks. *)
Lemma build_compute_config_KeyError_lacks cfg k :
  build_compute_config cfg = Raise (KeyError k) -> lacks cfg k.
Proof.
  unfold build_compute_config.
  destruct (lookup "cluster" cfg) as [cluster|] eqn:Hc;
    [rewrite (dict_item_Some _ _ _ Hc) | rewrite (dict_item_None _ _ Hc)]; cbn [rbind];
    [|intros [= <-]; apply lacks_top; [simpl; tauto | exact Hc]].
  destruct (lookup "authentication" cfg) as [auth|] eqn:Ha;
    [rewrite (dict_item_Some _ _ _ Ha) | rewrite (dict_item_None _ _ Ha)]; cbn [rbind];
    [|intros [= <-]; apply lacks_top; [simpl; tauto | exact Ha]].
  cbv zeta.
  destruct (lookup "network" cfg) as [network|] eqn:Hn;
    [rewrite (dict_item_Some _ _ _ Hn) | rewrite (dict_item_None _ _ Hn)]; cbn [rbind];
    [|intros [= <-]; apply lacks_top; [simpl; tauto | exact Hn]].
  destruct (py_or (dict_get cfg "registry" JNull) (JDict [])); cbn [py_get rbind];
    try discriminate.
  destruct auth as [| | | | |auth]; cbn [py_get py_item rbind]; try discriminate.
  destruct (lookup "token" auth) as [token|] eqn:Ht;
    [rewrite (dict_item_Some _ _ _ Ht) | rewrite (dict_item_None _ _ Ht)]; cbn [rbind];
    [|intros [= <-]; now apply (lacks_token cfg auth)].
  destruct cluster as [| | | | |cluster]; cbn [py_get py_item rbind]; try discriminate.
  destruct (lookup "endpoint" cluster) eqn:H1;
    [rewrite (dict_item_Some _ _ _ H1) | rewrite (dict_item_None _ _ H1)]; cbn [rbind];
    [|intros [= <-]; apply (lacks_cluster_field cfg cluster); [exact Hc | simpl; tauto | exact H1]].
  destruct (lookup "kubernetesVersion" cluster) eqn:H2;
    [rewrite (dict_item_Some _ _ _ H2) | rewrite (dict_item_None _ _ H2)]; cbn [rbind];
    [|intros [= <-]; apply (lacks_cluster_field cfg cluster); [exact Hc | simpl; tauto | exact H2]].
  destruct (lookup "name" cluster) eqn:H3;
    [rewrite (dict_item_Some _ _ _ H3) | rewrite (dict_item_None _ _ H3)]; cbn [rbind];
    [|intros [= <-]; apply (lacks_cluster_field cfg cluster); [exact Hc | simpl; tauto | exact H3]].
  destruct (lookup "nodePools" cfg) eqn:Hp;
    [rewrite (dict_item_Some _ _ _ Hp) | rewrite (dict_item_None _ _ Hp)]; cbn [rbind];
    [|intros [= <-]; apply lacks_top; [simpl; tauto | exact Hp]].
  destruct (lookup "defaultNamespace" cluster) eqn:H4;
    [rewrite (dict_item_Some _ _ _ H4) | rewrite (dict_item_None _ _ H4)]; cbn [rbind];
    [|intros [= <-]; apply (lacks_cluster_field cfg cluster); [exact Hc | simpl; tauto | exact H4]].
  cbv zeta.
  destruct network as [| | | | |network]; cbn [py_get py_item rbind]; try discriminate.
  destruct (lookup "provider" cluster) eqn:H5;
    [rewrite (dict_item_Some _ _ _ H5) | rewrite (dict_item_None _ _ H5)]; cbn [rbind];
    [|intros [= <-]; apply (lacks_cluster_field cfg cluster); [exact Hc | simpl; tauto | exact H5]].
  discriminate.
Qed.

Lemma lacks_lookup_failure_key cfg k : lacks cfg k -> In k lookup_failure_keys.
Proof.
  unfold lookup_failure_keys. intros [k' Hk _ | auth _ _ | cluster k' _ Hk _]; simpl in *; tauto.
Qed.

(** With the sections in shape the Transformer raises nothing but a
    [KeyError]. *)
Lemma build_compute_config_shaped cfg :
  sections_shaped cfg ->
  (exists compute_cfg, build_compute_config cfg = Ok compute_cfg)
  \/ (exists k, build_compute_config cfg = Raise (KeyError k)).
Proof.
  intros (Sc & Sa & Sn & Sr).
  destruct (build_compute_config cfg) as [compute_cfg|e] eqn:Hb; [left; eauto|].
  right. destruct (build_compute_config_raises cfg e Hb) as
    (_ & [(k & -> & _)|[[-> (v & Hv & Hd)]|[-> [Hd|[(v & Hv & Hd)|(v & Hv & Hd)]]]]]).
  - eauto.
  - destruct Sc as [Sc|[d Sc]]; rewrite Sc in Hv; [discriminate|]. injection Hv as <-. discriminate Hd.
  - congruence.
  - destruct Sa as [Sa|[d Sa]]; rewrite Sa in Hv; [discriminate|]. injection Hv as <-. discriminate Hd.
  - destruct Sn as [Sn|[d Sn]]; rewrite Sn in Hv; [discriminate|]. injection Hv as <-. discriminate Hd.
Qed.

(** With the sections in shape, a key the document lacks is a lookup
    failure: the Transformer raises the [KeyError] of a key it lacks, and
    of that key when it is the only one. *)
Lemma lacks_KeyError cfg k :
  sections_shaped cfg -> lacks cfg k ->
  (exists k', build_compute_config cfg = Raise (KeyError k') /\ lacks cfg k')
  /\ ((forall k', lacks cfg k' -> k' = k) -> build_compute_config cfg = Raise (KeyError k)).
Proof.
  intros Hs Hl.
  assert (H : exists k', build_compute_config cfg = Raise (KeyError k') /\ lacks cfg k').
  { destruct (build_compute_config_shaped cfg Hs) as [[compute_cfg Hb]|[k' Hb]].
    - destruct (lacks_not_built cfg k compute_cfg Hl Hb).
    - exists k'. split; [exact Hb | now apply build_compute_config_KeyError_lacks]. }
  split; [exact H|]. intros Honly. destruct H as (k' & Hb & Hl'). now rewrite <- (Honly k' Hl').
Qed.

(** C5, as the code has it.  The [network] section is looked up like
    [cluster] and [authentication]: without it the Transformer raises a
    [KeyError].  With an object for [network], the two fields are what the
    section gives, an empty list and [None] where it gives nothing; a
    document with the three sections, the required fields and a usable
    [registry] is transformed without an exception.  The keys whose
    absence is a lookup failure are the three sections and the seven
    required fields: a document that lacks one of them is never
    transformed; with the sections in shape the Transformer then raises
    the [KeyError] of a key the document lacks, of that very key when it
    is the only one; and a [KeyError] names no other key, and none the
    document has. *)
Theorem network_section_required cfg :
  (lookup "network" cfg = None ->
     exists k, build_compute_config cfg = Raise (KeyError k)
               /\ In k [ "cluster"; "authentication"; "network" ])
  /\ (forall network compute_cfg,
        lookup "network" cfg = Some (JDict network) ->
        build_compute_config cfg = Ok compute_cfg ->
        field (deployment_configuration compute_cfg) "environmentVariables"
        = dict_get network "environmentVariables" (JList [])
        /\ field (deployment_configuration compute_cfg) "internalRequestsUrl"
           = dict_get network "internalRequestsUrl" JNull
        /\ (lookup "environmentVariables" network = None ->
            field (deployment_configuration compute_cfg) "environmentVariables" = JList [])
        /\ (lookup "internalRequestsUrl" network = None ->
            field (deployment_configuration compute_cfg) "internalRequestsUrl" = JNull))
  /\ (forall cluster auth network,
        lookup "cluster" cfg = Some (JDict cluster) ->
        lookup "authentication" cfg = Some (JDict auth) ->
        lookup "network" cfg = Some (JDict network) ->
        is_dict (py_or (dict_get cfg "registry" JNull) (JDict [])) = true ->
        lookup "token" auth <> None ->
        (forall k, In k [ "endpoint"; "kubernetesVersion"; "name"; "defaultNamespace"; "provider" ] ->
                   lookup k cluster <> None) ->
        lookup "nodePools" cfg <> None ->
        exists compute_cfg, build_compute_config cfg = Ok compute_cfg)
  /\ (forall k, build_compute_config cfg = Raise (KeyError k) -> In k lookup_failure_keys)
  /\ (forall k, build_compute_config cfg = Raise (KeyError k) -> lacks cfg k)
  /\ (forall k compute_cfg, lacks cfg k -> build_compute_config cfg <> Ok compute_cfg)
  /\ (forall k, sections_shaped cfg -> lacks cfg k ->
        (exists k', build_compute_config cfg = Raise (KeyError k') /\ lacks cfg k')
        /\ ((forall k', lacks cfg k' -> k' = k) -> build_compute_config cfg = Raise (KeyError k))).
Proof.
  split; [apply build_compute_config_no_network|]. split; [|split; [|split; [|split; [|split]]]].
  - intros network compute_cfg Hn Hb.
    apply build_compute_config_Ok in Hb
      as (cluster & auth & network' & registry & token & endpoint & version & name & pools
          & namespace & provider & _ & _ & Hn' & _ & _ & _ & _ & _ & _ & _ & _ & ->).
    rewrite Hn in Hn'. injection Hn' as <-.
    assert (H1 : field (deployment_configuration
                   [ ("authentication", JDict [ ("ca", dict_get auth "ca" (JStr "")); ("token", token) ]);
                     ("config", JDict [
                        ("endpoint", endpoint);
                        ("kubernetesVersion", version);
                        ("name", name);
                        ("nodePools", pools);
                        ("metadata", py_or (dict_get cfg "metadata" JNull) (JDict []));
                        ("settings", JDict [ ("defaultNamespace", namespace) ]);
                        ("deploymentConfiguration", JDict [
                           ("volumes", dict_get cfg "volumes" (JList []));
                           ("serviceAccountName", dict_get cluster "serviceAccountName" (JStr "faas"));
                           ("securityContext", dict_get cfg "securityContext" (JDict []));
                           ("registry", JDict [
                              ("domain", dict_get registry "domain" (JStr "hub.dataloop.ai"));
                              ("faasFolder", dict_get registry "faasFolder" (JStr "customerhub"));
                              ("bootstrapFolder", dict_get registry "bootstrapFolder" (JStr "customerhub")) ]);
                           ("defaultResources", dict_get cfg "defaultResources" (JDict []));
                           ("internalRequestsUrl", dict_get network "internalRequestsUrl" JNull);
                           ("environmentVariables", dict_get network "environmentVariables" (JList [])) ]);
                        ("plugins", dict_get cfg "plugins" (JList []));
                        ("provider", provider) ]) ]) "environmentVariables"
                 = dict_get network "environmentVariables" (JList [])) by reflexivity.
    split; [exact H1|]. split; [reflexivity|]. split.
    + intros Hnone. rewrite H1. unfold dict_get. now rewrite Hnone.
    + intros Hnone. unfold dict_get at 1. cbn. unfold dict_get. now rewrite Hnone.
  - apply build_compute_config_total.
  - apply build_compute_config_KeyError.
  - apply build_compute_config_KeyError_lacks.
  - intros k compute_cfg. apply lacks_not_built.
  - intros k. apply lacks_KeyError.
Qed.

(** C5 as the specification words it fails: a document with everything
    but the [network] section is not transformed. *)
Lemma network_absent_counterexample :
  lookup "network" cfg_no_network = None
  /\ build_compute_config cfg_no_network = Raise (KeyError "network").
Proof. split; reflexivity. Qed.

Lemma network_section_required_witness :
  (exists k, build_compute_config cfg_no_network = Raise (KeyError k)
             /\ In k [ "cluster"; "authentication"; "network" ])
  /\ (exists compute_cfg,
       build_compute_config (("network", JDict []) :: cfg_no_network) = Ok compute_cfg
       /\ field (deployment_configuration compute_cfg) "environmentVariables" = JList []
       /\ field (deployment_configuration compute_cfg) "internalRequestsUrl" = JNull)
  /\ build_compute_config cfg_no_provider = Raise (KeyError "provider").
Proof.
  split; [|split].
  - apply (proj1 (network_section_required cfg_no_network)). reflexivity.
  - exists (built (("network", JDict []) :: cfg_no_network)).
    split; [reflexivity|]. split.
    + apply (proj1 (proj2 (network_section_required (("network", JDict []) :: cfg_no_network)))
               [] (built (("network", JDict []) :: cfg_no_network)) eq_refl eq_refl).
      reflexivity.
    + apply (proj1 (proj2 (network_section_required (("network", JDict []) :: cfg_no_network)))
               [] (built (("network", JDict []) :: cfg_no_network)) eq_refl eq_refl).
      reflexivity.
  - apply (proj2 (proj2 (proj2 (proj2 (proj2 (proj2 (network_section_required cfg_no_provider))))))
             "provider").
    + repeat split; try (right; eexists; reflexivity); reflexivity.
    + apply (lacks_cluster_field cfg_no_provider
               [ ("endpoint", JStr "https://host"); ("kubernetesVersion", JStr "1.29");
                 ("name", JStr "c1"); ("defaultNamespace", JStr "faas") ]);
        [reflexivity | simpl; tauto | reflexivity].
    + intros k' [k Hk Hn | auth Ha Hn | cluster k Hc Hk Hn].
      * simpl in Hk. destruct Hk as [<-|[<-|[<-|[<-|[]]]]]; discriminate Hn.
      * injection Ha as <-. discriminate Hn.
      * injection Hc as <-. simpl in Hk.
        destruct Hk as [<-|[<-|[<-|[<-|[<-|[]]]]]]; try discriminate Hn. reflexivity.
Defined.

(** Each of the ten keys in turn, taken out of a document that is in order. *)
Example each_key_required :
  map (fun k => build_compute_config (without k cfg_valid))
      [ "cluster"; "authentication"; "network"; "nodePools" ]
  = [ Raise (KeyError "cluster"); Raise (KeyError "authentication");
      Raise (KeyError "network"); Raise (KeyError "nodePools") ]
  /\ build_compute_config (without_field "authentication" "token" cfg_valid)
     = Raise (KeyError "token")
  /\ map (fun k => build_compute_config (without_field "cluster" k cfg_valid))
         [ "endpoint"; "kubernetesVersion"; "name"; "defaultNamespace"; "provider" ]
     = [ Raise (KeyError "endpoint"); Raise (KeyError "kubernetesVersion");
         Raise (KeyError "name"); Raise (KeyError "defaultNamespace");
         Raise (KeyError "provider") ].
Proof. repeat split. Qed.

(** ** The Encoder: the artifact decodes to the document *)

(** *** Bytes and small ranges *)

Lemma below_In n x : (x < N.of_nat n)%N -> In x (below n).
Proof.
  intros H. unfold below. apply in_map_iff. exists (N.to_nat x). split; [lia|].
  apply in_seq. lia.
Qed.

Lemma forall_below n (P : N -> bool) :
  forallb P (below n) = true -> forall x, (x < N.of_nat n)%N -> P x = true.
Proof. intros H x Hx. rewrite forallb_forall in H. apply H, below_In, Hx. Qed.

Lemma forall_below2 n m (P : N -> N -> bool) :
  forallb (fun x => forallb (P x) (below m)) (below n) = true ->
  forall x y, (x < N.of_nat n)%N -> (y < N.of_nat m)%N -> P x y = true.
Proof.
  intros H x y Hx Hy. apply (forall_below m (P x)); [|exact Hy].
  apply (forall_below n (fun x => forallb (P x) (below m))); assumption.
Qed.

Lemma byte_of_bound c : (byte_of c < 256)%N.
Proof. apply N_ascii_bounded. Qed.

Lemma chr_byte_of c : chr (byte_of c) = c.
Proof. apply ascii_N_embedding. Qed.

Lemma byte_of_chr n : (n < 256)%N -> byte_of (chr n) = n.
Proof. apply N_ascii_embedding. Qed.

(** *** Base64 *)

Lemma b64_char_index v :
  (v < 64)%N -> (b64_char v =? "=")%char = false /\ b64_index (b64_char v) = Some v.
Proof.
  intros H. assert (Hs : sextet_ok v = true).
  { apply (forall_below 64 sextet_ok); [vm_compute; reflexivity | exact H]. }
  unfold sextet_ok in Hs. apply andb_true_iff in Hs as [H1 H2].
  split; [now apply negb_true_iff|].
  destruct (b64_index (b64_char v)); [|discriminate]. apply N.eqb_eq in H2. now subst.
Qed.

Lemma sextets_facts x y :
  (x < 256)%N -> (y < 256)%N -> sextets_ok x y = true.
Proof.
  intros Hx Hy.
  apply (forall_below2 256 256 sextets_ok); [vm_compute; reflexivity | exact Hx | exact Hy].
Qed.

Lemma a2b_base64_first c v rest :
  (c =? "=")%char = false -> b64_index c = Some v ->
  a2b_base64 (String c rest) 0 0 0 = a2b_base64 rest 1 v 0.
Proof. intros H1 H2. cbn [a2b_base64]. now rewrite H1, H2. Qed.

Lemma a2b_base64_second c v rest l p :
  (c =? "=")%char = false -> b64_index c = Some v ->
  a2b_base64 (String c rest) 1 l p
  = emit (N.lor (N.shiftl l 2) (N.shiftr v 4)) (a2b_base64 rest 2 (N.land v 15) 0).
Proof. intros H1 H2. cbn [a2b_base64]. now rewrite H1, H2. Qed.

Lemma a2b_base64_third c v rest l p :
  (c =? "=")%char = false -> b64_index c = Some v ->
  a2b_base64 (String c rest) 2 l p
  = emit (N.lor (N.shiftl l 4) (N.shiftr v 2)) (a2b_base64 rest 3 (N.land v 3) 0).
Proof. intros H1 H2. cbn [a2b_base64]. now rewrite H1, H2. Qed.

Lemma a2b_base64_fourth c v rest l p :
  (c =? "=")%char = false -> b64_index c = Some v ->
  a2b_base64 (String c rest) 3 l p
  = emit (N.lor (N.shiftl l 6) v) (a2b_base64 rest 0 0 0).
Proof. intros H1 H2. cbn [a2b_base64]. now rewrite H1, H2. Qed.

Ltac sextet_facts x y :=
  let H := fresh "H" in
  pose proof (sextets_facts (byte_of x) (byte_of y) (byte_of_bound x) (byte_of_bound y)) as H;
  unfold sextets_ok in H;
  repeat (apply andb_true_iff in H as [H ?]);
  repeat match goal with
         | E : (_ <? _)%N = true |- _ => apply N.ltb_lt in E
         | E : (_ =? _)%N = true |- _ => apply N.eqb_eq in E
         end.

Lemma b64_three a b c rest :
  a2b_base64 (b64encode (String a (String b (String c rest)))) 0 0 0
  = emit (byte_of a) (emit (byte_of b) (emit (byte_of c) (a2b_base64 (b64encode rest) 0 0 0))).
Proof.
  cbn [b64encode]. cbv zeta.
  fold (sextet1 (byte_of a)) (sextet2 (byte_of a) (byte_of b))
       (sextet3 (byte_of b) (byte_of c)) (sextet4 (byte_of c)).
  sextet_facts a b. sextet_facts b c. sextet_facts c c.
  destruct (b64_char_index (sextet1 (byte_of a))) as [E1 I1]; [assumption|].
  destruct (b64_char_index (sextet2 (byte_of a) (byte_of b))) as [E2 I2]; [assumption|].
  destruct (b64_char_index (sextet3 (byte_of b) (byte_of c))) as [E3 I3]; [assumption|].
  destruct (b64_char_index (sextet4 (byte_of c))) as [E4 I4]; [assumption|].
  rewrite (a2b_base64_first _ _ _ E1 I1), (a2b_base64_second _ _ _ _ _ E2 I2),
    (a2b_base64_third _ _ _ _ _ E3 I3), (a2b_base64_fourth _ _ _ _ _ E4 I4).
  repeat match goal with E : _ = _ |- _ => rewrite E end.
  reflexivity.
Qed.

Lemma b64_one a :
  a2b_base64 (b64encode (String a "")) 0 0 0 = Some (String a "").
Proof.
  cbn [b64encode]. cbv zeta.
  rewrite <- (N.lor_0_r (N.shiftl (N.land (byte_of a) 3) 4)).
  change 0%N with (N.shiftr 0 4) at 1.
  fold (sextet1 (byte_of a)) (sextet2 (byte_of a) 0).
  pose proof (sextets_facts (byte_of a) 0 (byte_of_bound a) eq_refl) as H.
  unfold sextets_ok in H.
  repeat (apply andb_true_iff in H as [H ?]).
  repeat match goal with
         | E : (_ <? _)%N = true |- _ => apply N.ltb_lt in E
         | E : (_ =? _)%N = true |- _ => apply N.eqb_eq in E
         end.
  destruct (b64_char_index (sextet1 (byte_of a))) as [E1 I1]; [assumption|].
  destruct (b64_char_index (sextet2 (byte_of a) 0)) as [E2 I2]; [assumption|].
  rewrite (a2b_base64_first _ _ _ E1 I1), (a2b_base64_second _ _ _ _ _ E2 I2).
  match goal with E : N.lor (N.shiftl (sextet1 _) 2) _ = _ |- _ => rewrite E end.
  cbn. now rewrite chr_byte_of.
Qed.

Lemma b64_two a b :
  a2b_base64 (b64encode (String a (String b ""))) 0 0 0 = Some (String a (String b "")).
Proof.
  cbn [b64encode]. cbv zeta.
  rewrite <- (N.lor_0_r (N.shiftl (N.land (byte_of b) 15) 2)).
  change 0%N with (N.shiftr 0 6) at 1.
  fold (sextet1 (byte_of a)) (sextet2 (byte_of a) (byte_of b)) (sextet3 (byte_of b) 0).
  sextet_facts a b.
  pose proof (sextets_facts (byte_of b) 0 (byte_of_bound b) eq_refl) as H'.
  unfold sextets_ok in H'.
  repeat (apply andb_true_iff in H' as [H' ?]).
  repeat match goal with
         | E : (_ <? _)%N = true |- _ => apply N.ltb_lt in E
         | E : (_ =? _)%N = true |- _ => apply N.eqb_eq in E
         end.
  destruct (b64_char_index (sextet1 (byte_of a))) as [E1 I1]; [assumption|].
  destruct (b64_char_index (sextet2 (byte_of a) (byte_of b))) as [E2 I2]; [assumption|].
  destruct (b64_char_index (sextet3 (byte_of b) 0)) as [E3 I3]; [assumption|].
  rewrite (a2b_base64_first _ _ _ E1 I1), (a2b_base64_second _ _ _ _ _ E2 I2),
    (a2b_base64_third _ _ _ _ _ E3 I3).
  repeat match goal with E : _ = _ |- _ => rewrite E end.
  cbn. now rewrite !chr_byte_of.
Qed.

Lemma b64decode_b64encode_bounded n s :
  (length s <= n)%nat -> b64decode (b64encode s) = Some s.
Proof.
  unfold b64decode. revert s. induction n as [|n IH]; intros s Hn.
  - destruct s; [reflexivity | simpl in Hn; lia].
  - destruct s as [|a [|b [|c rest]]].
    + reflexivity.
    + apply b64_one.
    + apply b64_two.
    + rewrite b64_three, IH by (simpl in Hn; lia).
      cbn [emit]. now rewrite !chr_byte_of.
Qed.

(** Base64 decoding undoes the encoding, on every sequence of bytes. *)
Lemma b64decode_b64encode s : b64decode (b64encode s) = Some s.
Proof. apply (b64decode_b64encode_bounded (length s)). lia. Qed.

(** *** Strings: escapes and UTF-8 *)

Ltac lia_div := zify; Z.to_euclidean_division_equations; lia.

Lemma hex_value_hex_digit n : (n < 16)%N -> hex_value (hex_digit n) = Some n.
Proof.
  intros H.
  assert (E : match hex_value (hex_digit n) with Some m => (m =? n)%N | None => false end = true).
  { apply (forall_below 16
             (fun n => match hex_value (hex_digit n) with Some m => (m =? n)%N | None => false end));
      [vm_compute; reflexivity | exact H]. }
  destruct (hex_value (hex_digit n)); [|discriminate]. apply N.eqb_eq in E. now subst.
Qed.

Lemma decode_uXXXX_hex4 n :
  (n < 0x10000)%N ->
  decode_uXXXX (hex_digit (n / 4096)) (hex_digit ((n / 256) mod 16))
               (hex_digit ((n / 16) mod 16)) (hex_digit (n mod 16)) = Some n.
Proof.
  intros H. unfold decode_uXXXX.
  rewrite !hex_value_hex_digit by lia_div.
  f_equal. lia_div.
Qed.

Lemma chr_eqb_false n m :
  (n < 256)%N -> (m < 256)%N -> n <> m -> (chr n =? chr m)%char = false.
Proof.
  intros Hn Hm Hne. apply Ascii.eqb_neq. intros E. apply Hne.
  rewrite <- (byte_of_chr n Hn), <- (byte_of_chr m Hm). now rewrite E.
Qed.

Lemma prepend_Some s body rest : prepend s (Some (body, rest)) = Some (s ++ body, rest).
Proof. reflexivity. Qed.

Lemma scanstring_plain cp tail :
  (0x20 <= cp)%N -> (cp < 0x80)%N -> cp <> 0x22%N -> cp <> 0x5C%N ->
  scanstring (String (chr cp) tail) = prepend (utf8_encode cp) (scanstring tail).
Proof.
  intros H1 H2 H3 H4. cbn [scanstring].
  change DQUOTE with (chr 0x22). change BACKSLASH with (chr 0x5C).
  rewrite !chr_eqb_false by lia.
  rewrite byte_of_chr by lia.
  destruct (N.ltb_spec cp 0x20); [lia|].
  unfold utf8_encode. destruct (N.ltb_spec cp 0x80); [reflexivity | lia].
Qed.

Lemma scanstring_u cp tail :
  (cp < 0x10000)%N -> is_high_surrogate cp = false ->
  scanstring ("\u" ++ hex4 cp ++ tail) = prepend (utf8_encode cp) (scanstring tail).
Proof.
  intros H Hs. unfold hex4. cbn [append scanstring].
  change (("\"%char =? DQUOTE)%char) with false.
  change (("\"%char =? BACKSLASH)%char) with true.
  change (("u" =? "u")%char) with true. cbv iota.
  rewrite decode_uXXXX_hex4 by exact H. now rewrite Hs.
Qed.

Lemma lor_shiftl_low a b k : (b < 2 ^ k)%N -> N.lor (N.shiftl a k) b = (a * 2 ^ k + b)%N.
Proof.
  intros H. rewrite <- N.shiftl_mul_pow2.
  assert (E : N.land (N.shiftl a k) b = 0%N).
  { apply N.bits_inj. intros i. rewrite N.land_spec, N.bits_0.
    destruct (N.lt_ge_cases i k) as [Hi|Hi].
    - now rewrite N.shiftl_spec_low.
    - rewrite <- (N.mod_small b (2 ^ k)) by exact H.
      rewrite N.mod_pow2_bits_high by exact Hi. apply andb_false_r. }
  rewrite <- N.lxor_lor by exact E. symmetry. now apply N.add_nocarry_lxor.
Qed.

Lemma high_surrogate_of n :
  (n < 0x100000)%N ->
  N.lor 0xD800 (N.land (N.shiftr n 10) 0x3FF) = (0xD800 + n / 1024)%N.
Proof.
  intros H. change 0x3FF%N with (N.ones 10). rewrite N.land_ones, N.shiftr_div_pow2.
  change 0xD800%N with (N.shiftl 54 10) at 1. rewrite lor_shiftl_low.
  - change (2 ^ 10)%N with 1024%N. lia_div.
  - apply N.mod_lt. discriminate.
Qed.

Lemma low_surrogate_of n :
  N.lor 0xDC00 (N.land n 0x3FF) = (0xDC00 + n mod 1024)%N.
Proof.
  change 0x3FF%N with (N.ones 10). rewrite N.land_ones.
  change 0xDC00%N with (N.shiftl 55 10) at 1. rewrite lor_shiftl_low.
  - change (2 ^ 10)%N with 1024%N. lia.
  - apply N.mod_lt. discriminate.
Qed.

Lemma join_surrogates_of n :
  (n < 0x100000)%N ->
  join_surrogates (0xD800 + n / 1024) (0xDC00 + n mod 1024) = (0x10000 + n)%N.
Proof.
  intros H. unfold join_surrogates.
  replace (0xD800 + n / 1024 - 0xD800)%N with (n / 1024)%N by lia_div.
  replace (0xDC00 + n mod 1024 - 0xDC00)%N with (n mod 1024)%N by lia_div.
  rewrite lor_shiftl_low by (apply N.mod_lt; discriminate).
  change (2 ^ 10)%N with 1024%N. lia_div.
Qed.

Lemma scanstring_pair cp tail :
  (0x10000 <= cp)%N -> (cp < 0x110000)%N ->
  scanstring (escape_code_point cp ++ tail) = prepend (utf8_encode cp) (scanstring tail).
Proof.
  intros H1 H2. unfold escape_code_point.
  repeat match goal with
         | |- context [(cp =? ?k)%N] => destruct (N.eqb_spec cp k); [lia|]
         end.
  destruct (N.leb_spec 0x20 cp); [|lia]. destruct (N.leb_spec cp 0x7E); [lia|].
  destruct (N.ltb_spec cp 0x10000); [lia|]. cbn [andb]. cbv zeta.
  rewrite high_surrogate_of, low_surrogate_of by lia.
  set (off := (cp - 0x10000)%N).
  set (hi := (0xD800 + off / 1024)%N). set (lo := (0xDC00 + off mod 1024)%N).
  assert (Hn : (off < 0x100000)%N) by (subst off; lia).
  assert (Hhi : (hi < 0x10000)%N) by (subst hi; lia_div).
  assert (Hlo : (lo < 0x10000)%N) by (subst lo; lia_div).
  assert (Shi : is_high_surrogate hi = true).
  { unfold is_high_surrogate. apply andb_true_iff. split; apply N.leb_le; subst hi; lia_div. }
  assert (Slo : is_low_surrogate lo = true).
  { unfold is_low_surrogate. apply andb_true_iff. split; apply N.leb_le; subst lo; lia_div. }
  unfold hex4. cbn [append scanstring].
  change (("\"%char =? DQUOTE)%char) with false.
  change (("\"%char =? BACKSLASH)%char) with true.
  change (("u" =? "u")%char) with true. cbv iota. cbn [andb].
  rewrite !decode_uXXXX_hex4 by assumption. rewrite Shi, Slo.
  subst hi lo. rewrite join_surrogates_of by exact Hn.
  subst off. now replace (0x10000 + (cp - 0x10000))%N with cp by lia.
Qed.

Lemma scanstring_escape cp tail :
  valid_scalar cp = true ->
  scanstring (escape_code_point cp ++ tail) = prepend (utf8_encode cp) (scanstring tail).
Proof.
  intros Hv. unfold valid_scalar in Hv. apply andb_true_iff in Hv as [Hlt Hns].
  apply N.ltb_lt in Hlt. apply negb_true_iff in Hns.
  assert (Hsur : (cp < 0xD800 \/ 0xDFFF < cp)%N).
  { apply andb_false_iff in Hns as [Hns|Hns]; apply N.leb_gt in Hns; lia. }
  clear Hns.
  destruct (N.le_gt_cases 0x10000 cp) as [Hbig|Hsmall]; [now apply scanstring_pair|].
  unfold escape_code_point.
  repeat match goal with
         | |- context [(cp =? ?k)%N] => destruct (N.eqb_spec cp k); [subst cp; reflexivity|]
         end.
  destruct (N.leb_spec 0x20 cp); cbn [andb].
  - destruct (N.leb_spec cp 0x7E).
    + apply scanstring_plain; lia.
    + destruct (N.ltb_spec cp 0x10000); [|lia].
      apply scanstring_u; [assumption|].
      unfold is_high_surrogate.
      destruct (N.leb_spec 0xD800 cp); [|reflexivity].
      destruct (N.leb_spec cp 0xDBFF); [lia | reflexivity].
  - destruct (N.ltb_spec cp 0x10000); [|lia].
    apply scanstring_u; [assumption|].
    unfold is_high_surrogate. destruct (N.leb_spec 0xD800 cp); [lia | reflexivity].
Qed.

Lemma is_continuation_range c :
  is_continuation c = true -> (0x80 <= byte_of c < 0xC0)%N.
Proof.
  unfold is_continuation. intros H. apply andb_true_iff in H as [H1 H2].
  apply N.leb_le in H1. apply N.ltb_lt in H2. lia.
Qed.

Lemma utf8_encode_1 c0 :
  (byte_of c0 < 0x80)%N -> utf8_encode (byte_of c0) = String c0 "".
Proof.
  intros H. unfold utf8_encode. destruct (N.ltb_spec (byte_of c0) 0x80); [|lia].
  now rewrite chr_byte_of.
Qed.

Lemma utf8_encode_2 c0 c1 :
  (0xC2 <= byte_of c0 < 0xE0)%N -> is_continuation c1 = true ->
  utf8_encode (decode2 c0 c1) = String c0 (String c1 "")
  /\ valid_scalar (decode2 c0 c1) = true.
Proof.
  intros H0 H1. apply is_continuation_range in H1.
  unfold utf8_encode, valid_scalar, decode2.
  set (cp := ((byte_of c0 - 0xC0) * 64 + (byte_of c1 - 0x80))%N).
  assert (Hcp : (0x80 <= cp < 0x800)%N) by (subst cp; lia).
  destruct (N.ltb_spec cp 0x80); [lia|]. destruct (N.ltb_spec cp 0x800); [|lia].
  replace (0xC0 + cp / 64)%N with (byte_of c0) by (subst cp; lia_div).
  replace (0x80 + cp mod 64)%N with (byte_of c1) by (subst cp; lia_div).
  rewrite !chr_byte_of. split; [reflexivity|].
  destruct (N.ltb_spec cp 0x110000); [|lia]. destruct (N.leb_spec 0xD800 cp); [lia | reflexivity].
Qed.

Lemma utf8_encode_3 c0 c1 c2 :
  (0xE0 <= byte_of c0 < 0xF0)%N -> is_continuation c1 = true -> is_continuation c2 = true ->
  (0x800 <= decode3 c0 c1 c2)%N ->
  utf8_encode (decode3 c0 c1 c2) = String c0 (String c1 (String c2 "")).
Proof.
  intros H0 H1 H2. apply is_continuation_range in H1. apply is_continuation_range in H2.
  unfold utf8_encode, decode3.
  set (cp := ((byte_of c0 - 0xE0) * 4096 + (byte_of c1 - 0x80) * 64 + (byte_of c2 - 0x80))%N).
  intros Hlow.
  assert (Hcp : (cp < 0x10000)%N) by (subst cp; lia).
  destruct (N.ltb_spec cp 0x80); [lia|]. destruct (N.ltb_spec cp 0x800); [lia|].
  destruct (N.ltb_spec cp 0x10000); [|lia].
  replace (0xE0 + cp / 4096)%N with (byte_of c0) by (subst cp; lia_div).
  replace (0x80 + (cp / 64) mod 64)%N with (byte_of c1) by (subst cp; lia_div).
  replace (0x80 + cp mod 64)%N with (byte_of c2) by (subst cp; lia_div).
  now rewrite !chr_byte_of.
Qed.

Lemma utf8_encode_4 c0 c1 c2 c3 :
  (0xF0 <= byte_of c0 < 0xF5)%N ->
  is_continuation c1 = true -> is_continuation c2 = true -> is_continuation c3 = true ->
  (0x10000 <= decode4 c0 c1 c2 c3)%N ->
  utf8_encode (decode4 c0 c1 c2 c3) = String c0 (String c1 (String c2 (String c3 ""))).
Proof.
  intros H0 H1 H2 H3.
  apply is_continuation_range in H1. apply is_continuation_range in H2.
  apply is_continuation_range in H3.
  unfold utf8_encode, decode4.
  set (cp := ((byte_of c0 - 0xF0) * 262144 + (byte_of c1 - 0x80) * 4096
              + (byte_of c2 - 0x80) * 64 + (byte_of c3 - 0x80))%N).
  intros Hlow.
  destruct (N.ltb_spec cp 0x80); [lia|]. destruct (N.ltb_spec cp 0x800); [lia|].
  destruct (N.ltb_spec cp 0x10000); [lia|].
  replace (0xF0 + cp / 262144)%N with (byte_of c0) by (subst cp; lia_div).
  replace (0x80 + (cp / 4096) mod 64)%N with (byte_of c1) by (subst cp; lia_div).
  replace (0x80 + (cp / 64) mod 64)%N with (byte_of c2) by (subst cp; lia_div).
  replace (0x80 + cp mod 64)%N with (byte_of c3) by (subst cp; lia_div).
  now rewrite !chr_byte_of.
Qed.

Lemma concat_empty_cons x xs : concat "" (x :: xs) = x ++ concat "" xs.
Proof. destruct xs; [|reflexivity]. cbn. now rewrite append_nil_r. Qed.

Lemma scanstring_step cp group r rest :
  valid_scalar cp = true -> utf8_encode cp = group ->
  scanstring (escaped r ++ String DQUOTE rest) = Some (r, rest) ->
  scanstring (concat "" (escape_code_point cp :: map escape_code_point (code_points r))
              ++ String DQUOTE rest) = Some (group ++ r, rest).
Proof.
  intros Hv He IH. rewrite concat_empty_cons, append_assoc.
  rewrite scanstring_escape by exact Hv. fold (escaped r). now rewrite IH, He.
Qed.

Lemma scanstring_escaped_bounded n s rest :
  (length s <= n)%nat -> utf8_valid s = true ->
  scanstring (escaped s ++ String DQUOTE rest) = Some (s, rest).
Proof.
  revert s. induction n as [|n IH]; intros s Hn Hv.
  { destruct s; [reflexivity | simpl in Hn; lia]. }
  destruct s as [|c0 r0]; [reflexivity|].
  unfold escaped. cbn [utf8_valid code_points] in *.
  destruct (N.ltb_spec (byte_of c0) 0x80) as [L1|L1].
  { destruct (N.ltb_spec (byte_of c0) 0xC0); [|lia]. cbn [map].
    apply (scanstring_step _ (String c0 "")).
    - unfold valid_scalar. destruct (N.ltb_spec (byte_of c0) 0x110000); [|lia].
      destruct (N.leb_spec 0xD800 (byte_of c0)); [lia | reflexivity].
    - now apply utf8_encode_1.
    - apply IH; [simpl in Hn; lia | exact Hv]. }
  destruct (N.ltb_spec (byte_of c0) 0xC2) as [L2|L2]; [discriminate|].
  destruct (N.ltb_spec (byte_of c0) 0xC0); [lia|].
  destruct (N.ltb_spec (byte_of c0) 0xE0) as [L3|L3].
  { destruct r0 as [|c1 r1]; [discriminate|].
    apply andb_true_iff in Hv as [C1 Hv]. cbn [map].
    destruct (utf8_encode_2 c0 c1) as [He Hs]; [lia | exact C1 |].
    apply (scanstring_step _ (String c0 (String c1 ""))); [exact Hs | exact He |].
    apply IH; [simpl in Hn; lia | exact Hv]. }
  destruct (N.ltb_spec (byte_of c0) 0xF0) as [L4|L4].
  { destruct r0 as [|c1 [|c2 r2]]; try discriminate.
    do 4 (apply andb_true_iff in Hv as [Hv ?]).
    match goal with E : (0x800 <=? _)%N = true |- _ => apply N.leb_le in E end.
    cbn [map].
    apply (scanstring_step _ (String c0 (String c1 (String c2 "")))).
    - unfold valid_scalar.
      match goal with E : negb _ = true |- _ => rewrite E end.
      rewrite andb_true_r. apply N.ltb_lt.
      pose proof (byte_of_bound c1). pose proof (byte_of_bound c2).
      unfold decode3. lia.
    - apply utf8_encode_3; assumption || lia.
    - apply IH; [simpl in Hn; lia | assumption]. }
  destruct (N.ltb_spec (byte_of c0) 0xF5) as [L5|L5]; [|discriminate].
  destruct r0 as [|c1 [|c2 [|c3 r3]]]; try discriminate.
  do 5 (apply andb_true_iff in Hv as [Hv ?]).
  repeat match goal with E : (_ <=? _)%N = true |- _ => apply N.leb_le in E end.
  cbn [map].
  apply (scanstring_step _ (String c0 (String c1 (String c2 (String c3 ""))))).
  - unfold valid_scalar.
    destruct (N.ltb_spec (decode4 c0 c1 c2 c3) 0x110000); [|lia].
    destruct (N.leb_spec 0xD800 (decode4 c0 c1 c2 c3)); [|reflexivity].
    destruct (N.leb_spec (decode4 c0 c1 c2 c3) 0xDFFF); [lia | reflexivity].
  - apply utf8_encode_4; assumption || lia.
  - apply IH; [simpl in Hn; lia | assumption].
Qed.

(** [scanstring] reads back what [encode_basestring_ascii] wrote. *)
Lemma scanstring_escaped s rest :
  utf8_valid s = true -> scanstring (escaped s ++ String DQUOTE rest) = Some (s, rest).
Proof. apply (scanstring_escaped_bounded (length s)). lia. Qed.

Lemma encode_basestring_ascii_eq s rest :
  encode_basestring_ascii s ++ rest = String DQUOTE (escaped s ++ String DQUOTE rest).
Proof.
  unfold encode_basestring_ascii. fold (escaped s). cbn [append]. f_equal.
  now rewrite append_assoc.
Qed.

(** *** Integers *)

Lemma delimited_no_digit rest :
  delimited rest = true ->
  match rest with String c _ => digit_of c = None | EmptyString => True end.
Proof.
  destruct rest as [|c r]; [trivial|]. cbn. intros H.
  apply orb_true_iff in H as [H|H]; apply Ascii.eqb_eq in H; subst c; reflexivity.
Qed.

Lemma delimited_no_float rest : delimited rest = true -> float_follows rest = false.
Proof.
  destruct rest as [|c [|d r]]; try reflexivity. cbn [delimited]. intros H.
  apply orb_true_iff in H as [H|H]; apply Ascii.eqb_eq in H; subst c; reflexivity.
Qed.

Lemma digits_string_of_uint u rest :
  match rest with String c _ => digit_of c = None | EmptyString => True end ->
  digits (NilEmpty.string_of_uint u ++ rest) = (u, rest).
Proof.
  intros H. induction u; cbn [NilEmpty.string_of_uint append digits];
    try (change (digit_of _) with (Some D0) || change (digit_of _) with (Some D1)
         || change (digit_of _) with (Some D2) || change (digit_of _) with (Some D3)
         || change (digit_of _) with (Some D4) || change (digit_of _) with (Some D5)
         || change (digit_of _) with (Some D6) || change (digit_of _) with (Some D7)
         || change (digit_of _) with (Some D8) || change (digit_of _) with (Some D9));
    try (rewrite IHu; reflexivity).
  destruct rest as [|c r]; [reflexivity|]. cbn [digits]. now rewrite H.
Qed.

Lemma unorm_to_uint p : unorm (Pos.to_uint p) = Pos.to_uint p.
Proof.
  rewrite <- (DecimalPos.Unsigned.to_of (Pos.to_uint p)), DecimalPos.Unsigned.of_to. reflexivity.
Qed.

Lemma to_uint_head p : forall u, Pos.to_uint p <> D0 u.
Proof.
  intros u E. pose proof (unorm_to_uint p) as Hn. rewrite E, DecimalFacts.unorm_D0 in Hn.
  destruct u as [|u|u|u|u|u|u|u|u|u|u];
    try (match type of Hn with
         | unorm ?x = _ =>
             let Hu := fresh "Hu" in
             assert (Hu : x <> Nil) by discriminate;
             apply DecimalFacts.nb_digits_unorm in Hu; rewrite Hn in Hu; cbn in Hu; lia
         end).
  apply (DecimalPos.Unsigned.to_uint_nonzero p). exact E.
Qed.

Lemma match_digits_to_uint p rest :
  delimited rest = true ->
  match_digits (NilZero.string_of_uint (Pos.to_uint p) ++ rest) = Some (Pos.to_uint p, rest)
  /\ exists c t, NilZero.string_of_uint (Pos.to_uint p) ++ rest = String c t
                 /\ is_digit c = true.
Proof.
  intros H. pose proof (to_uint_head p) as Hh. pose proof (DecimalPos.Unsigned.to_uint_nonnil p) as Hnil.
  pose proof (digits_string_of_uint (Pos.to_uint p) rest (delimited_no_digit rest H)) as Hd.
  destruct (Pos.to_uint p) as [|u|u|u|u|u|u|u|u|u|u];
    [ now destruct Hnil | now destruct (Hh u) | .. ];
    (split; [ cbn [NilZero.string_of_uint] in *; cbn [NilEmpty.string_of_uint append] in *;
              unfold match_digits; cbv beta iota;
              match goal with |- context [(?c =? "0")%char] =>
                change ((c =? "0")%char) with false; change (is_digit c) with true
              end; cbv iota; now rewrite Hd
            | eexists; eexists; split; [reflexivity | reflexivity] ]).
Qed.

Lemma scan_number_string_of_Z z rest :
  delimited rest = true -> scan_number (string_of_Z z ++ rest) = Some (JInt z, rest).
Proof.
  intros H. pose proof (delimited_no_float rest H) as Hf.
  unfold string_of_Z. rewrite <- (DecimalZ.of_to z) at 2.
  destruct z as [|p|p]; cbn [Z.to_int NilZero.string_of_int].
  - cbn. now rewrite Hf.
  - destruct (match_digits_to_uint p rest H) as [Hm (c & t & Ht & Hc)].
    unfold scan_number. rewrite Ht in *.
    assert (Hminus : (c =? "-")%char = false).
    { destruct (Ascii.eqb_spec c "-"); [subst c; discriminate | reflexivity]. }
    rewrite Hminus, Hm, Hf. reflexivity.
  - destruct (match_digits_to_uint p rest H) as [Hm _].
    unfold scan_number. cbn [append].
    change (("-" =? "-")%char) with true. cbv iota. now rewrite Hm, Hf.
Qed.

Lemma string_of_Z_head z :
  exists c t, string_of_Z z = String c t /\ (is_digit c = true \/ c = "-"%char).
Proof.
  unfold string_of_Z. destruct z as [|p|p]; cbn [Z.to_int NilZero.string_of_int].
  - exists "0"%char, "". split; [reflexivity | now left].
  - destruct (match_digits_to_uint p "" eq_refl) as [_ (c & t & Ht & Hc)].
    rewrite append_nil_r in Ht. eauto.
  - eexists; eexists. split; [reflexivity | now right].
Qed.

(** *** Documents *)

(** Induction on a document that reaches the items of its lists and the
    values of its objects. *)
Section json_induction.
Variable P : json -> Prop.
Hypothesis HNull : P JNull.
Hypothesis HBool : forall b, P (JBool b).
Hypothesis HInt : forall z, P (JInt z).
Hypothesis HStr : forall s, P (JStr s).
Hypothesis HList : forall l, Forall P l -> P (JList l).
Hypothesis HDict : forall d, Forall (fun kv => P (snd kv)) d -> P (JDict d).

Fixpoint json_nested_ind (v : json) : P v :=
  match v with
  | JNull => HNull
  | JBool b => HBool b
  | JInt z => HInt z
  | JStr s => HStr s
  | JList l =>
      HList l ((fix items (l : list json) : Forall P l :=
                  match l with
                  | [] => Forall_nil P
                  | x :: xs => Forall_cons x (json_nested_ind x) (items xs)
                  end) l)
  | JDict d =>
      HDict d ((fix fields (d : list (string * json)) : Forall (fun kv => P (snd kv)) d :=
                  match d with
                  | [] => Forall_nil _
                  | kv :: rest =>
                      Forall_cons (P := fun kv => P (snd kv)) kv
                        (json_nested_ind (snd kv)) (fields rest)
                  end) d)
  end.
End json_induction.

Lemma length_append a b : length (a ++ b) = (length a + length b)%nat.
Proof. induction a as [|c a IH]; [reflexivity|]. cbn. now rewrite IH. Qed.

Lemma skip_ws_indent_of level t : skip_ws (indent_of level ++ t) = skip_ws t.
Proof. induction level as [|n IH]; [reflexivity|]. cbn. exact IH. Qed.

Lemma skip_ws_newline_indent level t : skip_ws (newline_indent level ++ t) = skip_ws t.
Proof. unfold newline_indent. rewrite append_assoc. cbn. apply skip_ws_indent_of. Qed.

Lemma newline_indent_head level t : exists r, newline_indent level ++ t = String LF r.
Proof. unfold newline_indent, nl. cbn. eauto. Qed.

Lemma newline_indent_length level : (1 <= length (newline_indent level))%nat.
Proof. unfold newline_indent, nl. cbn. lia. Qed.

Lemma starts_value_app s t : starts_value s = true -> starts_value (s ++ t) = true.
Proof. destruct s; [discriminate | exact (fun H => H)]. Qed.

Lemma starts_value_skip_ws s : starts_value s = true -> skip_ws s = s.
Proof.
  destruct s as [|c r]; [discriminate|]. cbn. intros H.
  apply andb_true_iff in H as [H _]. apply andb_true_iff in H as [H _].
  apply negb_true_iff in H. now rewrite H.
Qed.

Lemma is_digit_starts c t : is_digit c = true -> starts_value (String c t) = true.
Proof.
  unfold is_digit, digit_of. intros H.
  repeat match type of H with
         | context [(c =? ?k)%char] => destruct (Ascii.eqb_spec c k); [subst c; reflexivity|]
         end.
  discriminate.
Qed.

Lemma json_encode_starts level v : starts_value (json_encode level v) = true.
Proof.
  destruct v as [|[]|z|s|[|x l]|[|kv d]]; try reflexivity.
  cbn [json_encode]. destruct (string_of_Z_head z) as (c & t & -> & [Hc| ->]).
  - now apply is_digit_starts.
  - reflexivity.
Qed.

(** *** [dict(pairs)] keeps pairs with distinct keys as they are *)

Lemma dict_set_fresh d k v :
  existsb (String.eqb k) (map fst d) = false -> dict_set d k v = (d ++ [ (k, v) ])%list.
Proof.
  induction d as [|[k' v'] d IH]; [reflexivity|]. cbn. intros H.
  apply orb_false_iff in H as [H1 H2]. rewrite String.eqb_sym in H1.
  rewrite H1. now rewrite IH.
Qed.

Lemma keys_distinct_app_one acc k rest :
  keys_distinct (acc ++ k :: rest)%list = true ->
  existsb (String.eqb k) acc = false /\ keys_distinct ((acc ++ [k]) ++ rest)%list = true.
Proof.
  intros H. split.
  - induction acc as [|a acc IH]; [reflexivity|]. cbn in *.
    apply andb_true_iff in H as [H1 H2]. rewrite (IH H2).
    apply negb_true_iff in H1. rewrite List.existsb_app in H1.
    apply orb_false_iff in H1 as [_ H1]. cbn in H1. apply orb_false_iff in H1 as [H1 _].
    rewrite String.eqb_sym. now rewrite H1.
  - now rewrite <- List.app_assoc.
Qed.

Lemma fold_dict_set pairs : forall acc,
  keys_distinct (map fst (acc ++ pairs)%list) = true ->
  fold_left (fun d kv => dict_set d (fst kv) (snd kv)) pairs acc = (acc ++ pairs)%list.
Proof.
  induction pairs as [|[k v] pairs IH]; intros acc H.
  - now rewrite List.app_nil_r.
  - cbn [fold_left fst snd]. rewrite List.map_app in H. cbn [map fst] in H.
    apply keys_distinct_app_one in H as [H1 H2].
    rewrite dict_set_fresh by exact H1.
    rewrite IH.
    + now rewrite <- List.app_assoc.
    + rewrite !List.map_app. exact H2.
Qed.

Lemma dict_of_pairs_distinct d :
  keys_distinct (map fst d) = true -> dict_of_pairs d = d.
Proof. intros H. unfold dict_of_pairs. now rewrite fold_dict_set. Qed.

Lemma scan_elements_eq f s :
  scan_elements (S f) s
  = match scan_once f s with
    | Some (value, rest) =>
        match skip_ws rest with
        | String c r =>
            if (c =? "]")%char then Some ([ value ], r)
            else if (c =? ",")%char then
              match scan_elements f (skip_ws r) with
              | Some (values, rest') => Some (value :: values, rest')
              | None => None
              end
            else None
        | EmptyString => None
        end
    | None => None
    end.
Proof. reflexivity. Qed.

Lemma delimited_newline_indent level t : delimited (newline_indent level ++ t) = true.
Proof. reflexivity. Qed.

Lemma concat_cons2 sep x y l : concat sep (x :: y :: l) = x ++ sep ++ concat sep (y :: l).
Proof. reflexivity. Qed.

Lemma concat_length_head sep x l : (length x <= length (concat sep (x :: l)))%nat.
Proof.
  destruct l; [cbn; lia|]. rewrite concat_cons2, length_append. lia.
Qed.

Lemma scan_elements_encoded level rest l :
  Forall round_trips l -> l <> [] -> forallb well_formed l = true ->
  forall fuel,
    (length (concat (item_separator level) (map (json_encode (S level)) l)) + 2 <= fuel)%nat ->
    scan_elements fuel (concat (item_separator level) (map (json_encode (S level)) l)
                        ++ newline_indent level ++ "]" ++ rest) = Some (l, rest).
Proof.
  induction 1 as [|x xs Hx HF IH]; intros Hne Hwf fuel Hfuel; [now destruct Hne|].
  cbn [forallb] in Hwf. apply andb_true_iff in Hwf as [Hwx Hwxs].
  destruct fuel as [|f]; [lia|]. rewrite scan_elements_eq.
  destruct xs as [|y ys].
  - cbn [map concat] in *.
    rewrite Hx by (trivial || lia).
    rewrite skip_ws_newline_indent. reflexivity.
  - cbn [map] in *. rewrite concat_cons2 in *. rewrite !length_append in Hfuel.
    set (C := concat (item_separator level)
                (json_encode (S level) y :: map (json_encode (S level)) ys)) in *.
    rewrite !append_assoc. unfold item_separator at 1. rewrite append_assoc.
    change ("," ++ ?t) with (String "," t).
    rewrite Hx by (trivial || lia).
    change (skip_ws (String "," ?t)) with (String "," t). cbv beta iota.
    change (("," =? "]")%char) with false. change (("," =? ",")%char) with true. cbv iota.
    rewrite skip_ws_newline_indent, starts_value_skip_ws.
    + rewrite IH; [reflexivity | discriminate | exact Hwxs |].
      unfold item_separator in Hfuel. rewrite length_append in Hfuel.
      pose proof (newline_indent_length (S level)). cbn [length] in Hfuel. lia.
    + apply starts_value_app. subst C. destruct ys; cbn [map]; [apply json_encode_starts|].
      rewrite concat_cons2. apply starts_value_app, json_encode_starts.
Qed.

Lemma scan_members_eq f r0 :
  scan_members (S f) (String DQUOTE r0)
  = match scanstring r0 with
    | Some (key, rest) =>
        match skip_ws rest with
        | String c r =>
            if (c =? ":")%char then
              match scan_once f (skip_ws r) with
              | Some (value, rest1) =>
                  match skip_ws rest1 with
                  | String c2 r2 =>
                      if (c2 =? "}")%char then Some ([ (key, value) ], r2)
                      else if (c2 =? ",")%char then
                        match scan_members f (skip_ws r2) with
                        | Some (pairs, rest') => Some ((key, value) :: pairs, rest')
                        | None => None
                        end
                      else None
                  | EmptyString => None
                  end
              | None => None
              end
            else None
        | EmptyString => None
        end
    | None => None
    end.
Proof. reflexivity. Qed.

Lemma encode_member_eq level k x t :
  encode_member level (k, x) ++ t
  = String DQUOTE (escaped k ++ String DQUOTE (String ":" (String " " (json_encode (S level) x ++ t)))).
Proof.
  unfold encode_member. rewrite append_assoc, encode_basestring_ascii_eq.
  now rewrite append_assoc.
Qed.

Lemma encode_member_length level k x :
  (length (json_encode (S level) x) < length (encode_member level (k, x)))%nat.
Proof.
  unfold encode_member, encode_basestring_ascii. rewrite !length_append. cbn. lia.
Qed.

Lemma encode_member_starts level kv : starts_value (encode_member level kv) = true.
Proof. destruct kv. reflexivity. Qed.

Lemma scan_members_encoded level rest d :
  Forall (fun kv => round_trips (snd kv)) d -> d <> [] ->
  forallb (fun kv : string * json => let '(k, x) := kv in utf8_valid k && well_formed x) d = true ->
  forall fuel,
    (length (concat (item_separator level) (map (encode_member level) d)) + 2 <= fuel)%nat ->
    scan_members fuel (concat (item_separator level) (map (encode_member level) d)
                       ++ newline_indent level ++ "}" ++ rest) = Some (d, rest).
Proof.
  induction 1 as [|[k x] xs Hx HF IH]; intros Hne Hwf fuel Hfuel; [now destruct Hne|].
  cbn [forallb] in Hwf. apply andb_true_iff in Hwf as [Hwx Hwxs].
  apply andb_true_iff in Hwx as [Hk Hwx]. cbn [snd] in Hx.
  destruct fuel as [|f]; [lia|].
  pose proof (encode_member_length level k x) as Hlen.
  destruct xs as [|y ys].
  - cbn [map concat] in *.
    rewrite encode_member_eq, scan_members_eq, scanstring_escaped by exact Hk.
    change (skip_ws (String ":" ?t)) with (String ":" t). cbv beta iota.
    change ((":" =? ":")%char) with true. cbv iota.
    change (skip_ws (String " " ?t)) with (skip_ws t).
    rewrite starts_value_skip_ws by apply starts_value_app, json_encode_starts.
    rewrite Hx by (trivial || lia).
    rewrite skip_ws_newline_indent. reflexivity.
  - cbn [map] in *. rewrite concat_cons2 in *. rewrite !length_append in Hfuel.
    set (C := concat (item_separator level)
                (encode_member level y :: map (encode_member level) ys)) in *.
    rewrite !append_assoc. unfold item_separator at 1. rewrite append_assoc.
    change ("," ++ ?t) with (String "," t).
    rewrite encode_member_eq, scan_members_eq, scanstring_escaped by exact Hk.
    change (skip_ws (String ":" ?t)) with (String ":" t). cbv beta iota.
    change ((":" =? ":")%char) with true. cbv iota.
    change (skip_ws (String " " ?t)) with (skip_ws t).
    rewrite starts_value_skip_ws by apply starts_value_app, json_encode_starts.
    rewrite Hx by (trivial || lia).
    change (skip_ws (String "," ?t)) with (String "," t). cbv beta iota.
    change (("," =? "}")%char) with false. change (("," =? ",")%char) with true. cbv iota.
    rewrite skip_ws_newline_indent, starts_value_skip_ws.
    + rewrite IH; [reflexivity | discriminate | exact Hwxs |].
      unfold item_separator in Hfuel. rewrite length_append in Hfuel.
      pose proof (newline_indent_length (S level)). cbn [length] in Hfuel. lia.
    + apply starts_value_app. subst C. destruct ys; cbn [map]; [apply encode_member_starts|].
      rewrite concat_cons2. apply starts_value_app, encode_member_starts.
Qed.

Lemma substring_all s : substring 0 (length s) s = s.
Proof. induction s as [|c s IH]; [reflexivity|]. cbn. now rewrite IH. Qed.

Lemma expect_app p rest : expect p (p ++ rest) = Some rest.
Proof.
  unfold expect.
  assert (Hp : prefix p (p ++ rest) = true).
  { induction p as [|c p IH]; [now destruct rest|]. cbn.
    destruct (ascii_dec c c); [exact IH | contradiction]. }
  rewrite Hp, length_append. replace (length p + length rest - length p)%nat
    with (length rest) by lia.
  f_equal. induction p as [|c p IH]; [apply substring_all|].
  cbn. apply IH. clear IH.
  cbn in Hp. destruct (ascii_dec c c); [exact Hp | contradiction].
Qed.

Lemma scan_once_number f c t :
  is_digit c = true \/ c = "-"%char ->
  scan_once (S f) (String c t) = scan_number (String c t).
Proof.
  intros [H| ->]; [|reflexivity].
  unfold is_digit, digit_of in H.
  repeat match type of H with
         | context [(c =? ?k)%char] => destruct (Ascii.eqb_spec c k); [subst c; reflexivity|]
         end.
  discriminate.
Qed.

Lemma json_encode_list level x xs :
  json_encode level (JList (x :: xs))
  = String "[" (newline_indent (S level)
      ++ concat (item_separator level) (map (json_encode (S level)) (x :: xs))
      ++ newline_indent level ++ "]").
Proof. reflexivity. Qed.

Lemma json_encode_dict level kv d :
  json_encode level (JDict (kv :: d))
  = String "{" (newline_indent (S level)
      ++ concat (item_separator level) (map (encode_member level) (kv :: d))
      ++ newline_indent level ++ "}").
Proof. reflexivity. Qed.

Lemma scan_once_list f r :
  scan_once (S f) (String "[" r)
  = match skip_ws r with
    | String c1 r1 =>
        if (c1 =? "]")%char then Some (JList [], r1)
        else
          match scan_elements f (skip_ws r) with
          | Some (values, rest) => Some (JList values, rest)
          | None => None
          end
    | EmptyString => None
    end.
Proof. reflexivity. Qed.

Lemma scan_once_dict f r :
  scan_once (S f) (String "{" r)
  = match skip_ws r with
    | String c1 r1 =>
        if (c1 =? "}")%char then Some (JDict [], r1)
        else
          match scan_members f (skip_ws r) with
          | Some (pairs, rest) => Some (JDict (dict_of_pairs pairs), rest)
          | None => None
          end
    | EmptyString => None
    end.
Proof. reflexivity. Qed.

Lemma starts_value_not_closing s :
  starts_value s = true ->
  exists c r, s = String c r /\ (c =? "]")%char = false /\ (c =? "}")%char = false.
Proof.
  destruct s as [|c r]; [discriminate|]. cbn. intros H.
  apply andb_true_iff in H as [H H2]. apply andb_true_iff in H as [_ H1].
  apply negb_true_iff in H1, H2. eauto.
Qed.

Lemma scan_once_json_encode v : round_trips v.
Proof.
  induction v as [|b|z|s|l IH|d IH] using json_nested_ind;
    intros level rest fuel Hwf Hdel Hfuel;
    (destruct fuel as [|f]; [lia|]).
  - exact (f_equal (fun o => match o with Some r => Some (JNull, r) | None => None end)
             (expect_app "null" rest)).
  - destruct b.
    + exact (f_equal (fun o => match o with Some r => Some (JBool true, r) | None => None end)
               (expect_app "true" rest)).
    + exact (f_equal (fun o => match o with Some r => Some (JBool false, r) | None => None end)
               (expect_app "false" rest)).
  - cbn [json_encode]. destruct (string_of_Z_head z) as (c & t & Hz & Hc).
    rewrite <- (scan_number_string_of_Z z rest Hdel). rewrite Hz. cbn [append].
    now apply scan_once_number.
  - cbn [json_encode well_formed] in *. rewrite encode_basestring_ascii_eq.
    change (scan_once (S f) (String DQUOTE ?r))
      with (match scanstring r with Some (str, rest) => Some (JStr str, rest) | None => None end).
    now rewrite scanstring_escaped.
  - destruct l as [|x xs]; [reflexivity|].
    rewrite json_encode_list in *. cbn [length] in Hfuel. rewrite !length_append in Hfuel.
    cbn [append]. rewrite scan_once_list, !append_assoc, skip_ws_newline_indent.
    set (C := concat (item_separator level) (map (json_encode (S level)) (x :: xs))) in *.
    assert (HC : starts_value (C ++ newline_indent level ++ "]" ++ rest) = true).
    { apply starts_value_app. subst C. cbn [map]. destruct xs; cbn [map].
      - apply json_encode_starts.
      - rewrite concat_cons2. apply starts_value_app, json_encode_starts. }
    rewrite starts_value_skip_ws by exact HC.
    destruct (starts_value_not_closing _ HC) as (c & r & E & E1 & _).
    rewrite E, E1, <- E. subst C.
    pose proof (newline_indent_length (S level)). pose proof (newline_indent_length level).
    rewrite scan_elements_encoded; [reflexivity | exact IH | discriminate | exact Hwf | lia].
  - destruct d as [|kv d']; [reflexivity|].
    rewrite json_encode_dict in *. cbn [length] in Hfuel. rewrite !length_append in Hfuel.
    cbn [append]. rewrite scan_once_dict, !append_assoc, skip_ws_newline_indent.
    set (C := concat (item_separator level) (map (encode_member level) (kv :: d'))) in *.
    assert (HC : starts_value (C ++ newline_indent level ++ "}" ++ rest) = true).
    { apply starts_value_app. subst C. cbn [map]. destruct d'; cbn [map].
      - apply encode_member_starts.
      - rewrite concat_cons2. apply starts_value_app, encode_member_starts. }
    rewrite starts_value_skip_ws by exact HC.
    destruct (starts_value_not_closing _ HC) as (c & r & E & _ & E1).
    rewrite E, E1, <- E. subst C.
    cbn [well_formed] in Hwf. apply andb_true_iff in Hwf as [Hkeys Hwf].
    pose proof (newline_indent_length (S level)). pose proof (newline_indent_length level).
    rewrite scan_members_encoded; [| exact IH | discriminate | exact Hwf | lia].
    now rewrite dict_of_pairs_distinct.
Qed.

(** [json.loads] undoes [json.dumps(_, indent=2)]. *)
Lemma json_loads_json_dumps v : well_formed v = true -> json_loads (json_dumps v) = Some v.
Proof.
  intros Hwf. unfold json_loads, json_dumps.
  rewrite starts_value_skip_ws by apply json_encode_starts.
  rewrite <- (append_nil_r (json_encode 0 v)) at 2.
  rewrite scan_once_json_encode; [reflexivity | exact Hwf | reflexivity | lia].
Qed.

Lemma decode_config_encoded v :
  well_formed v = true -> decode_config (b64encode (json_dumps v)) = Some v.
Proof.
  intros Hwf. unfold decode_config.
  now rewrite b64decode_b64encode, json_loads_json_dumps.
Qed.

(** *** The Transformer keeps documents well formed *)

Lemma well_formed_fields d :
  well_formed (JDict d) = true ->
  forallb (fun kv : string * json => let '(k, x) := kv in utf8_valid k && well_formed x) d = true.
Proof. cbn [well_formed]. intros H. now apply andb_true_iff in H as [_ H]. Qed.

Lemma well_formed_lookup d k v :
  well_formed (JDict d) = true -> lookup k d = Some v -> well_formed v = true.
Proof.
  intros H. apply well_formed_fields in H. induction d as [|[k' x] d IH]; [discriminate|].
  cbn [forallb] in H. apply andb_true_iff in H as [Hx Hd].
  apply andb_true_iff in Hx as [_ Hx]. cbn [lookup].
  destruct (k' =? k); [intros [= <-]; exact Hx | now apply IH].
Qed.

Lemma well_formed_dict_get d k default :
  well_formed (JDict d) = true -> well_formed default = true ->
  well_formed (dict_get d k default) = true.
Proof.
  intros Hd Hdef. unfold dict_get. destruct (lookup k d) eqn:E; [|exact Hdef].
  now apply (well_formed_lookup d k).
Qed.

Lemma well_formed_py_or a b :
  well_formed a = true -> well_formed b = true -> well_formed (py_or a b) = true.
Proof. intros Ha Hb. unfold py_or. now destruct (py_truthy a). Qed.

Lemma build_compute_config_well_formed cfg compute_cfg :
  well_formed (JDict cfg) = true -> build_compute_config cfg = Ok compute_cfg ->
  well_formed (JDict compute_cfg) = true.
Proof.
  intros Hwf Hb.
  apply build_compute_config_Ok in Hb
    as (cluster & auth & network & registry & token & endpoint & version & name & pools
        & namespace & provider & Hc & Ha & Hn & Hr & Ht & He & Hv & Hname & Hp & Hns & Hpr & ->).
  pose proof (well_formed_lookup _ _ _ Hwf Hc) as Wc.
  pose proof (well_formed_lookup _ _ _ Hwf Ha) as Wa.
  pose proof (well_formed_lookup _ _ _ Hwf Hn) as Wn.
  assert (Wr : well_formed (JDict registry) = true).
  { rewrite <- Hr. apply well_formed_py_or; [now apply well_formed_dict_get | reflexivity]. }
  pose proof (well_formed_lookup _ _ _ Wa Ht). pose proof (well_formed_lookup _ _ _ Wc He).
  pose proof (well_formed_lookup _ _ _ Wc Hv). pose proof (well_formed_lookup _ _ _ Wc Hname).
  pose proof (well_formed_lookup _ _ _ Hwf Hp). pose proof (well_formed_lookup _ _ _ Wc Hns).
  pose proof (well_formed_lookup _ _ _ Wc Hpr).
  cbn [well_formed map fst keys_distinct forallb].
  repeat match goal with
         | |- context [well_formed (dict_get ?d ?k ?x)] =>
             rewrite (well_formed_dict_get d k x) by (assumption || reflexivity)
         | |- context [well_formed (py_or ?a ?b)] =>
             rewrite (well_formed_py_or a b)
               by (reflexivity || (apply well_formed_dict_get; [assumption | reflexivity]))
         | H : well_formed ?v = true |- context [well_formed ?v] => rewrite H
         end.
  reflexivity.
Qed.

(** X21.  The text the Encoder returns and writes decodes to the document
    it was given, for a ComputeConfig without floating-point numbers: when
    its numbers are integers, its strings are Unicode text and its objects
    have each key once, base64-decoding the result of
    [encode_config_to_base64] and parsing it gives that ComputeConfig back;
    the file of the artifact holds the same text. *)
Theorem encoder_round_trip compute_cfg output_file w :
  well_formed (JDict compute_cfg) = true ->
  exists text w',
    encode_config_to_base64 compute_cfg output_file w = (w', Ok text)
    /\ decode_config text = Some (JDict compute_cfg)
    /\ read_file output_file (files w') = Some text
    /\ stdout w' = stdout w.
Proof.
  intros Hwf. eexists; eexists. split; [reflexivity|]. split; [|split].
  - now apply decode_config_encoded.
  - cbn [files read_file]. now rewrite String.eqb_refl.
  - reflexivity.
Qed.

(** Every ComputeConfig the Transformer makes of a well-formed document is
    read back from its artifact. *)
Corollary transformed_round_trip cfg compute_cfg :
  well_formed (JDict cfg) = true -> build_compute_config cfg = Ok compute_cfg ->
  decode_config (b64encode (json_dumps (JDict compute_cfg))) = Some (JDict compute_cfg).
Proof.
  intros Hwf Hb. apply decode_config_encoded.
  now apply (build_compute_config_well_formed cfg).
Qed.

Lemma encoder_round_trip_witness :
  exists text w',
    encode_config_to_base64 (built cfg_unicode) "base64_config.txt" w0 = (w', Ok text)
    /\ decode_config text = Some (JDict (built cfg_unicode))
    /\ read_file "base64_config.txt" (files w') = Some text
    /\ stdout w' = stdout w0.
Proof. apply (encoder_round_trip (built cfg_unicode) "base64_config.txt" w0). reflexivity. Defined.

Example unicode_artifact_decodes :
  decode_config (b64encode (json_dumps (JDict (built cfg_unicode))))
  = Some (JDict (built cfg_unicode)).
Proof. vm_compute. reflexivity. Qed.

(** * Further properties of the code *)

(** ** What the validator accepts, block by block *)

Lemma missing_values_nil token endpoint org_id :
  missing_values token endpoint org_id = [] <->
  py_truthy token = true /\ py_truthy endpoint = true
  /\ py_truthy org_id = true /\ py_in_strs org_id placeholder_org_ids = false.
Proof.
  unfold missing_values.
  destruct (py_truthy token), (py_truthy endpoint), (py_truthy org_id),
    (py_in_strs org_id placeholder_org_ids); cbn; intuition discriminate.
Qed.

Lemma org_id_usable_read cfg :
  org_id_usable cfg <->
  exists org_id,
    py_get (dict_get cfg "organization" (JDict [])) "orgId" (JStr "") = Ok org_id
    /\ py_truthy org_id = true /\ py_in_strs org_id placeholder_org_ids = false.
Proof.
  unfold org_id_usable, dict_get. split.
  - intros (org & v & Ho & Hv & Ht & Hp). exists v. rewrite Ho. cbn [py_get].
    unfold dict_get. now rewrite Hv.
  - intros (org_id & Hr & Ht & Hp).
    destruct (lookup "organization" cfg) as [o|] eqn:Ho.
    + destruct o as [| | | | |org]; try discriminate Hr. cbn [py_get] in Hr.
      unfold dict_get in Hr. destruct (lookup "orgId" org) as [v|] eqn:Hv.
      * injection Hr as ->. now exists org, org_id.
      * injection Hr as <-. discriminate Ht.
    + cbn in Hr. injection Hr as <-. discriminate Ht.
Qed.

Lemma check_required_values_pass cfg auth conf :
  check_required_values cfg (JDict auth) (JDict conf) = Ok tt <->
  py_truthy (dict_get auth "token" JNull) = true
  /\ py_truthy (dict_get conf "endpoint" JNull) = true
  /\ org_id_usable cfg.
Proof.
  rewrite org_id_usable_read. split.
  - intros H.
    destruct (py_get (dict_get cfg "organization" (JDict [])) "orgId" (JStr "")) as [org_id|e] eqn:Hr.
    + rewrite (check_required_values_dicts cfg auth conf org_id Hr) in H. cbv zeta in H.
      destruct (missing_values _ _ org_id) eqn:Hm; [|discriminate].
      apply missing_values_nil in Hm as (H1 & H2 & H3 & H4). eauto 6.
    + unfold check_required_values in H. rewrite Hr in H. discriminate.
  - intros (H1 & H2 & org_id & Hr & H3 & H4).
    rewrite (check_required_values_dicts cfg auth conf org_id Hr). cbv zeta.
    assert (Hm : missing_values (dict_get auth "token" JNull) (dict_get conf "endpoint" JNull) org_id = [])
      by now apply missing_values_nil.
    now rewrite Hm.
Qed.

Lemma check_endpoint_format_pass conf v :
  lookup "endpoint" conf = Some v ->
  check_endpoint_format (JDict conf) = Ok tt <-> endpoint_usable v.
Proof.
  intros Hl. unfold endpoint_usable. split.
  - intros H. destruct v as [| | |e| |];
      try (unfold check_endpoint_format in H; cbn [py_item] in H; unfold dict_item in H;
           rewrite Hl in H; discriminate H).
    rewrite (check_endpoint_format_str conf e Hl) in H.
    exists e. split; [reflexivity|].
    destruct (prefix "http://" e || prefix "https://" e); [reflexivity | discriminate].
  - intros (e & -> & He). rewrite (check_endpoint_format_str conf e Hl). now rewrite He.
Qed.

Lemma check_metadata_other cfg v :
  lookup "metadata" cfg = Some v -> is_none v = false -> is_dict v = false ->
  check_metadata cfg = Raise (ValueError metadata_shape_message).
Proof.
  intros H Hn Hd. unfold check_metadata, dict_has, dict_get. rewrite H, Hn, Hd. reflexivity.
Qed.

Lemma check_metadata_pass cfg : check_metadata cfg = Ok tt <-> metadata_usable cfg.
Proof.
  split.
  - intros H. destruct (lookup "metadata" cfg) as [v|] eqn:Hl; [|now apply metadata_missing].
    destruct v as [| | | | |md];
      try (rewrite (check_metadata_other cfg _ Hl eq_refl eq_refl) in H; discriminate H).
    + now apply metadata_null.
    + rewrite (check_metadata_dict cfg md Hl) in H. cbv zeta in H.
      destruct (dict_get md "serveAgentServiceType" JNull) as [| | | | |] eqn:Hv;
        try (now apply (metadata_without_type cfg md));
        cbn [is_none negb] in H; unfold py_not_in_str_set in H; cbn [py_hashable rbind] in H;
        try discriminate H.
      destruct (py_in_strs (JStr s) allowed_service_types) eqn:Hin; [|discriminate H].
      apply py_in_strs_In in Hin as (s' & [= <-] & Hs).
      apply (metadata_with_type cfg md s); [exact Hl | | exact Hs].
      unfold dict_get in Hv. destruct (lookup "serveAgentServiceType" md); congruence.
  - intros [H | H | md H Hv | md s H Hv Hs].
    + now apply check_metadata_absent.
    + unfold check_metadata, dict_has, dict_get. rewrite H. reflexivity.
    + rewrite (check_metadata_dict cfg md H). cbv zeta. now rewrite Hv.
    + rewrite (check_metadata_dict cfg md H). cbv zeta. unfold dict_get. rewrite Hv.
      cbn [is_none negb]. unfold py_not_in_str_set. cbn [py_hashable rbind].
      assert (Hin : py_in_strs (JStr s) allowed_service_types = true)
        by (apply py_in_strs_In; eauto).
      now rewrite Hin.
Qed.

Lemma missing_plugins_nil names :
  missing_plugins names = [] <-> forall m, In m mandatory_plugins -> In (JStr m) names.
Proof.
  split.
  - intros H m Hm. apply covers_In. destruct (covers names m) eqn:E; [reflexivity|].
    assert (Hin : In m (missing_plugins names)) by (apply missing_plugins_In; now split).
    rewrite H in Hin. destruct Hin.
  - intros H. destruct (missing_plugins names) as [|m l] eqn:E; [reflexivity|].
    assert (Hin : In m (missing_plugins names)) by (rewrite E; now left).
    apply missing_plugins_In in Hin as [Hm Hc]. apply H, covers_In in Hm. congruence.
Qed.

Lemma check_mandatory_plugins_pass cfg :
  check_mandatory_plugins cfg = Ok tt <-> plugins_usable cfg.
Proof.
  unfold plugins_usable. split.
  - intros H. unfold check_mandatory_plugins in H.
    destruct (py_iter (dict_get cfg "plugins" (JList []))) as [items|] eqn:Hi; [|discriminate H].
    cbn [rbind] in H.
    destruct (plugin_name_set items) as [names|] eqn:Hn; [|discriminate H].
    cbn [rbind] in H. fold (missing_plugins names) in H.
    destruct (missing_plugins names) eqn:Hm; [|discriminate H].
    destruct (plugin_name_set_Ok items names Hn) as [Hh Hnames].
    assert (Hcov : forall m, In m mandatory_plugins ->
                     exists p, In (JDict p) items /\ lookup "name" p = Some (JStr m)).
    { intros m Hmand. apply (proj1 (missing_plugins_nil names) Hm), Hnames in Hmand
        as (p & Hp & Hname). exists p. split; [exact Hp | now apply name_lookup]. }
    destruct (Hcov "monitoring") as (p0 & Hp0 & _); [now left|].
    unfold dict_get in Hi. destruct (lookup "plugins" cfg) as [v|] eqn:Hl.
    + destruct v as [| | |s|l|d]; try discriminate Hi; cbn [py_iter] in Hi; injection Hi as <-.
      * apply in_map_iff in Hp0 as (c & Hc & _). discriminate Hc.
      * exists l. auto.
      * apply in_map_iff in Hp0 as (kv & Hc & _). discriminate Hc.
    + injection Hi as <-. destruct Hp0.
  - intros (ps & Hl & Hh & Hcov).
    destruct (plugin_name_set_hashable ps Hh) as [names Hn].
    rewrite (check_mandatory_plugins_run cfg ps names); [| unfold dict_get; now rewrite Hl | exact Hn].
    assert (Hm : missing_plugins names = []).
    { apply missing_plugins_nil. intros m Hmand.
      destruct (Hcov m Hmand) as (p & Hp & Hname).
      apply (proj2 (plugin_name_set_Ok ps names Hn)). exists p. split; [exact Hp|].
      now apply name_lookup. }
    now rewrite Hm.
Qed.

Lemma invalid_dl_types_by_pool_nil pools : forall idx,
  invalid_dl_types_by_pool idx pools = [] <->
  forall p, In (JDict p) pools ->
    exists ts, dict_get p "dlTypes" (JList []) = JList ts /\ forall t, In t ts -> in_catalog t.
Proof.
  induction pools as [|q pools IH]; intros idx; cbn [invalid_dl_types_by_pool].
  - split; [intros _ p [] | reflexivity].
  - split.
    + intros H. apply app_eq_nil in H as [Hq Hrest]. intros p [->|Hp].
      * unfold pool_violations in Hq. cbv zeta in Hq.
        destruct (dict_get p "dlTypes" (JList [])) as [| | | |ts|]; try discriminate Hq.
        exists ts. split; [reflexivity|]. intros t Ht. apply invalid_dl_type_false.
        destruct (invalid_dl_type t) eqn:E; [|reflexivity].
        assert (Hin : In t (filter invalid_dl_type ts)) by (apply filter_In; now split).
        destruct (filter invalid_dl_type ts); [destruct Hin | discriminate Hq].
      * now apply (proj1 (IH (S idx)) Hrest).
    + intros H.
      assert (Hrest : invalid_dl_types_by_pool (S idx) pools = []).
      { apply IH. intros p Hp. apply H. now right. }
      rewrite Hrest, app_nil_r. destruct q as [| | | | |p]; try reflexivity.
      destruct (H p (or_introl eq_refl)) as (ts & Hd & Hall).
      now apply (pool_violations_valid idx p ts).
Qed.

Lemma check_node_pool_dl_types_pass cfg :
  check_node_pool_dl_types cfg = Ok tt <-> node_pools_usable cfg.
Proof.
  unfold node_pools_usable. split.
  - intros H. destruct (py_iter (dict_get cfg "nodePools" (JList []))) as [items|] eqn:Hi.
    + exists items. split; [reflexivity|].
      rewrite (check_node_pool_dl_types_run cfg items Hi) in H.
      destruct (invalid_dl_types_by_pool 0 items) eqn:E; [|discriminate H].
      now apply (invalid_dl_types_by_pool_nil items 0).
    + unfold check_node_pool_dl_types in H. rewrite Hi in H. discriminate H.
  - intros (items & Hi & Hall). rewrite (check_node_pool_dl_types_run cfg items Hi).
    apply (invalid_dl_types_by_pool_nil items 0) in Hall. now rewrite Hall.
Qed.

(** The blocks together. *)
Lemma validate_config_accepts cfg compute_cfg w :
  build_compute_config cfg = Ok compute_cfg ->
  snd (validate_config cfg compute_cfg w) = Ok tt <-> config_acceptable cfg.
Proof.
  intros Hb. destruct (built_auth_conf _ _ Hb) as (auth & conf & Ha & Hc & Ht & He & Hl).
  unfold config_acceptable. rewrite <- Ht.
  rewrite <- (check_endpoint_format_pass conf _ Hl), <- check_metadata_pass,
    <- check_mandatory_plugins_pass, <- check_node_pool_dl_types_pass.
  split.
  - intros H. apply validate_config_Ok in H as (H1 & H2 & H3 & H4 & H5).
    rewrite Ha, Hc in H1. rewrite Hc in H2.
    apply check_required_values_pass in H1 as (T1 & _ & T3). auto 7.
  - intros (T1 & H2 & T3 & H3 & H4 & H5).
    assert (H1 : check_required_values cfg (JDict auth) (JDict conf) = Ok tt).
    { apply check_required_values_pass. split; [exact T1|]. split; [|exact T3].
      rewrite He.
      destruct (proj1 (check_endpoint_format_pass conf _ Hl) H2) as (e & -> & Hp).
      destruct e; [discriminate Hp | reflexivity]. }
    rewrite validate_config_run, Ha, Hc, H1, H2.
    pose proof (warn_optional_fields_built cfg compute_cfg w Hb) as Hw.
    rewrite Ha, Hc in Hw.
    destruct (warn_optional_fields (JDict auth) (JDict conf) w) as [w' [[]|e]];
      [|discriminate Hw].
    cbn [snd]. unfold later_blocks. now rewrite H3, H4, H5.
Qed.

(** X1.  On a document the Transformer accepts, the validator returns
    normally exactly when: the token is truthy; the endpoint is a [str]
    that begins with [http://] or [https://]; [organization.orgId] is
    there, truthy and no placeholder; [metadata] is absent, [null] or an
    object whose [serveAgentServiceType] is absent, [null] or allowed;
    [plugins] is a list whose objects have scalar names, among them both
    mandatory ones; and every object among the items of [nodePools] has a
    list of catalog values for [dlTypes]. *)
Theorem validator_accepts_iff cfg compute_cfg w :
  build_compute_config cfg = Ok compute_cfg ->
  snd (validate_config cfg compute_cfg w) = Ok tt <-> config_acceptable cfg.
Proof. apply validate_config_accepts. Qed.

(** ** More on the validator *)

Lemma later_blocks_metadata cfg e : check_metadata cfg = Raise e -> later_blocks cfg = Raise e.
Proof. intros H. unfold later_blocks. now rewrite H. Qed.

(** X2.  A [metadata] that is there and is neither [null] nor an object
    makes the metadata block raise its [ValueError]; the validator never
    accepts the document and raises that error once the first two blocks
    pass.  This holds for a falsy value too, such as an empty list, which
    the Transformer takes for an absent [metadata]. *)
Theorem metadata_shape_enforced cfg v :
  lookup "metadata" cfg = Some v -> is_none v = false -> is_dict v = false ->
  check_metadata cfg = Raise (ValueError metadata_shape_message)
  /\ (forall compute_cfg w, snd (validate_config cfg compute_cfg w) <> Ok tt)
  /\ (forall compute_cfg w,
        build_compute_config cfg = Ok compute_cfg ->
        reaches_metadata cfg compute_cfg ->
        snd (validate_config cfg compute_cfg w) = Raise (ValueError metadata_shape_message))
  /\ (forall compute_cfg,
        py_truthy v = false -> build_compute_config cfg = Ok compute_cfg ->
        field (conf_of compute_cfg) "metadata" = JDict []).
Proof.
  intros Hl Hn Hd. pose proof (check_metadata_other cfg v Hl Hn Hd) as Hm.
  split; [exact Hm|].
  destruct (later_block_raises cfg _ (later_blocks_metadata cfg _ Hm)) as [H1 H2].
  split; [exact H1|]. split; [exact H2|].
  intros compute_cfg Hf Hb.
  apply build_compute_config_Ok in Hb
    as (cluster & auth & network & registry & token & endpoint & version & name & pools
        & namespace & provider & _ & _ & _ & _ & _ & _ & _ & _ & _ & _ & _ & ->).
  cbn. unfold py_or, dict_get. rewrite Hl, Hf. reflexivity.
Qed.

Lemma warn_optional_fields_out auth conf w :
  files (fst (warn_optional_fields auth conf w)) = files w
  /\ exists ca vol : bool,
       stdout (fst (warn_optional_fields auth conf w))
       = (stdout w ++ (if ca then [ ca_warning ] else [])
                   ++ (if vol then [ volumes_warning ] else []))%list.
Proof.
  unfold warn_optional_fields, bind, lift.
  destruct (py_get auth "ca" JNull) as [ca|e];
    [|split; [reflexivity | exists false, false; cbn; now rewrite app_nil_r]].
  destruct (negb (py_truthy ca)); cbn;
    (destruct (py_get conf "deploymentConfiguration" (JDict [])) as [dc|e]; cbn;
     [ destruct (py_get dc "volumes" JNull) as [volumes|e]; cbn;
       [ destruct (negb (py_truthy volumes)); cbn |] |]);
    (split; [reflexivity|]).
  all: try (exists true, true; cbn; now rewrite <- app_assoc).
  all: try (exists true, false; cbn; reflexivity).
  all: try (exists false, true; cbn; reflexivity).
  all: exists false, false; cbn; now rewrite app_nil_r.
Qed.

(** X3.  Whatever the document, the validator writes no file, and what it
    prints is the CA warning or not, then the volumes warning or not:
    nothing else, nothing twice.  When one of the first two blocks raises it
    prints nothing at all. *)
Theorem validator_effects cfg compute_cfg w :
  files (fst (validate_config cfg compute_cfg w)) = files w
  /\ (exists ca vol : bool,
        stdout (fst (validate_config cfg compute_cfg w))
        = (stdout w ++ (if ca then [ ca_warning ] else [])
                    ++ (if vol then [ volumes_warning ] else []))%list)
  /\ (check_required_values cfg (auth_of compute_cfg) (conf_of compute_cfg) <> Ok tt
      \/ check_endpoint_format (conf_of compute_cfg) <> Ok tt ->
      fst (validate_config cfg compute_cfg w) = w).
Proof.
  rewrite validate_config_run.
  pose proof (warn_optional_fields_out (auth_of compute_cfg) (conf_of compute_cfg) w) as [Hf Ho].
  assert (Hnone : exists ca vol : bool,
             stdout w = (stdout w ++ (if ca then [ ca_warning ] else [])
                                  ++ (if vol then [ volumes_warning ] else []))%list)
    by (exists false, false; cbn; now rewrite app_nil_r).
  destruct (check_required_values _ _ _) as [[]|e1];
    [|split; [reflexivity|]; split; [exact Hnone | reflexivity]].
  destruct (check_endpoint_format _) as [[]|e2];
    [|split; [reflexivity|]; split; [exact Hnone | reflexivity]].
  destruct (warn_optional_fields _ _ w) as [w' [[]|e]]; cbn [fst] in *;
    (split; [exact Hf|]; split; [exact Ho|]; intros [H|H]; now destruct H).
Qed.

(** X4.  On a document the Transformer accepts, once the first two blocks
    pass, the validator prints the CA warning exactly when
    [authentication.ca] is absent or falsy, then the volumes warning exactly
    when [volumes] is absent or falsy. *)
Theorem warnings_printed cfg compute_cfg w :
  build_compute_config cfg = Ok compute_cfg ->
  reaches_metadata cfg compute_cfg ->
  stdout (fst (validate_config cfg compute_cfg w))
  = (stdout w
     ++ (if py_truthy (field (dict_get cfg "authentication" JNull) "ca")
         then [] else [ ca_warning ])
     ++ (if py_truthy (dict_get cfg "volumes" JNull) then [] else [ volumes_warning ]))%list.
Proof.
  intros Hb [H1 H2]. rewrite validate_config_run, H1, H2.
  apply build_compute_config_Ok in Hb
    as (cluster & auth & network & registry & token & endpoint & version & name & pools
        & namespace & provider & _ & Ha & _ & _ & _ & _ & _ & _ & _ & _ & _ & ->).
  unfold warn_optional_fields, bind, lift, auth_of, conf_of. cbn.
  assert (Eca : py_truthy (dict_get auth "ca" (JStr ""))
                = py_truthy (field (dict_get cfg "authentication" JNull) "ca")).
  { unfold field, dict_get. rewrite Ha. now destruct (lookup "ca" auth). }
  assert (Evol : py_truthy (dict_get cfg "volumes" (JList []))
                 = py_truthy (dict_get cfg "volumes" JNull)).
  { unfold dict_get. now destruct (lookup "volumes" cfg). }
  rewrite <- Eca, <- Evol.
  destruct (py_truthy (dict_get auth "ca" (JStr ""))); cbn;
    destruct (py_truthy (dict_get cfg "volumes" (JList []))); cbn;
    rewrite ?app_nil_r, <- ?app_assoc; reflexivity.
Qed.

Lemma pool_offends_entry i p :
  pool_offends p ->
  exists detail, pool_violations i (JDict p) = [ py_str (pool_name_of i p) ++ ": " ++ detail ].
Proof.
  unfold pool_offends. intros Hoff.
  destruct (dict_get p "dlTypes" (JList [])) as [| | | |ts|] eqn:Hd;
    try (exists "dlTypes must be an array";
         rewrite pool_violations_not_array by (now rewrite Hd); reflexivity).
  destruct Hoff as (t & Hin & Hbad).
  destruct (pool_violations_invalid i p ts t Hd Hin Hbad) as [Hv _].
  exists ("invalid dlTypes: " ++ py_repr (JList (filter invalid_dl_type ts))). exact Hv.
Qed.

(** X5.  A pool the dlTypes block reports is named by its [name] when that
    is a non-empty [str], and by [nodePools[i]], with [i] its position in
    the list counted from 0, when the name is absent or falsy. *)
Theorem pool_named_or_numbered cfg pools i p :
  py_iter (dict_get cfg "nodePools" (JList [])) = Ok pools ->
  nth_error pools i = Some (JDict p) ->
  pool_offends p ->
  exists detail,
    (py_truthy (dict_get p "name" JNull) = false ->
       In (positional_name i ++ ": " ++ detail) (invalid_dl_types_by_pool 0 pools)
       /\ Infix (positional_name i ++ ": " ++ detail)
                (dl_types_message (invalid_dl_types_by_pool 0 pools)))
    /\ (forall s, lookup "name" p = Some (JStr s) -> s <> "" ->
       In (s ++ ": " ++ detail) (invalid_dl_types_by_pool 0 pools)
       /\ Infix (s ++ ": " ++ detail) (dl_types_message (invalid_dl_types_by_pool 0 pools)))
    /\ check_node_pool_dl_types cfg
       = Raise (ValueError (dl_types_message (invalid_dl_types_by_pool 0 pools))).
Proof.
  intros Hi Hn Hoff. destruct (pool_offends_entry i p Hoff) as (detail & Hv).
  destruct (pool_entry_reported cfg pools i (JDict p) _ Hi Hn Hv) as (Hin & Hraise & Hinf).
  exists detail. split; [|split; [|exact Hraise]].
  - intros Hf. unfold pool_name_of, py_or in Hin, Hinf. rewrite Hf in Hin, Hinf.
    cbn [py_str] in Hin, Hinf. now split.
  - intros s Hs Hne. unfold pool_name_of, py_or, dict_get in Hin, Hinf. rewrite Hs in Hin, Hinf.
    assert (Ht : py_truthy (JStr s) = true) by (destruct s; [now destruct Hne | reflexivity]).
    rewrite Ht in Hin, Hinf. cbn [py_str] in Hin, Hinf. now split.
Qed.

Lemma invalid_dl_types_by_pool_no_dict items : forall idx,
  forallb (fun q => negb (is_dict q)) items = true -> invalid_dl_types_by_pool idx items = [].
Proof.
  induction items as [|q items IH]; intros idx H; [reflexivity|].
  cbn [forallb] in H. apply andb_true_iff in H as [Hq Hrest].
  cbn [invalid_dl_types_by_pool]. rewrite (IH _ Hrest).
  destruct q; try reflexivity. discriminate Hq.
Qed.

(** X6.  The dlTypes block looks at the objects among the items of
    [nodePools] only.  When no item is an object the block passes: so it
    does for an absent [nodePools], for a [str] (its characters) and for an
    object (its keys).  A [nodePools] that cannot be iterated ([null], a
    number, a boolean) makes the block raise a [TypeError], not a
    [ValueError]. *)
Theorem node_pools_items_inspected cfg :
  (forall items,
      py_iter (dict_get cfg "nodePools" (JList [])) = Ok items ->
      forallb (fun q => negb (is_dict q)) items = true ->
      check_node_pool_dl_types cfg = Ok tt)
  /\ (lookup "nodePools" cfg = None -> check_node_pool_dl_types cfg = Ok tt)
  /\ (forall s, lookup "nodePools" cfg = Some (JStr s) -> check_node_pool_dl_types cfg = Ok tt)
  /\ (forall d, lookup "nodePools" cfg = Some (JDict d) -> check_node_pool_dl_types cfg = Ok tt)
  /\ (forall v, lookup "nodePools" cfg = Some v ->
      is_list v = false -> is_str v = false -> is_dict v = false ->
      check_node_pool_dl_types cfg = Raise TypeError
      /\ forall compute_cfg w, snd (validate_config cfg compute_cfg w) <> Ok tt).
Proof.
  assert (Hitems : forall items,
             py_iter (dict_get cfg "nodePools" (JList [])) = Ok items ->
             forallb (fun q => negb (is_dict q)) items = true ->
             check_node_pool_dl_types cfg = Ok tt).
  { intros items Hi Hall. rewrite (check_node_pool_dl_types_run cfg items Hi).
    now rewrite invalid_dl_types_by_pool_no_dict. }
  split; [exact Hitems|]. split; [|split; [|split]].
  - intros Hl. apply (Hitems []); [unfold dict_get; now rewrite Hl | reflexivity].
  - intros s Hl. apply (Hitems (map (fun c => JStr (String c "")) (list_ascii_of_string s))).
    + unfold dict_get. now rewrite Hl.
    + apply forallb_forall. intros x Hx. apply in_map_iff in Hx as (c & <- & _). reflexivity.
  - intros d Hl. apply (Hitems (map (fun kv => JStr (fst kv)) d)).
    + unfold dict_get. now rewrite Hl.
    + apply forallb_forall. intros x Hx. apply in_map_iff in Hx as (c & <- & _). reflexivity.
  - intros v Hl H1 H2 H3.
    assert (Hr : check_node_pool_dl_types cfg = Raise TypeError).
    { unfold check_node_pool_dl_types, dict_get. rewrite Hl.
      destruct v; try discriminate; reflexivity. }
    split; [exact Hr|]. exact (proj1 (dl_types_block_raises cfg _ Hr)).
Qed.

Lemma In_missing_values x token endpoint org_id :
  In x (missing_values token endpoint org_id) <->
  (x = "authentication.token" /\ py_truthy token = false)
  \/ (x = "cluster.endpoint" /\ py_truthy endpoint = false)
  \/ (x = "organization.orgId"
      /\ (py_truthy org_id = false \/ py_in_strs org_id placeholder_org_ids = true)).
Proof.
  unfold missing_values. rewrite !in_app_iff.
  destruct (py_truthy token), (py_truthy endpoint), (py_truthy org_id),
    (py_in_strs org_id placeholder_org_ids); cbn;
    intuition (try discriminate; subst; auto).
Qed.

(** X7.  On a document the Transformer accepts, with [org_id] what the
    validator reads for [organization.orgId]: the required-values block
    raises one [ValueError] whose list holds [authentication.token] when
    the token is falsy, [cluster.endpoint] when the endpoint is falsy and
    [organization.orgId] when [org_id] is falsy or a placeholder, all of
    them together; with none of them it passes. *)
Theorem required_values_accumulated cfg compute_cfg w org_id :
  build_compute_config cfg = Ok compute_cfg ->
  py_get (dict_get cfg "organization" (JDict [])) "orgId" (JStr "") = Ok org_id ->
  exists missing,
    (forall x, In x missing <->
       (x = "authentication.token" /\ py_truthy (auth_token cfg) = false)
       \/ (x = "cluster.endpoint" /\ py_truthy (cluster_endpoint cfg) = false)
       \/ (x = "organization.orgId"
           /\ (py_truthy org_id = false \/ py_in_strs org_id placeholder_org_ids = true)))
    /\ (missing = [] ->
        check_required_values cfg (auth_of compute_cfg) (conf_of compute_cfg) = Ok tt)
    /\ (missing <> [] ->
        validate_config cfg compute_cfg w
        = (w, Raise (ValueError (missing_values_message missing)))
        /\ forall x, In x missing -> Infix x (missing_values_message missing)).
Proof.
  intros Hb Ho. destruct (built_auth_conf _ _ Hb) as (auth & conf & Ha & Hc & Ht & He & _).
  exists (missing_values (auth_token cfg) (cluster_endpoint cfg) org_id).
  split; [intros x; apply In_missing_values|].
  pose proof (check_required_values_dicts cfg auth conf org_id Ho) as Hr.
  cbv zeta in Hr. rewrite Ht, He, <- Ha, <- Hc in Hr.
  split.
  - intros Hm. now rewrite Hm in Hr.
  - intros Hm. split; [|intros x; apply Infix_missing_values_message].
    rewrite validate_config_run, Hr.
    destruct (missing_values (auth_token cfg) (cluster_endpoint cfg) org_id);
      [now destruct Hm | reflexivity].
Qed.

Lemma validator_accepts_iff_witness : config_acceptable cfg_valid.
Proof.
  apply (proj1 (validator_accepts_iff cfg_valid (built cfg_valid) w0 eq_refl)). reflexivity.
Defined.

Lemma metadata_shape_enforced_witness :
  check_metadata cfg_list_metadata = Raise (ValueError metadata_shape_message)
  /\ snd (validate_config cfg_list_metadata (built cfg_list_metadata) w0)
     = Raise (ValueError metadata_shape_message)
  /\ field (conf_of (built cfg_list_metadata)) "metadata" = JDict [].
Proof.
  destruct (metadata_shape_enforced cfg_list_metadata (JList []) eq_refl eq_refl eq_refl)
    as (H1 & _ & H3 & H4).
  split; [exact H1|]. split.
  - apply H3; [reflexivity | split; reflexivity].
  - apply H4; reflexivity.
Defined.

Lemma warnings_printed_witness :
  stdout (fst (validate_config cfg_valid (built cfg_valid) w0))
  = [ ca_warning; volumes_warning ].
Proof.
  apply (warnings_printed cfg_valid (built cfg_valid) w0 eq_refl). split; reflexivity.
Defined.

Lemma pool_named_or_numbered_witness :
  exists detail,
    In ("nodePools[1]: " ++ detail)
       (invalid_dl_types_by_pool 0 [ pool "pool-a" (JList [ JStr "gpu-t4" ]);
                                     JDict [ ("dlTypes", JList [ JStr "gpu-h100" ]) ] ]).
Proof.
  destruct (pool_named_or_numbered cfg_unnamed_pool
              [ pool "pool-a" (JList [ JStr "gpu-t4" ]);
                JDict [ ("dlTypes", JList [ JStr "gpu-h100" ]) ] ]
              1 [ ("dlTypes", JList [ JStr "gpu-h100" ]) ] eq_refl eq_refl)
    as (detail & H & _).
  - exists (JStr "gpu-h100"). split; [now left | reflexivity].
  - exists detail. apply H. reflexivity.
Defined.

Lemma node_pools_items_inspected_witness :
  check_node_pool_dl_types cfg_null_pools = Raise TypeError.
Proof.
  apply (proj2 (proj2 (proj2 (proj2 (node_pools_items_inspected cfg_null_pools)))) JNull);
    reflexivity.
Defined.

Lemma required_values_accumulated_witness :
  exists missing,
    In "authentication.token" missing /\ In "organization.orgId" missing
    /\ validate_config cfg_empty_token (built cfg_empty_token) w0
       = (w0, Raise (ValueError (missing_values_message missing))).
Proof.
  destruct (required_values_accumulated cfg_empty_token (built cfg_empty_token) w0
              (JStr "YOUR_ORG_ID_HERE") eq_refl eq_refl) as (missing & Hin & _ & Hraise).
  exists missing.
  assert (H1 : In "authentication.token" missing) by (apply Hin; left; split; reflexivity).
  split; [exact H1|]. split.
  - apply Hin. right. right. split; [reflexivity | right; reflexivity].
  - apply Hraise. intros E. rewrite E in H1. destruct H1.
Defined.

(** ** More on the Transformer *)

Lemma dict_item_lookup d d' k : lookup k d = lookup k d' -> dict_item d k = dict_item d' k.
Proof. unfold dict_item. now intros ->. Qed.

Lemma dict_get_lookup_eq d d' k x : lookup k d = lookup k d' -> dict_get d k x = dict_get d' k x.
Proof. unfold dict_get. now intros ->. Qed.

(** X8.  The Transformer reads ten top-level keys and nothing else: two
    documents that agree on them are transformed alike, the same
    ComputeConfig or the same exception.  What [organization] and [output]
    hold never reaches the ComputeConfig. *)
Theorem transformer_reads_only cfg cfg' :
  (forall k, In k transformer_reads -> lookup k cfg = lookup k cfg') ->
  build_compute_config cfg = build_compute_config cfg'.
Proof.
  intros H. unfold build_compute_config.
  rewrite (dict_item_lookup cfg cfg' "cluster"), (dict_item_lookup cfg cfg' "authentication"),
    (dict_item_lookup cfg cfg' "network"), (dict_item_lookup cfg cfg' "nodePools"),
    (dict_get_lookup_eq cfg cfg' "registry"), (dict_get_lookup_eq cfg cfg' "metadata"),
    (dict_get_lookup_eq cfg cfg' "volumes"), (dict_get_lookup_eq cfg cfg' "securityContext"),
    (dict_get_lookup_eq cfg cfg' "defaultResources"), (dict_get_lookup_eq cfg cfg' "plugins");
    try reflexivity; apply H; unfold transformer_reads; simpl; tauto.
Qed.

(** X9.  When the Transformer raises, it is a [KeyError] for one of the
    three sections or seven fields it subscripts, a [TypeError] for a
    [cluster] that is no object, or an [AttributeError] for a truthy
    [registry], an [authentication] or a [network] that is no object;
    never a [ValueError]. *)
Theorem transformer_failures cfg e :
  build_compute_config cfg = Raise e ->
  is_ValueError e = false
  /\ ((exists k, e = KeyError k /\ In k lookup_failure_keys)
      \/ (e = TypeError /\ misshaped cfg "cluster")
      \/ (e = AttributeError
          /\ ((is_dict (py_or (dict_get cfg "registry" JNull) (JDict [])) = false)
              \/ misshaped cfg "authentication" \/ misshaped cfg "network"))).
Proof. apply build_compute_config_raises. Qed.

Ltac invert_build H :=
  apply build_compute_config_Ok in H
    as (?cluster & ?auth & ?network & ?registry & ?token & ?endpoint & ?version & ?name & ?pools
        & ?namespace & ?provider & ?Hc & ?Ha & ?Hn & ?Hr & ?Ht & ?He & ?Hv & ?Hname & ?Hp
        & ?Hns & ?Hpr & ->).

Lemma defaulted_dict_get d k x : defaulted (lookup k d) x (dict_get d k x).
Proof. unfold defaulted, dict_get. now destruct (lookup k d). Qed.

(** X10.  The optional fields of a ComputeConfig: each is the default
    when its key is absent from the document and the document's value when
    the key is there, whatever the value, [null] included.  The defaults
    are the empty string for [authentication.ca], [faas] for
    [cluster.serviceAccountName], and empty containers for [volumes],
    [securityContext], [defaultResources] and [plugins]. *)
Theorem optional_fields_defaulted cfg compute_cfg :
  build_compute_config cfg = Ok compute_cfg ->
  exists cluster auth,
    lookup "cluster" cfg = Some (JDict cluster)
    /\ lookup "authentication" cfg = Some (JDict auth)
    /\ defaulted (lookup "ca" auth) (JStr "") (field (auth_of compute_cfg) "ca")
    /\ defaulted (lookup "serviceAccountName" cluster) (JStr "faas")
         (field (deployment_configuration compute_cfg) "serviceAccountName")
    /\ defaulted (lookup "volumes" cfg) (JList [])
         (field (deployment_configuration compute_cfg) "volumes")
    /\ defaulted (lookup "securityContext" cfg) (JDict [])
         (field (deployment_configuration compute_cfg) "securityContext")
    /\ defaulted (lookup "defaultResources" cfg) (JDict [])
         (field (deployment_configuration compute_cfg) "defaultResources")
    /\ defaulted (lookup "plugins" cfg) (JList []) (field (conf_of compute_cfg) "plugins").
Proof.
  intros H. invert_build H. exists cluster, auth.
  split; [exact Hc|]. split; [exact Ha|].
  repeat split; apply defaulted_dict_get.
Qed.

(** X11.  [registry] and [metadata] count as absent whenever they are
    falsy ([null], an empty object, an empty list, an empty string, zero,
    [false]): the ComputeConfig then holds the three registry defaults and
    an empty [metadata].  A [registry] object gives its own values, with
    the default for each key it lacks; a truthy [metadata] is passed
    through as it is. *)
Theorem falsy_sections_absent cfg compute_cfg :
  build_compute_config cfg = Ok compute_cfg ->
  (py_truthy (dict_get cfg "registry" JNull) = false ->
     field (deployment_configuration compute_cfg) "registry"
     = JDict [ ("domain", JStr "hub.dataloop.ai"); ("faasFolder", JStr "customerhub");
               ("bootstrapFolder", JStr "customerhub") ])
  /\ (forall r,
        lookup "registry" cfg = Some (JDict r) ->
        field (deployment_configuration compute_cfg) "registry"
        = JDict [ ("domain", dict_get r "domain" (JStr "hub.dataloop.ai"));
                  ("faasFolder", dict_get r "faasFolder" (JStr "customerhub"));
                  ("bootstrapFolder", dict_get r "bootstrapFolder" (JStr "customerhub")) ])
  /\ (py_truthy (dict_get cfg "metadata" JNull) = false ->
      field (conf_of compute_cfg) "metadata" = JDict [])
  /\ (forall v, lookup "metadata" cfg = Some v -> py_truthy v = true ->
      field (conf_of compute_cfg) "metadata" = v).
Proof.
  intros H. invert_build H.
  change (field (deployment_configuration _) "registry")
    with (JDict [ ("domain", dict_get registry "domain" (JStr "hub.dataloop.ai"));
                  ("faasFolder", dict_get registry "faasFolder" (JStr "customerhub"));
                  ("bootstrapFolder", dict_get registry "bootstrapFolder" (JStr "customerhub")) ]).
  change (field (conf_of _) "metadata")
    with (py_or (dict_get cfg "metadata" JNull) (JDict [])).
  split; [|split; [|split]].
  - intros Hf. unfold py_or in Hr. rewrite Hf in Hr. injection Hr as <-. reflexivity.
  - intros r Hl. unfold py_or, dict_get in Hr. rewrite Hl in Hr.
    destruct r; cbn in Hr; injection Hr as <-; reflexivity.
  - intros Hf. unfold py_or. now rewrite Hf.
  - intros v Hl Ht'. unfold py_or, dict_get. rewrite Hl. now rewrite Ht'.
Qed.

Lemma transformer_reads_only_witness :
  build_compute_config (("organization", JDict [ ("orgId", JStr "other") ])
                        :: ("output", JDict [ ("base64ConfigFile", JStr "out.txt") ]) :: cfg_valid)
  = build_compute_config cfg_valid.
Proof.
  apply transformer_reads_only. intros k Hk.
  repeat (destruct Hk as [<-|Hk]; [reflexivity|]). destruct Hk.
Defined.

Lemma transformer_failures_witness :
  is_ValueError TypeError = false
  /\ ((exists k, TypeError = KeyError k /\ In k lookup_failure_keys)
      \/ (TypeError = TypeError /\ misshaped cfg_list_cluster "cluster")
      \/ (TypeError = AttributeError
          /\ ((is_dict (py_or (dict_get cfg_list_cluster "registry" JNull) (JDict [])) = false)
              \/ misshaped cfg_list_cluster "authentication"
              \/ misshaped cfg_list_cluster "network"))).
Proof. apply (transformer_failures cfg_list_cluster TypeError). reflexivity. Defined.

Lemma optional_fields_defaulted_witness :
  exists cluster auth,
    lookup "cluster" cfg_valid = Some (JDict cluster)
    /\ lookup "authentication" cfg_valid = Some (JDict auth)
    /\ defaulted (lookup "ca" auth) (JStr "") (field (auth_of (built cfg_valid)) "ca")
    /\ defaulted (lookup "serviceAccountName" cluster) (JStr "faas")
         (field (deployment_configuration (built cfg_valid)) "serviceAccountName")
    /\ defaulted (lookup "volumes" cfg_valid) (JList [])
         (field (deployment_configuration (built cfg_valid)) "volumes")
    /\ defaulted (lookup "securityContext" cfg_valid) (JDict [])
         (field (deployment_configuration (built cfg_valid)) "securityContext")
    /\ defaulted (lookup "defaultResources" cfg_valid) (JDict [])
         (field (deployment_configuration (built cfg_valid)) "defaultResources")
    /\ defaulted (lookup "plugins" cfg_valid) (JList []) (field (conf_of (built cfg_valid)) "plugins").
Proof. apply (optional_fields_defaulted cfg_valid (built cfg_valid)). reflexivity. Defined.

Lemma falsy_sections_absent_witness :
  field (deployment_configuration (built cfg_null_registry)) "registry"
  = JDict [ ("domain", JStr "hub.dataloop.ai"); ("faasFolder", JStr "customerhub");
            ("bootstrapFolder", JStr "customerhub") ]
  /\ field (conf_of (built cfg_null_registry)) "metadata" = JDict [].
Proof.
  destruct (falsy_sections_absent cfg_null_registry (built cfg_null_registry) eq_refl)
    as (H1 & _ & H3 & _).
  split; [apply H1 | apply H3]; reflexivity.
Defined.

(** ** More on the Encoder *)

Lemma all_chars_app test a b :
  all_chars test (a ++ b) = all_chars test a && all_chars test b.
Proof. induction a as [|c a IH]; [reflexivity|]. cbn. now rewrite IH, andb_assoc. Qed.

Lemma all_chars_concat test sep l :
  all_chars test sep = true -> forallb (all_chars test) l = true ->
  all_chars test (concat sep l) = true.
Proof.
  intros Hs. induction l as [|x l IH]; [reflexivity|]. cbn [forallb]. intros H.
  apply andb_true_iff in H as [Hx Hl]. destruct l as [|y l]; [exact Hx|].
  change (concat sep (x :: y :: l)) with (x ++ sep ++ concat sep (y :: l)).
  rewrite !all_chars_app, Hx, Hs. now apply IH.
Qed.

Lemma get_contains n : forall s c, get n s = Some c -> str_contains c s = true.
Proof.
  induction n as [|n IH]; intros [|c' s] c H; try discriminate H; cbn in *.
  - injection H as ->. now rewrite Ascii.eqb_refl.
  - rewrite (IH s c H). apply orb_true_r.
Qed.

Lemma b64_char_safe i : is_b64_char (b64_char i) = true.
Proof.
  unfold b64_char, is_b64_char. destruct (get (N.to_nat i) b64_alphabet) as [c|] eqn:E.
  - now rewrite (get_contains _ _ _ E).
  - apply orb_true_r.
Qed.

Lemma b64encode_safe_bounded n : forall s,
  (length s <= n)%nat ->
  all_chars is_b64_char (b64encode s) = true
  /\ length (b64encode s) = (4 * ((length s + 2) / 3))%nat.
Proof.
  induction n as [|n IH]; intros s Hn.
  - destruct s; [split; reflexivity | simpl in Hn; lia].
  - destruct s as [|a [|b [|c rest]]].
    + split; reflexivity.
    + cbn [b64encode all_chars]. cbv zeta. rewrite !b64_char_safe. split; reflexivity.
    + cbn [b64encode all_chars]. cbv zeta. rewrite !b64_char_safe. split; reflexivity.
    + destruct (IH rest) as [I1 I2]; [simpl in Hn; lia|].
      cbn [b64encode all_chars length]. cbv zeta. rewrite !b64_char_safe, I1, I2.
      split; [reflexivity|].
      replace (S (S (S (length rest))) + 2)%nat with (length rest + 2 + 1 * 3)%nat by lia.
      rewrite Nat.div_add by discriminate. lia.
Qed.

Lemma hex_digit_ascii n : is_ascii (hex_digit n) = true.
Proof.
  destruct n as [|p]; [reflexivity|].
  do 4 (destruct p as [p|p|]; try reflexivity).
Qed.

Lemma hex4_ascii n : all_chars is_ascii (hex4 n) = true.
Proof. unfold hex4. cbn [all_chars]. now rewrite !hex_digit_ascii. Qed.

Lemma escape_code_point_ascii cp : all_chars is_ascii (escape_code_point cp) = true.
Proof.
  unfold escape_code_point.
  repeat match goal with
         | |- context [(cp =? ?k)%N] => destruct (N.eqb_spec cp k); [reflexivity|]
         end.
  destruct (N.leb_spec 0x20 cp); cbn [andb].
  - destruct (N.leb_spec cp 0x7E).
    + cbn [all_chars]. unfold is_ascii. rewrite byte_of_chr by lia.
      rewrite andb_true_r. apply N.ltb_lt. lia.
    + destruct (cp <? 0x10000)%N; cbv zeta; rewrite ?all_chars_app, ?hex4_ascii; reflexivity.
  - destruct (cp <? 0x10000)%N; cbv zeta; rewrite ?all_chars_app, ?hex4_ascii; reflexivity.
Qed.

Lemma encode_basestring_ascii_ascii s : all_chars is_ascii (encode_basestring_ascii s) = true.
Proof.
  unfold encode_basestring_ascii. cbn [all_chars]. rewrite all_chars_app.
  rewrite all_chars_concat; [reflexivity | reflexivity |].
  apply forallb_forall. intros x Hx. apply in_map_iff in Hx as (cp & <- & _).
  apply escape_code_point_ascii.
Qed.

Lemma string_of_uint_ascii u : all_chars is_ascii (NilEmpty.string_of_uint u) = true.
Proof. induction u; cbn; assumption || reflexivity. Qed.

Lemma string_of_Z_ascii z : all_chars is_ascii (string_of_Z z) = true.
Proof.
  unfold string_of_Z. destruct z as [|p|p]; cbn [Z.to_int NilZero.string_of_int]; [reflexivity| |].
  - unfold NilZero.string_of_uint. destruct (Pos.to_uint p) eqn:E;
      try reflexivity; rewrite <- E; apply string_of_uint_ascii.
  - cbn [all_chars]. unfold NilZero.string_of_uint. destruct (Pos.to_uint p) eqn:E;
      try reflexivity; rewrite <- E; apply string_of_uint_ascii.
Qed.

Lemma indent_of_ascii level : all_chars is_ascii (indent_of level) = true.
Proof. induction level as [|n IH]; [reflexivity | exact IH]. Qed.

Lemma newline_indent_ascii level : all_chars is_ascii (newline_indent level) = true.
Proof. unfold newline_indent. rewrite all_chars_app, indent_of_ascii. reflexivity. Qed.

Lemma item_separator_ascii level : all_chars is_ascii ("," ++ newline_indent (S level)) = true.
Proof. rewrite all_chars_app, newline_indent_ascii. reflexivity. Qed.

Lemma json_encode_ascii v : forall level, all_chars is_ascii (json_encode level v) = true.
Proof.
  induction v as [|b|z|s|l IH|d IH] using json_nested_ind; intros level.
  - reflexivity.
  - destruct b; reflexivity.
  - apply string_of_Z_ascii.
  - apply encode_basestring_ascii_ascii.
  - destruct l as [|x xs]; [reflexivity|]. rewrite json_encode_list. cbn [all_chars].
    rewrite !all_chars_app, !newline_indent_ascii.
    rewrite all_chars_concat; [reflexivity | apply item_separator_ascii |].
    apply forallb_forall. intros t Ht. apply in_map_iff in Ht as (y & <- & Hy).
    rewrite Forall_forall in IH. now apply IH.
  - destruct d as [|kv d']; [reflexivity|]. rewrite json_encode_dict. cbn [all_chars].
    rewrite !all_chars_app, !newline_indent_ascii.
    rewrite all_chars_concat; [reflexivity | apply item_separator_ascii |].
    apply forallb_forall. intros t Ht. apply in_map_iff in Ht as ([k y] & <- & Hy).
    rewrite Forall_forall in IH. unfold encode_member.
    rewrite !all_chars_app, encode_basestring_ascii_ascii, (IH (k, y) Hy). reflexivity.
Qed.

(** X12.  The text the Encoder returns and writes is transport-safe,
    whatever the ComputeConfig: its characters are those of the Base64
    alphabet and the padding [=], its length is four characters for every
    three bytes of the JSON text, rounded up; and the JSON text it encodes
    is pure ASCII, so that encoding it as UTF-8 cannot fail. *)
Theorem artifact_transport_safe compute_cfg output_file w :
  exists text w',
    encode_config_to_base64 compute_cfg output_file w = (w', Ok text)
    /\ all_chars is_b64_char text = true
    /\ length text = (4 * ((length (json_dumps (JDict compute_cfg)) + 2) / 3))%nat
    /\ b64decode text = Some (json_dumps (JDict compute_cfg))
    /\ all_chars is_ascii (json_dumps (JDict compute_cfg)) = true.
Proof.
  eexists; eexists. split; [reflexivity|].
  destruct (b64encode_safe_bounded _ (json_dumps (JDict compute_cfg)) (le_n _)) as [H1 H2].
  split; [exact H1|]. split; [exact H2|]. split; [apply b64decode_b64encode|].
  apply json_encode_ascii.
Qed.

(** ** The pipeline, from the document to the artifact *)

Lemma main_run cfg w :
  main cfg w =
  match dict_item cfg "organization" with
  | Raise e => (w, Raise e)
  | Ok org =>
    match py_item org "orgId" with
    | Raise e => (w, Raise e)
    | Ok _ =>
      match py_get org "env" (JStr "rc") with
      | Raise e => (w, Raise e)
      | Ok _ =>
        match output_file_of cfg with
        | Raise e => (w, Raise e)
        | Ok output_file =>
          match py_get (dict_get cfg "cluster" (JDict [])) "name" (JStr "unknown") with
          | Raise e => (w, Raise e)
          | Ok _ =>
            match build_compute_config cfg with
            | Raise e => (w, Raise e)
            | Ok compute_cfg =>
              match validate_config cfg compute_cfg w with
              | (w1, Raise e) => (w1, Raise e)
              | (w1, Ok _) =>
                match output_file with
                | JStr path => encode_config_to_base64 compute_cfg path w1
                | JInt _ | JBool _ => (w1, Raise OSError)
                | _ => (w1, Raise TypeError)
                end
              end
            end
          end
        end
      end
    end
  end.
Proof.
  unfold main, output_file_of. rewrite bind_lift.
  destruct (dict_item cfg "organization") as [org|]; [|reflexivity]. rewrite bind_lift.
  destruct (py_item org "orgId"); [|reflexivity]. rewrite bind_lift.
  destruct (py_get org "env" (JStr "rc")); [|reflexivity]. rewrite bind_lift.
  destruct (py_get (dict_get cfg "output" (JDict [])) _ _) as [output_file|]; [|reflexivity].
  rewrite bind_lift.
  destruct (py_get (dict_get cfg "cluster" (JDict [])) "name" (JStr "unknown")) as [x|] eqn:En;
    [|reflexivity].
  assert (Hd : exists d, dict_get cfg "cluster" (JDict []) = JDict d)
    by (destruct (dict_get cfg "cluster" (JDict [])); try discriminate En; eauto).
  destruct Hd as [d Hd]. rewrite Hd. cbn [py_get]. rewrite !bind_lift.
  destruct (build_compute_config cfg) as [c|]; [|reflexivity].
  rewrite bind_run. destruct (validate_config cfg c w) as [w1 [[]|e]]; [|reflexivity].
  destruct output_file; reflexivity.
Qed.

Lemma encode_config_to_base64_run compute_cfg path w :
  encode_config_to_base64 compute_cfg path w
  = (World (stdout w) ((path, b64encode (json_dumps (JDict compute_cfg))) :: files w),
     Ok (b64encode (json_dumps (JDict compute_cfg)))).
Proof. reflexivity. Qed.

Lemma read_file_other p path text fs :
  p <> path -> read_file p ((path, text) :: fs) = read_file p fs.
Proof.
  intros H. cbn [read_file]. destruct (String.eqb_spec path p); [now destruct H | reflexivity].
Qed.



Lemma main_Ok cfg w w' text :
  main cfg w = (w', Ok text) ->
  exists compute_cfg w1 output_file,
    output_file_of cfg = Ok output_file
    /\ build_compute_config cfg = Ok compute_cfg
    /\ validate_config cfg compute_cfg w = (w1, Ok tt)
    /\ forall path, output_file = JStr path ->
         (w', text) = (World (stdout w1)
                          ((path, b64encode (json_dumps (JDict compute_cfg))) :: files w1),
                       b64encode (json_dumps (JDict compute_cfg))).
Proof.
  rewrite main_run.
  destruct (dict_item cfg "organization") as [org|]; [|discriminate].
  destruct (py_item org "orgId"); [|discriminate].
  destruct (py_get org "env" (JStr "rc")); [|discriminate].
  destruct (output_file_of cfg) as [output_file|] eqn:Eo; [|discriminate].
  destruct (py_get (dict_get cfg "cluster" (JDict [])) "name" (JStr "unknown")); [|discriminate].
  destruct (build_compute_config cfg) as [c|] eqn:Eb; [|discriminate].
  destruct (validate_config cfg c w) as [w1 [[]|e]] eqn:Ev; [|discriminate].
  intros H. exists c, w1, output_file. do 3 (split; [reflexivity || assumption|]).
  intros path ->. rewrite encode_config_to_base64_run in H. now injection H as <- <-.
Qed.

(** X14.  No artifact without acceptance.  With [path] the [str] that
    [output.base64ConfigFile] holds ([base64_config.txt] when there is
    none): when [main] gets past the encoding, the Transformer has
    accepted the document and the document is one the validator accepts;
    the text is the Base64 form of [json.dumps] of the ComputeConfig, the
    file [path] holds it, and every other file is as before. *)
Theorem artifact_only_when_accepted cfg path w w' text :
  output_file_of cfg = Ok (JStr path) ->
  main cfg w = (w', Ok text) ->
  exists compute_cfg,
    build_compute_config cfg = Ok compute_cfg
    /\ config_acceptable cfg
    /\ text = b64encode (json_dumps (JDict compute_cfg))
    /\ read_file path (files w') = Some text
    /\ (forall p, p <> path -> read_file p (files w') = read_file p (files w)).
Proof.
  intros Ho H. apply main_Ok in H as (c & w1 & o & Ho' & Hb & Hv & H).
  rewrite Ho in Ho'. injection Ho' as <-. specialize (H path eq_refl). injection H as -> ->.
  pose proof (validate_config_world cfg c w) as [Hf _]. rewrite Hv in Hf. cbn [fst] in Hf.
  exists c. split; [exact Hb|]. split; [|split; [reflexivity|]].
  - apply (validate_config_accepts cfg c w Hb). now rewrite Hv.
  - cbn [files]. split.
    + cbn [read_file]. now rewrite String.eqb_refl.
    + intros p Hp. rewrite read_file_other by exact Hp. now rewrite Hf.
Qed.

(** X15.  [main] reads [organization] and its [orgId] by subscript before
    anything else: a document without the section, or whose section lacks
    the key, stops [main] with a [KeyError] for that key, and a section
    that is no object with a [TypeError]; the Transformer and the
    validator are not reached, so the validator's own report of a missing
    [organization.orgId] is for an [orgId] that is there and empty. *)
Theorem main_requires_org_id cfg w :
  (lookup "organization" cfg = None -> main cfg w = (w, Raise (KeyError "organization")))
  /\ (forall org,
        lookup "organization" cfg = Some (JDict org) -> lookup "orgId" org = None ->
        main cfg w = (w, Raise (KeyError "orgId")))
  /\ (forall v,
        lookup "organization" cfg = Some v -> is_dict v = false ->
        main cfg w = (w, Raise TypeError)).
Proof.
  split; [|split].
  - intros H. rewrite main_run. unfold dict_item. now rewrite H.
  - intros org H1 H2. rewrite main_run. unfold dict_item. rewrite H1. cbn [py_item].
    unfold dict_item. now rewrite H2.
  - intros v H1 H2. rewrite main_run. unfold dict_item. rewrite H1.
    destruct v; try discriminate H2; reflexivity.
Qed.

Lemma print_all_run lines w :
  print_all lines w = (World (stdout w ++ lines) (files w), Ok tt).
Proof.
  revert w. induction lines as [|s lines IH]; intros w.
  - cbn. rewrite app_nil_r. now destruct w.
  - cbn [print_all]. rewrite bind_run. cbn [print]. rewrite IH. cbn [stdout files].
    now rewrite <- app_assoc.
Qed.

(** The last handler, on an exception of the pipeline that is no
    [ValueError]. *)
Lemma handle_failure_other inst describe e w :
  is_ValueError e = false ->
  handle_failure inst (raised_of describe e) w
  = (World (stdout w ++ error_line describe e :: troubleshooting_tips) (files w),
     Ok Propagates).
Proof.
  intros H.
  assert (E : raised_of describe e = OtherException (exception_text describe e))
    by (destruct e; try reflexivity; discriminate H).
  rewrite E. cbn [handle_failure]. rewrite bind_run. cbn [print].
  rewrite bind_run, print_all_run. cbn [stdout files ret]. unfold error_line.
  now rewrite <- app_assoc.
Qed.

Lemma handle_failure_ValueError inst describe msg w :
  handle_failure inst (raised_of describe (ValueError msg)) w
  = (World (stdout w ++ [ configuration_error_line msg ]) (files w), Ok (Exit 1)).
Proof. reflexivity. Qed.

(** On a document of the Transformer the endpoint block raises the
    endpoint message, or an [AttributeError] for an endpoint that is no
    [str]. *)
Lemma check_endpoint_format_raises cfg compute_cfg e :
  build_compute_config cfg = Ok compute_cfg ->
  check_endpoint_format (conf_of compute_cfg) = Raise e ->
  e = ValueError endpoint_message \/ e = AttributeError.
Proof.
  intros Hb. destruct (built_auth_conf _ _ Hb) as (auth & conf & _ & Hc & _ & _ & Hl).
  rewrite Hc. unfold check_endpoint_format. cbn [py_item]. unfold dict_item. rewrite Hl.
  cbn [rbind]. destruct (cluster_endpoint cfg); cbn [py_startswith rbind];
    try (intros [= <-]; now right).
  destruct (prefix "http://" s); cbn [rbind]; [discriminate|].
  destruct (prefix "https://" s); [discriminate | intros [= <-]; now left].
Qed.

(** What the validator raises on a document of the Transformer: a
    [ValueError], a [TypeError] or an [AttributeError]. *)
Lemma validate_config_raises cfg compute_cfg w w1 e :
  build_compute_config cfg = Ok compute_cfg ->
  validate_config cfg compute_cfg w = (w1, Raise e) ->
  is_ValueError e = true \/ e = TypeError \/ e = AttributeError.
Proof.
  intros Hb. rewrite validate_config_run.
  destruct (check_required_values _ _ _) as [[]|e1] eqn:E1.
  2:{ intros [= <- <-]. apply check_required_values_raises in E1. destruct E1; auto. }
  destruct (check_endpoint_format _) as [[]|e2] eqn:E2.
  2:{ intros [= <- <-]. destruct (check_endpoint_format_raises cfg compute_cfg _ Hb E2) as [->| ->];
        auto. }
  pose proof (warn_optional_fields_built cfg compute_cfg w Hb) as Hw.
  destruct (warn_optional_fields _ _ w) as [w' [[]|e3]]; [|discriminate Hw].
  intros [= <- H]. apply later_blocks_raises in H. destruct H; auto.
Qed.

(** X16.  What the script makes of the failures of the pipeline.
    Whatever the Transformer raises (a missing key, a section of the wrong
    shape) goes to the last handler: [Error:] with the text of the
    exception, the troubleshooting tips, and the exception is raised
    again.  What the validator raises on a document of the Transformer
    leaves every file as it was; a [ValueError] is printed as
    [Configuration Error:] with its message and the script exits with
    status 1; anything else is a [TypeError] or an [AttributeError] and
    goes to the last handler too.  And of any exception at all: the
    handlers write no file, and the script exits with status 1 for a
    [FileNotFoundError], a [JSONDecodeError] and any other [ValueError],
    and lets every other exception through. *)
Theorem failure_reported inst (describe : exn -> string) cfg :
  (forall e w,
     build_compute_config cfg = Raise e ->
     handle_failure inst (raised_of describe e) w
     = (World (stdout w ++ error_line describe e :: troubleshooting_tips) (files w),
        Ok Propagates))
  /\ (forall compute_cfg w w1 e,
        build_compute_config cfg = Ok compute_cfg ->
        validate_config cfg compute_cfg w = (w1, Raise e) ->
        files w1 = files w
        /\ (forall msg, e = ValueError msg ->
              handle_failure inst (raised_of describe e) w1
              = (World (stdout w1 ++ [ configuration_error_line msg ]) (files w), Ok (Exit 1)))
        /\ (is_ValueError e = false ->
              (e = TypeError \/ e = AttributeError)
              /\ handle_failure inst (raised_of describe e) w1
                 = (World (stdout w1 ++ error_line describe e :: troubleshooting_tips) (files w),
                    Ok Propagates)))
  /\ (forall r w,
        exists w' out,
          handle_failure inst r w = (w', Ok out)
          /\ files w' = files w
          /\ (out = Exit 1 \/ out = Propagates)
          /\ (out = Exit 1 <->
              exists text, r = FileNotFoundError text \/ r = JSONDecodeError text
                           \/ r = OtherValueError text)).
Proof.
  split; [|split].
  - intros e w Hb. apply handle_failure_other.
    now destruct (build_compute_config_raises cfg e Hb) as [Hv _].
  - intros compute_cfg w w1 e Hb Hv.
    assert (Hf : files w1 = files w).
    { pose proof (validate_config_world cfg compute_cfg w) as [Hf _].
      now rewrite Hv in Hf. }
    split; [exact Hf|]. split.
    + intros msg ->. rewrite handle_failure_ValueError. now rewrite Hf.
    + intros Hn. split.
      * destruct (validate_config_raises cfg compute_cfg w w1 e Hb Hv) as [H|H];
          [congruence | exact H].
      * rewrite (handle_failure_other inst describe e w1 Hn). now rewrite Hf.
  - intros r w. destruct r as [filename|text|text|text|]; cbn [handle_failure].
    + eexists; eexists. split; [reflexivity|]. split; [reflexivity|]. split; [now left|].
      split; [eauto | reflexivity].
    + eexists; eexists. split; [reflexivity|]. split; [reflexivity|]. split; [now left|].
      split; [eauto | reflexivity].
    + eexists; eexists. split; [reflexivity|]. split; [reflexivity|]. split; [now left|].
      split; [eauto | reflexivity].
    + rewrite bind_run. cbn [print]. rewrite bind_run, print_all_run.
      eexists; eexists. split; [reflexivity|]. split; [reflexivity|]. split; [now right|].
      split; [discriminate | intros (t & [H|[H|H]]); discriminate H].
    + eexists; eexists. split; [reflexivity|]. split; [reflexivity|]. split; [now right|].
      split; [discriminate | intros (t & [H|[H|H]]); discriminate H].
Qed.


Lemma artifact_only_when_accepted_witness :
  exists compute_cfg,
    build_compute_config cfg_with_output = Ok compute_cfg
    /\ config_acceptable cfg_with_output
    /\ read_file "out/base64.txt" (files (fst (main cfg_with_output w0)))
       = Some (b64encode (json_dumps (JDict compute_cfg))).
Proof.
  destruct (artifact_only_when_accepted cfg_with_output "out/base64.txt" w0
              (fst (main cfg_with_output w0))
              (b64encode (json_dumps (JDict (built cfg_with_output)))) eq_refl eq_refl)
    as (c & Hb & Hacc & _ & Hr & _).
  exists c. split; [exact Hb|]. split; [exact Hacc|].
  rewrite Hr. f_equal.
  change (build_compute_config cfg_with_output) with (Ok (built cfg_with_output)) in Hb.
  now injection Hb as <-.
Defined.

Lemma main_requires_org_id_witness :
  main cfg_no_org_id w0 = (w0, Raise (KeyError "orgId")).
Proof.
  apply (proj1 (proj2 (main_requires_org_id cfg_no_org_id w0)) [ ("env", JStr "prod") ]);
    reflexivity.
Defined.

Lemma failure_reported_witness :
  handle_failure sample_installation (raised_of no_description (KeyError "network")) w0
  = (World ((nl ++ cross_mark ++ " Error: 'network'") :: troubleshooting_tips) [],
     Ok Propagates)
  /\ handle_failure sample_installation
       (raised_of no_description (ValueError endpoint_message)) w0
     = (World [ configuration_error_line endpoint_message ] [], Ok (Exit 1)).
Proof.
  split.
  - apply (proj1 (failure_reported sample_installation no_description cfg_no_network)
             (KeyError "network") w0).
    reflexivity.
  - apply (proj1 (proj2 (proj1 (proj2
             (failure_reported sample_installation no_description cfg_ftp))
             (built cfg_ftp) w0 w0 (ValueError endpoint_message) eq_refl eq_refl))
             endpoint_message eq_refl).
Defined.

(** ** The listing of the configuration files *)

Lemma prefix_app p : forall s, prefix p s = true <-> exists b, s = p ++ b.
Proof.
  induction p as [|c p IH]; intros s.
  - split; [intros _; now exists s | now destruct s].
  - destruct s as [|c' s]; cbn.
    + split; [discriminate | intros [b Hb]; discriminate Hb].
    + destruct (ascii_dec c c') as [->|Hne].
      * rewrite IH. split; intros [b Hb]; exists b; cbn in *; congruence.
      * split; [discriminate | intros [b Hb]; cbn in Hb; congruence].
Qed.

Lemma py_contains_Infix sub : forall s, py_contains sub s = true <-> Infix sub s.
Proof.
  induction s as [|c s IH]; cbn [py_contains].
  - rewrite orb_false_r, prefix_app. split.
    + intros [b Hb]. exists "", b. exact Hb.
    + intros (a & b & H). destruct a; [now exists b | discriminate H].
  - rewrite orb_true_iff, prefix_app, IH. split.
    + intros [[b Hb]|(a & b & H)]; [exists "", b; exact Hb|].
      exists (String c a), b. cbn. now rewrite H.
    + intros (a & b & H). destruct a as [|c' a]; [left; now exists b|].
      right. exists a, b. cbn in H. congruence.
Qed.

Lemma compare_trans_le s : forall t u,
  String.compare s t <> Gt -> String.compare t u <> Gt -> String.compare s u <> Gt.
Proof.
  induction s as [|a s IH]; intros [|b t] [|c u]; cbn; try congruence.
  unfold Ascii.compare.
  destruct (N.compare_spec (N_of_ascii a) (N_of_ascii b)) as [Eab|Lab|Gab];
    destruct (N.compare_spec (N_of_ascii b) (N_of_ascii c)) as [Ebc|Lbc|Gbc];
    destruct (N.compare_spec (N_of_ascii a) (N_of_ascii c)) as [Eac|Lac|Gac];
    try congruence; try lia.
  apply IH.
Qed.

Lemma leb_compare s t : String.leb s t = true <-> String.compare s t <> Gt.
Proof. unfold String.leb. destruct (String.compare s t); split; congruence. Qed.

Lemma leb_trans s t u : String.leb s t = true -> String.leb t u = true -> String.leb s u = true.
Proof. rewrite !leb_compare. apply compare_trans_le. Qed.

Lemma insert_sorted_sorted s l :
  StronglySorted str_le l -> StronglySorted str_le (insert_sorted s l).
Proof.
  induction 1 as [|t l Hl IH Ht]; cbn [insert_sorted]; [repeat constructor|].
  destruct (String.leb s t) eqn:E.
  - constructor; [now constructor|]. constructor; [exact E|].
    rewrite Forall_forall in *. intros x Hx. apply (leb_trans s t x E), Ht, Hx.
  - constructor; [exact IH|]. rewrite Forall_forall in *. intros x Hx.
    apply insert_sorted_In in Hx as [->|Hx]; [|now apply Ht].
    destruct (String.leb_total s t) as [H|H]; [congruence | exact H].
Qed.

Lemma py_sorted_sorted l : StronglySorted str_le (py_sorted l).
Proof.
  induction l as [|s l IH]; [constructor|]. cbn. now apply insert_sorted_sorted.
Qed.

Lemma filter_sorted (f : string -> bool) l :
  StronglySorted str_le l -> StronglySorted str_le (filter f l).
Proof.
  induction 1 as [|t l Hl IH Ht]; cbn [filter]; [constructor|].
  destruct (f t); [|exact IH]. constructor; [exact IH|].
  rewrite Forall_forall in *. intros x Hx. apply filter_In in Hx as [Hx _]. now apply Ht.
Qed.

Lemma insert_sorted_NoDup s l : ~ In s l -> NoDup l -> NoDup (insert_sorted s l).
Proof.
  induction l as [|t l IH]; cbn [insert_sorted]; intros Hs Hl.
  - constructor; [exact Hs | constructor].
  - destruct (String.leb s t); [now constructor|].
    inversion Hl as [|? ? Ht Hl']; subst. constructor.
    + intros Hin. apply insert_sorted_In in Hin as [->|Hin]; [apply Hs; now left | now apply Ht].
    + apply IH; [intros Hin; apply Hs; now right | exact Hl'].
Qed.

Lemma py_sorted_NoDup l : NoDup l -> NoDup (py_sorted l).
Proof.
  induction 1 as [|s l Hs Hl IH]; [constructor|]. cbn. apply insert_sorted_NoDup; [|exact IH].
  now rewrite py_sorted_In.
Qed.

Lemma substring_skip a : forall k n t,
  substring (length a + k) n (a ++ t) = substring k n t.
Proof. induction a as [|c a IH]; intros k n t; [reflexivity | cbn; apply IH]. Qed.

Lemma substring_split s : forall m,
  (m <= length s)%nat -> s = substring 0 m s ++ substring m (length s - m) s.
Proof.
  induction s as [|c s IH]; intros [|m] H; cbn in *; try lia; try reflexivity.
  - now rewrite substring_all.
  - f_equal. apply IH. lia.
Qed.

Lemma py_endswith_app s suffix : py_endswith s suffix = true <-> exists a, s = a ++ suffix.
Proof.
  unfold py_endswith. rewrite andb_true_iff, Nat.leb_le, String.eqb_eq. split.
  - intros [Hl Hs]. exists (substring 0 (length s - length suffix) s).
    pose proof (substring_split s (length s - length suffix)) as Hsp.
    replace (length s - (length s - length suffix))%nat with (length suffix) in Hsp by lia.
    rewrite Hs in Hsp. apply Hsp. lia.
  - intros [a ->]. rewrite length_append. split; [lia|].
    replace (length a + length suffix - length suffix)%nat with (length a + 0)%nat by lia.
    rewrite substring_skip. apply substring_all.
Qed.

Lemma glob_match_shape name :
  glob_match name = true <-> exists middle, name = "config-" ++ middle ++ ".json".
Proof.
  unfold glob_match. rewrite !andb_true_iff, prefix_app, Nat.leb_le. split.
  - intros [[[b ->] He] Hl]. rewrite length_append in Hl. cbn [length] in Hl.
    assert (Hb : py_endswith b ".json" = true).
    { unfold py_endswith in *. rewrite andb_true_iff, Nat.leb_le, String.eqb_eq in *.
      cbn [length] in *. split; [lia|]. destruct He as [_ He].
      rewrite length_append in He. cbn [length] in He.
      replace (7 + length b - 5)%nat with (length "config-" + (length b - 5))%nat in He
        by (cbn [length]; lia).
      now rewrite substring_skip in He. }
    apply py_endswith_app in Hb as [middle ->]. now exists middle.
  - intros [middle ->]. split; [split|].
    + now exists (middle ++ ".json").
    + apply py_endswith_app. exists ("config-" ++ middle). now rewrite append_assoc.
    + rewrite !length_append. cbn [length]. lia.
Qed.

Lemma listed_names d :
  exists names,
    list_available_configs d
    = ((if default_config_exists d then [ DefaultConfig ] else []) ++ map InConfigs names)%list
    /\ (forall name, In name names <->
          exists all, configs_dir d = Some all /\ In name all
                      /\ glob_match name = true /\ py_contains "template" name = false)
    /\ StronglySorted str_le names
    /\ (forall all, configs_dir d = Some all -> NoDup all -> NoDup names).
Proof.
  unfold list_available_configs. cbv zeta. destruct (configs_dir d) as [all|].
  - eexists. split; [reflexivity|]. split; [|split].
    + intros name. rewrite filter_In, py_sorted_In, filter_In, negb_true_iff. split.
      * intros [[H1 H2] H3]. exists all. auto.
      * intros (all' & [= <-] & H1 & H2 & H3). auto.
    + apply filter_sorted, py_sorted_sorted.
    + intros all' [= <-] Hnd. apply NoDup_filter, py_sorted_NoDup, NoDup_filter, Hnd.
  - exists []. split; [now rewrite app_nil_r|]. split; [|split].
    + intros name. split; [intros [] | intros (all & H & _); discriminate H].
    + constructor.
    + intros all H. discriminate H.
Qed.

(** X17.  Which files [list_available_configs] lists: [config.json]
    exactly when it exists, and a file of [configs/] exactly when its name
    is [config-], anything, [.json] and holds no [template]; a template is
    never listed, nor a file of another name. *)
Theorem configs_listed d :
  (In DefaultConfig (list_available_configs d) <-> default_config_exists d = true)
  /\ forall name,
       In (InConfigs name) (list_available_configs d) <->
       exists all,
         configs_dir d = Some all /\ In name all
         /\ (exists middle, name = "config-" ++ middle ++ ".json")
         /\ ~ Infix "template" name.
Proof.
  destruct (listed_names d) as (names & -> & Hin & _). split.
  - rewrite in_app_iff. split.
    + intros [H|H]; [destruct (default_config_exists d); [reflexivity | destruct H]|].
      apply in_map_iff in H as (x & Hx & _). discriminate Hx.
    + intros ->. left. now left.
  - intros name. rewrite in_app_iff. split.
    + intros [H|H].
      * destruct (default_config_exists d); [destruct H as [H|[]]; discriminate H | destruct H].
      * apply in_map_iff in H as (x & [= ->] & Hx).
        apply Hin in Hx as (all & H1 & H2 & H3 & H4). exists all.
        split; [exact H1|]. split; [exact H2|]. split; [now apply glob_match_shape|].
        rewrite <- py_contains_Infix. congruence.
    + intros (all & H1 & H2 & H3 & H4). right. apply in_map, Hin. exists all.
      split; [exact H1|]. split; [exact H2|]. split; [now apply glob_match_shape|].
      destruct (py_contains "template" name) eqn:E; [|reflexivity].
      destruct H4. now apply py_contains_Infix.
Qed.

(** X18.  In what order: [config.json] first, then the files of
    [configs/] by name, ascending; each file once when the directory
    lists each name once. *)
Theorem configs_listed_in_order d :
  exists names,
    list_available_configs d
    = ((if default_config_exists d then [ DefaultConfig ] else []) ++ map InConfigs names)%list
    /\ StronglySorted str_le names
    /\ (forall all, configs_dir d = Some all -> NoDup all ->
        NoDup names /\ NoDup (list_available_configs d)).
Proof.
  destruct (listed_names d) as (names & E & _ & Hs & Hnd). exists names.
  split; [exact E|]. split; [exact Hs|]. intros all Ha Hall.
  pose proof (Hnd all Ha Hall) as Hn. split; [exact Hn|]. rewrite E.
  assert (Hm : NoDup (map InConfigs names)).
  { clear -Hn. induction Hn as [|x l Hx Hl IH]; cbn [map]; constructor; [|exact IH].
    intros H. apply in_map_iff in H as (y & [= ->] & Hy). now apply Hx. }
  destruct (default_config_exists d); [|exact Hm].
  constructor; [|exact Hm]. intros H. apply in_map_iff in H as (x & Hx & _). discriminate Hx.
Qed.

Example sample_dir_listing :
  list_available_configs sample_dir
  = [ DefaultConfig; InConfigs "config-dev.json"; InConfigs "config-prod.json" ].
Proof. reflexivity. Qed.

(** ** The printed listing *)

Lemma summary_fields_summarizable cfg :
  summarizable cfg ->
  exists d, cfg = JDict d
    /\ summary_fields cfg
       = Ok (summary_value d "cluster" "defaultNamespace", summary_value d "cluster" "name",
             summary_value d "organization" "env").
Proof.
  intros (d & -> & Hc & Ho). exists d. split; [reflexivity|].
  unfold summary_fields, summary_value.
  destruct Hc as [E1|[c E1]]; destruct Ho as [E2|[o E2]];
    cbn [py_get rbind]; unfold dict_get; rewrite ?E1, ?E2; cbn [py_get rbind];
    unfold dict_get; rewrite ?E1, ?E2; cbn [py_get rbind];
    unfold dict_get; rewrite ?E1, ?E2; reflexivity.
Qed.

Lemma summary_fields_unsummarizable cfg :
  unsummarizable cfg -> summary_fields cfg = Raise AttributeError.
Proof.
  unfold unsummarizable, misshaped, summary_fields.
  destruct cfg as [| | | | |d]; try reflexivity.
  intros [(v & E & Hv)|(v & E & Hv)].
  - cbn [py_get rbind]. unfold dict_get. rewrite E.
    destruct v; try discriminate Hv; reflexivity.
  - cbn [py_get rbind]. unfold dict_get. rewrite E.
    destruct (lookup "cluster" d) as [c|]; [destruct c; try reflexivity|];
      cbn [py_get rbind]; destruct v; try discriminate Hv; reflexivity.
Qed.

Lemma summarizable_dec cfg : summarizable cfg \/ unsummarizable cfg.
Proof.
  unfold summarizable, unsummarizable, section_shaped, misshaped.
  destruct cfg as [| | | | |d]; try (now right).
  destruct (lookup "cluster" d) as [c|] eqn:Ec.
  - destruct (is_dict c) eqn:Dc; [|right; left; eauto].
    destruct c; try discriminate Dc.
    destruct (lookup "organization" d) as [o|] eqn:Eo.
    + destruct (is_dict o) eqn:Do; [|right; right; eauto].
      destruct o; try discriminate Do. left. exists d. eauto 7.
    + left. exists d. eauto 7.
  - destruct (lookup "organization" d) as [o|] eqn:Eo.
    + destruct (is_dict o) eqn:Do; [|right; right; eauto].
      destruct o; try discriminate Do. left. exists d. eauto 7.
    + left. exists d. eauto 7.
Qed.

Lemma print_summary_run p o w :
  reported o ->
  print_summary p o w = (World (stdout w ++ report_lines p o) (files w), Ok tt).
Proof.
  destruct o as [cfg| |e]; [|reflexivity|intros [k ->]; reflexivity]. intros H.
  destruct (summary_fields_summarizable cfg H) as (d & -> & E).
  unfold print_summary. rewrite E. cbn [report_lines].
  unfold bind, print. cbn [stdout files]. now rewrite <- !app_assoc.
Qed.

Lemma print_summary_abort p o e w :
  stops_with o e -> print_summary p o w = (w, Raise e).
Proof.
  destruct o as [cfg| |e']; cbn [stops_with].
  - intros [H ->]. unfold print_summary. now rewrite (summary_fields_unsummarizable cfg H).
  - intros [].
  - intros [-> H]. destruct e; try reflexivity. now destruct (H key).
Qed.

Lemma print_summaries_run load configs : forall w,
  (forall p, In p configs -> reported (load p)) ->
  print_summaries load configs w
  = (World (stdout w ++ flat_map (fun p => report_lines p (load p)) configs) (files w), Ok tt).
Proof.
  induction configs as [|p configs IH]; intros w H.
  - cbn. rewrite app_nil_r. now destruct w.
  - cbn [print_summaries flat_map]. rewrite bind_run, print_summary_run by (apply H; now left).
    rewrite IH by (intros q Hq; apply H; now right). cbn [stdout files].
    now rewrite <- app_assoc.
Qed.

(** The loop stops at the first file that cannot be reported: the files
    before it have been printed, the files after it are not looked at. *)
Lemma print_summaries_abort load before p after e : forall w,
  (forall q, In q before -> reported (load q)) -> stops_with (load p) e ->
  print_summaries load (before ++ p :: after) w
  = (World (stdout w ++ flat_map (fun q => report_lines q (load q)) before) (files w), Raise e).
Proof.
  induction before as [|q before IH]; intros w H Hs.
  - change (([] ++ p :: after)%list) with (p :: after).
    cbn [print_summaries flat_map]. rewrite bind_run, (print_summary_abort p _ e w Hs).
    rewrite app_nil_r. now destruct w.
  - change (((q :: before) ++ p :: after)%list) with (q :: (before ++ p :: after))%list.
    cbn [print_summaries flat_map]. rewrite bind_run, print_summary_run by (apply H; now left).
    rewrite IH by (try exact Hs; intros q' Hq; apply H; now right). cbn [stdout files].
    now rewrite <- app_assoc.
Qed.

Lemma print_run s w : print s w = (World (stdout w ++ [ s ]) (files w), Ok tt).
Proof. reflexivity. Qed.

(** X19.  When every listed file can be reported (it holds a document
    whose summary can be read, or it cannot be decoded),
    [print_available_configs] returns normally and writes no file.  With
    no file listed it prints the heading and the three lines of advice;
    otherwise the heading, for each file in the order of the listing its
    name with cluster, namespace and environment ([unknown] for what the
    document lacks) or, for a file that cannot be decoded, its name marked
    invalid, and then the usage, with the first listed file as the
    example. *)
Theorem listing_printed inst d load w :
  (forall p, In p (list_available_configs d) -> reported (load p)) ->
  exists out,
    print_available_configs inst d load w = (World (stdout w ++ out) (files w), Ok tt)
    /\ (list_available_configs d = [] -> out = (listing_heading ++ listing_advice inst)%list)
    /\ (forall example rest,
          list_available_configs d = example :: rest ->
          out = (listing_heading
                 ++ flat_map (fun p => report_lines p (load p)) (example :: rest)
                 ++ listing_usage inst example)%list).
Proof.
  intros H. unfold print_available_configs. cbv zeta.
  destruct (list_available_configs d) as [|example rest] eqn:E.
  - eexists. split; [|split; [intros _; reflexivity | intros ? ? H0; discriminate H0]].
    unfold bind, print. cbn [stdout files]. now rewrite <- !app_assoc.
  - eexists. split; [|split; [intros H0; discriminate H0 | intros ? ? [= <- <-]; reflexivity]].
    rewrite bind_run, print_run, bind_run, print_run. cbn [stdout files].
    rewrite bind_run, print_summaries_run by exact H.
    unfold bind, print. cbn [stdout files]. now rewrite <- !app_assoc.
Qed.

(** X20.  The listing stops at the first listed file that cannot be
    reported, with the exception of that file: an [AttributeError] for a
    document that is no object, or whose [cluster] or [organization] is
    there and is no object; whatever [open] or [json.load] raised, when it
    is neither a [JSONDecodeError] nor a [KeyError], the two the handler of
    the loop takes.  The heading and the files before it have been
    printed, the files after it and the usage are not, and no file is
    written. *)
Theorem listing_aborts inst d load w before p after e :
  list_available_configs d = (before ++ p :: after)%list ->
  (forall q, In q before -> reported (load q)) ->
  stops_with (load p) e ->
  print_available_configs inst d load w
  = (World (stdout w ++ listing_heading ++ flat_map (fun q => report_lines q (load q)) before)
           (files w),
     Raise e).
Proof.
  intros E H Hs. unfold print_available_configs. cbv zeta. rewrite E.
  destruct (before ++ p :: after)%list as [|example rest] eqn:E';
    [now destruct before|].
  rewrite bind_run, print_run, bind_run, print_run. cbn [stdout files]. rewrite bind_run.
  rewrite <- E', (print_summaries_abort load before p after e _ H Hs). cbn [stdout files].
  unfold listing_heading. now rewrite <- !app_assoc.
Qed.

Lemma listing_printed_witness :
  exists out,
    print_available_configs sample_installation sample_dir sample_load w0
    = (World (stdout w0 ++ out) (files w0), Ok tt)
    /\ In "     Cluster: c1" out
    /\ In (invalid_line (InConfigs "config-dev.json")) out
    /\ In "     Environment: unknown" out
    /\ In "  python compute_setup.py --config config.json" out.
Proof.
  destruct (listing_printed sample_installation sample_dir sample_load w0) as (out & Hr & _ & Ho).
  - intros p Hin. change (list_available_configs sample_dir)
      with [ DefaultConfig; InConfigs "config-dev.json"; InConfigs "config-prod.json" ] in Hin.
    destruct Hin as [<-|[<-|[<-|[]]]]; cbn; try exact I;
      eexists; (split; [reflexivity|]); split; (now left) || (right; eexists; reflexivity).
  - exists out. split; [exact Hr|].
    rewrite (Ho DefaultConfig [ InConfigs "config-dev.json"; InConfigs "config-prod.json" ] eq_refl).
    cbn. repeat split; tauto.
Defined.

Lemma listing_aborts_witness :
  snd (print_available_configs sample_installation sample_dir sample_load_list w0)
  = Raise AttributeError
  /\ snd (print_available_configs sample_installation sample_dir sample_load_latin1 w0)
     = Raise (ValueError "'utf-8' codec can't decode byte").
Proof.
  split.
  - rewrite (listing_aborts sample_installation sample_dir sample_load_list w0
               [ DefaultConfig; InConfigs "config-dev.json" ] (InConfigs "config-prod.json") []
               AttributeError).
    + reflexivity.
    + reflexivity.
    + intros q [<-|[<-|[]]]; cbn; try exact I.
      eexists; (split; [reflexivity|]); split; (now left) || (right; eexists; reflexivity).
    + split; [exact I | reflexivity].
  - rewrite (listing_aborts sample_installation sample_dir sample_load_latin1 w0
               [ DefaultConfig; InConfigs "config-dev.json" ] (InConfigs "config-prod.json") []
               (ValueError "'utf-8' codec can't decode byte")).
    + reflexivity.
    + reflexivity.
    + intros q [<-|[<-|[]]]; cbn; try exact I.
      eexists; (split; [reflexivity|]); split; (now left) || (right; eexists; reflexivity).
    + split; [reflexivity | discriminate].
Defined.
